(** * DeviceOrientationHelper: a shallow embedding and its properties

    The module [src/helpers/DeviceOrientationHelper.js] is an immediately
    invoked closure: a handful of private variables ([_spec], [_angles],
    [_isEnabled], [_deviceOrientation], [_screenOrientation], [_isThree],
    [_threeInstances]), private functions over them, and a public object
    ([init], [compute_rotationX/Y/Z], [update], [destroy]).

    The closure variables, together with the part of the browser the module
    talks to (the [window] object, its listeners, the pending permission
    promises and the ready signals handed out by [init]), form one record
    [World].  Every JavaScript function is a function on [World]; what the
    browser and the host page do are the constructors of [Action].

    JavaScript numbers are IEEE 754 binary64 values, and so are Rocq's
    primitive floats: arithmetic is modelled with [PrimFloat], rounding
    included. *)

From Stdlib Require Import Floats.PrimFloat Floats.FloatOps Floats.SpecFloat.
From Stdlib Require Import ZArith.
From Stdlib Require Reals Lra.
From Stdlib Require Import Strings.String Strings.Ascii.
From Stdlib Require Import Lists.List Bool.Bool Arith.PeanoNat Arith.Compare_dec Lia.
Import ListNotations.

(** ** JavaScript values *)

Module JS.

(** The values a sensor field or [window.orientation] can hold. *)
Inductive value : Type :=
| undefined : value
| null : value
| Num : float -> value.

(** [Math.PI], the double nearest to pi. *)
Definition Math_PI : float := 0x1.921fb54442d18p+1%float.

(** [x !== x] holds for NaN only. *)
Definition isNaN (x : float) : bool := negb (PrimFloat.eqb x x).

(** ToBoolean: [undefined], [null], [0], [-0] and [NaN] are falsy. *)
Definition ToBoolean (v : value) : bool :=
  match v with
  | undefined => false
  | null => false
  | Num x => negb (PrimFloat.eqb x 0%float) && negb (isNaN x)
  end.

(** ToNumber, as applied by [*] to its operands. *)
Definition ToNumber (v : value) : float :=
  match v with
  | undefined => nan
  | null => 0%float
  | Num x => x
  end.

(** [v || d] *)
Definition or (v d : value) : value := if ToBoolean v then v else d.

(** [v === null] *)
Definition is_null (v : value) : bool :=
  match v with null => true | _ => false end.

(** [typeof v === 'undefined'] *)
Definition is_undefined (v : value) : bool :=
  match v with undefined => true | _ => false end.

(** [s.split(':').shift()]: the text before the first colon, the whole
    string when it has none. *)
Fixpoint split_colon_shift (s : string) : string :=
  match s with
  | EmptyString => EmptyString
  | String c r =>
      if Ascii.eqb c ":"%char then EmptyString
      else String c (split_colon_shift r)
  end.

(** [toUpperCase] on one ASCII character. *)
Definition upper_ascii (c : ascii) : ascii :=
  let n := nat_of_ascii c in
  if (97 <=? n) && (n <=? 122) then ascii_of_nat (n - 32) else c.

(** [s.toUpperCase()], for strings of ASCII characters (error names are). *)
Fixpoint toUpperCase (s : string) : string :=
  match s with
  | EmptyString => EmptyString
  | String c r => String (upper_ascii c) (toUpperCase r)
  end.

(** [array[i] = v] for an index inside the array. *)
Fixpoint array_set (l : list float) (i : nat) (v : float) : list float :=
  match l, i with
  | [], _ => []
  | _ :: t, O => v :: t
  | h :: t, S j => h :: array_set t j v
  end.

End JS.

(** ** Events, elements, options *)

(** A [deviceorientation] event: the three fields the module reads.  A real
    [DeviceOrientationEvent] carries a number or [null]; a plain [Event]
    dispatched under that name carries none of them ([undefined]). *)
Record DeviceOrientationEvent : Type := {
  alpha : JS.value;
  beta : JS.value;
  gamma : JS.value
}.

Inductive label : Type := Lalpha | Lbeta | Lgamma.

(** [device[label]] *)
Definition get_field (device : DeviceOrientationEvent) (l : label) : JS.value :=
  match l with
  | Lalpha => alpha device
  | Lbeta => beta device
  | Lgamma => gamma device
  end.

(** Targets of click listeners: the [window] object or a DOM element. *)
Inductive element : Type :=
| window : element
| Element : nat -> element.

Definition element_eqb (a b : element) : bool :=
  match a, b with
  | window, window => true
  | Element i, Element j => Nat.eqb i j
  | _, _ => false
  end.

(** What the option [THREE] can hold: [null], which is the default; the
    THREE library; or any other value, such as [undefined] (the caller passes
    [window.THREE] and the library is not loaded), which lacks the classes
    of the library, so that [new _THREE['Quaternion']()] throws a
    [TypeError]. *)
Inductive THREE_value : Type :=
| THREE_null : THREE_value
| THREE_library : THREE_value
| THREE_other : THREE_value.

(** [v !== null] *)
Definition THREE_is_not_null (v : THREE_value) : bool :=
  match v with
  | THREE_null => false
  | _ => true
  end.

(** The object [init] works with, after [Object.assign({}, _defaultSpec, spec)].
    [DOMTriggerOnClick] says whether a callback was passed.
    [debugAlerts] is not among the defaults: it is read by [display_alert]
    and is falsy unless the caller supplies it. *)
Record Spec : Type := {
  THREE : THREE_value;
  DOMTrigger : option element;
  DOMTriggerOnClick : bool;
  DOMRetryTrigger : option element;
  isRejectIfMissing : bool;
  debug : bool;
  debugAlerts : bool
}.

Definition _defaultSpec : Spec := {|
  THREE := THREE_null;
  DOMTrigger := None;
  DOMTriggerOnClick := false;
  DOMRetryTrigger := None;
  isRejectIfMissing := false;
  debug := false;
  debugAlerts := false
|}.

(** State of a promise. *)
Inductive Signal : Type := Pending | Fulfilled | Rejected.

(** How a [requestPermission()] promise settles: with a response string, or
    with an error (given by what [error.toString()] yields). *)
Inductive Outcome : Type :=
| Resolves : string -> Outcome
| Fails : string -> Outcome.

(** The two closures the module registers for [click]:
    the one [init] adds on [DOMTrigger], and [retry] of [request_API].  Each
    remembers the ready signal whose [accept]/[reject] it captured; [retry]
    also captures [retriesCount]. *)
Inductive ClickListener : Type :=
| TriggerListener : nat -> ClickListener
| RetryListener : nat -> nat -> ClickListener.

Definition ClickListener_eqb (a b : ClickListener) : bool :=
  match a, b with
  | TriggerListener i, TriggerListener j => Nat.eqb i j
  | RetryListener i n, RetryListener j m => Nat.eqb i j && Nat.eqb n m
  | _, _ => false
  end.

Inductive axis : Type := AxisX | AxisY | AxisZ.

(** What the module throws: [new Error(message)] of its own, or the
    [TypeError] of the engine when a property of [undefined] is read or
    [undefined] is called as a constructor. *)
Inductive Exception : Type :=
| Error : string -> Exception
| TypeError : Exception.

(** ** The math capability

    THREE.js is not part of the repository: the module only calls it.  Its
    classes are an interface.  A method that mutates its receiver takes the
    receiver's value first and returns its new value. *)
Class THREE_API : Type := {
  Quaternion : Type;
  Euler : Type;
  Vector3 : Type;
  (** [new THREE.Quaternion()] *)
  Quaternion_new0 : Quaternion;
  (** [new THREE.Quaternion(x, y, z, w)] *)
  Quaternion_new : float -> float -> float -> float -> Quaternion;
  (** [new THREE.Euler()] *)
  Euler_new0 : Euler;
  (** [new THREE.Vector3(x, y, z)] *)
  Vector3_new : float -> float -> float -> Vector3;
  (** [euler.set(x, y, z, order)] *)
  Euler_set : Euler -> float -> float -> float -> string -> Euler;
  (** [euler.setFromQuaternion(q, order)] *)
  Euler_setFromQuaternion : Euler -> Quaternion -> string -> Euler;
  Euler_x : Euler -> float;
  Euler_y : Euler -> float;
  Euler_z : Euler -> float;
  (** [q.setFromEuler(euler)] *)
  Quaternion_setFromEuler : Quaternion -> Euler -> Quaternion;
  (** [q.multiply(p)]: [q] becomes [q * p] *)
  Quaternion_multiply : Quaternion -> Quaternion -> Quaternion;
  (** [q.setFromAxisAngle(axis, angle)] *)
  Quaternion_setFromAxisAngle : Quaternion -> Vector3 -> float -> Quaternion
}.

(** ** The module and the browser around it *)

Section Helper.

Context {T : THREE_API}.

(** The object [_threeInstances] once [init_threeInstances] has filled it. *)
Record ThreeInstances : Type := {
  quat : Quaternion;
  q0 : Quaternion;
  q1 : Quaternion;
  euler : Euler;
  zee : Vector3
}.

(** The closure variables of the module, then the browser side:
    - [window_orientation] is [window.orientation];
    - [window_DeviceOrientationEvent] is [None] when
      [window.DeviceOrientationEvent] is undefined, and [Some b] when it
      exists, [b] telling whether its [requestPermission] is a function;
    - [on_orientationchange], [on_deviceorientation]: whether the module's two
      handlers are registered on [window];
    - [click_listeners]: the module's click closures, in registration order;
    - [pending]: the [requestPermission()] promises not yet settled, each with
      the ready signal it reports to and the [retriesCount] of its call;
    - [signals]: the promises returned by the successive calls of [init];
    - [alerts]: the messages shown by [alert];
    - [DOMTriggerOnClick_calls]: how often the host callback was invoked.
    [_THREE] is left out: [init] assigns it [_spec.THREE] and nothing else
    writes either, so that it is read as [THREE (current_spec w)].
    [_threeInstances] is [None] while the object is still empty. *)
Record World : Type := {
  _spec : option Spec;
  _angles : list float;
  _isEnabled : bool;
  _deviceOrientation : option DeviceOrientationEvent;
  _screenOrientation : float;
  _isThree : bool;
  _threeInstances : option ThreeInstances;
  window_orientation : JS.value;
  window_DeviceOrientationEvent : option bool;
  on_orientationchange : bool;
  on_deviceorientation : bool;
  click_listeners : list (element * ClickListener);
  pending : list (nat * nat);
  signals : list Signal;
  alerts : list string;
  DOMTriggerOnClick_calls : nat
}.

(** Assignment to one variable. *)
Definition set_spec (v : option Spec) (w : World) : World :=
  {|
    _spec := v; _angles := _angles w; _isEnabled := _isEnabled w;
    _deviceOrientation := _deviceOrientation w;
    _screenOrientation := _screenOrientation w; _isThree := _isThree w;
    _threeInstances := _threeInstances w;
    window_orientation := window_orientation w;
    window_DeviceOrientationEvent := window_DeviceOrientationEvent w;
    on_orientationchange := on_orientationchange w;
    on_deviceorientation := on_deviceorientation w;
    click_listeners := click_listeners w; pending := pending w;
    signals := signals w; alerts := alerts w;
    DOMTriggerOnClick_calls := DOMTriggerOnClick_calls w
  |}.

Definition set_angles (v : list float) (w : World) : World :=
  {|
    _spec := _spec w; _angles := v; _isEnabled := _isEnabled w;
    _deviceOrientation := _deviceOrientation w;
    _screenOrientation := _screenOrientation w; _isThree := _isThree w;
    _threeInstances := _threeInstances w;
    window_orientation := window_orientation w;
    window_DeviceOrientationEvent := window_DeviceOrientationEvent w;
    on_orientationchange := on_orientationchange w;
    on_deviceorientation := on_deviceorientation w;
    click_listeners := click_listeners w; pending := pending w;
    signals := signals w; alerts := alerts w;
    DOMTriggerOnClick_calls := DOMTriggerOnClick_calls w
  |}.

Definition set_isEnabled (v : bool) (w : World) : World :=
  {|
    _spec := _spec w; _angles := _angles w; _isEnabled := v;
    _deviceOrientation := _deviceOrientation w;
    _screenOrientation := _screenOrientation w; _isThree := _isThree w;
    _threeInstances := _threeInstances w;
    window_orientation := window_orientation w;
    window_DeviceOrientationEvent := window_DeviceOrientationEvent w;
    on_orientationchange := on_orientationchange w;
    on_deviceorientation := on_deviceorientation w;
    click_listeners := click_listeners w; pending := pending w;
    signals := signals w; alerts := alerts w;
    DOMTriggerOnClick_calls := DOMTriggerOnClick_calls w
  |}.

Definition set_deviceOrientation (v : option DeviceOrientationEvent) (w : World) : World :=
  {|
    _spec := _spec w; _angles := _angles w; _isEnabled := _isEnabled w;
    _deviceOrientation := v; _screenOrientation := _screenOrientation w;
    _isThree := _isThree w; _threeInstances := _threeInstances w;
    window_orientation := window_orientation w;
    window_DeviceOrientationEvent := window_DeviceOrientationEvent w;
    on_orientationchange := on_orientationchange w;
    on_deviceorientation := on_deviceorientation w;
    click_listeners := click_listeners w; pending := pending w;
    signals := signals w; alerts := alerts w;
    DOMTriggerOnClick_calls := DOMTriggerOnClick_calls w
  |}.

Definition set_screenOrientation (v : float) (w : World) : World :=
  {|
    _spec := _spec w; _angles := _angles w; _isEnabled := _isEnabled w;
    _deviceOrientation := _deviceOrientation w; _screenOrientation := v;
    _isThree := _isThree w; _threeInstances := _threeInstances w;
    window_orientation := window_orientation w;
    window_DeviceOrientationEvent := window_DeviceOrientationEvent w;
    on_orientationchange := on_orientationchange w;
    on_deviceorientation := on_deviceorientation w;
    click_listeners := click_listeners w; pending := pending w;
    signals := signals w; alerts := alerts w;
    DOMTriggerOnClick_calls := DOMTriggerOnClick_calls w
  |}.

Definition set_isThree (v : bool) (w : World) : World :=
  {|
    _spec := _spec w; _angles := _angles w; _isEnabled := _isEnabled w;
    _deviceOrientation := _deviceOrientation w;
    _screenOrientation := _screenOrientation w; _isThree := v;
    _threeInstances := _threeInstances w;
    window_orientation := window_orientation w;
    window_DeviceOrientationEvent := window_DeviceOrientationEvent w;
    on_orientationchange := on_orientationchange w;
    on_deviceorientation := on_deviceorientation w;
    click_listeners := click_listeners w; pending := pending w;
    signals := signals w; alerts := alerts w;
    DOMTriggerOnClick_calls := DOMTriggerOnClick_calls w
  |}.

Definition set_threeInstances (v : option ThreeInstances) (w : World) : World :=
  {|
    _spec := _spec w; _angles := _angles w; _isEnabled := _isEnabled w;
    _deviceOrientation := _deviceOrientation w;
    _screenOrientation := _screenOrientation w; _isThree := _isThree w;
    _threeInstances := v; window_orientation := window_orientation w;
    window_DeviceOrientationEvent := window_DeviceOrientationEvent w;
    on_orientationchange := on_orientationchange w;
    on_deviceorientation := on_deviceorientation w;
    click_listeners := click_listeners w; pending := pending w;
    signals := signals w; alerts := alerts w;
    DOMTriggerOnClick_calls := DOMTriggerOnClick_calls w
  |}.

Definition set_window_orientation (v : JS.value) (w : World) : World :=
  {|
    _spec := _spec w; _angles := _angles w; _isEnabled := _isEnabled w;
    _deviceOrientation := _deviceOrientation w;
    _screenOrientation := _screenOrientation w; _isThree := _isThree w;
    _threeInstances := _threeInstances w; window_orientation := v;
    window_DeviceOrientationEvent := window_DeviceOrientationEvent w;
    on_orientationchange := on_orientationchange w;
    on_deviceorientation := on_deviceorientation w;
    click_listeners := click_listeners w; pending := pending w;
    signals := signals w; alerts := alerts w;
    DOMTriggerOnClick_calls := DOMTriggerOnClick_calls w
  |}.

Definition set_on_orientationchange (v : bool) (w : World) : World :=
  {|
    _spec := _spec w; _angles := _angles w; _isEnabled := _isEnabled w;
    _deviceOrientation := _deviceOrientation w;
    _screenOrientation := _screenOrientation w; _isThree := _isThree w;
    _threeInstances := _threeInstances w;
    window_orientation := window_orientation w;
    window_DeviceOrientationEvent := window_DeviceOrientationEvent w;
    on_orientationchange := v;
    on_deviceorientation := on_deviceorientation w;
    click_listeners := click_listeners w; pending := pending w;
    signals := signals w; alerts := alerts w;
    DOMTriggerOnClick_calls := DOMTriggerOnClick_calls w
  |}.

Definition set_on_deviceorientation (v : bool) (w : World) : World :=
  {|
    _spec := _spec w; _angles := _angles w; _isEnabled := _isEnabled w;
    _deviceOrientation := _deviceOrientation w;
    _screenOrientation := _screenOrientation w; _isThree := _isThree w;
    _threeInstances := _threeInstances w;
    window_orientation := window_orientation w;
    window_DeviceOrientationEvent := window_DeviceOrientationEvent w;
    on_orientationchange := on_orientationchange w;
    on_deviceorientation := v; click_listeners := click_listeners w;
    pending := pending w; signals := signals w; alerts := alerts w;
    DOMTriggerOnClick_calls := DOMTriggerOnClick_calls w
  |}.

Definition set_click_listeners (v : list (element * ClickListener)) (w : World) : World :=
  {|
    _spec := _spec w; _angles := _angles w; _isEnabled := _isEnabled w;
    _deviceOrientation := _deviceOrientation w;
    _screenOrientation := _screenOrientation w; _isThree := _isThree w;
    _threeInstances := _threeInstances w;
    window_orientation := window_orientation w;
    window_DeviceOrientationEvent := window_DeviceOrientationEvent w;
    on_orientationchange := on_orientationchange w;
    on_deviceorientation := on_deviceorientation w; click_listeners := v;
    pending := pending w; signals := signals w; alerts := alerts w;
    DOMTriggerOnClick_calls := DOMTriggerOnClick_calls w
  |}.

Definition set_pending (v : list (nat * nat)) (w : World) : World :=
  {|
    _spec := _spec w; _angles := _angles w; _isEnabled := _isEnabled w;
    _deviceOrientation := _deviceOrientation w;
    _screenOrientation := _screenOrientation w; _isThree := _isThree w;
    _threeInstances := _threeInstances w;
    window_orientation := window_orientation w;
    window_DeviceOrientationEvent := window_DeviceOrientationEvent w;
    on_orientationchange := on_orientationchange w;
    on_deviceorientation := on_deviceorientation w;
    click_listeners := click_listeners w; pending := v; signals := signals w;
    alerts := alerts w; DOMTriggerOnClick_calls := DOMTriggerOnClick_calls w
  |}.

Definition set_signals (v : list Signal) (w : World) : World :=
  {|
    _spec := _spec w; _angles := _angles w; _isEnabled := _isEnabled w;
    _deviceOrientation := _deviceOrientation w;
    _screenOrientation := _screenOrientation w; _isThree := _isThree w;
    _threeInstances := _threeInstances w;
    window_orientation := window_orientation w;
    window_DeviceOrientationEvent := window_DeviceOrientationEvent w;
    on_orientationchange := on_orientationchange w;
    on_deviceorientation := on_deviceorientation w;
    click_listeners := click_listeners w; pending := pending w; signals := v;
    alerts := alerts w; DOMTriggerOnClick_calls := DOMTriggerOnClick_calls w
  |}.

Definition set_alerts (v : list string) (w : World) : World :=
  {|
    _spec := _spec w; _angles := _angles w; _isEnabled := _isEnabled w;
    _deviceOrientation := _deviceOrientation w;
    _screenOrientation := _screenOrientation w; _isThree := _isThree w;
    _threeInstances := _threeInstances w;
    window_orientation := window_orientation w;
    window_DeviceOrientationEvent := window_DeviceOrientationEvent w;
    on_orientationchange := on_orientationchange w;
    on_deviceorientation := on_deviceorientation w;
    click_listeners := click_listeners w; pending := pending w;
    signals := signals w; alerts := v;
    DOMTriggerOnClick_calls := DOMTriggerOnClick_calls w
  |}.

Definition set_DOMTriggerOnClick_calls (v : nat) (w : World) : World :=
  {|
    _spec := _spec w; _angles := _angles w; _isEnabled := _isEnabled w;
    _deviceOrientation := _deviceOrientation w;
    _screenOrientation := _screenOrientation w; _isThree := _isThree w;
    _threeInstances := _threeInstances w;
    window_orientation := window_orientation w;
    window_DeviceOrientationEvent := window_DeviceOrientationEvent w;
    on_orientationchange := on_orientationchange w;
    on_deviceorientation := on_deviceorientation w;
    click_listeners := click_listeners w; pending := pending w;
    signals := signals w; alerts := alerts w; DOMTriggerOnClick_calls := v
  |}.

(** The module as loaded, in a browser with the given [window.orientation] and
    [window.DeviceOrientationEvent]. *)
Definition loaded (orientation : JS.value) (doe : option bool) : World := {|
  _spec := None;
  _angles := [0%float; 0%float; 0%float; 0%float];
  _isEnabled := false;
  _deviceOrientation := None;
  _screenOrientation := 0%float;
  _isThree := false;
  _threeInstances := None;
  window_orientation := orientation;
  window_DeviceOrientationEvent := doe;
  on_orientationchange := false;
  on_deviceorientation := false;
  click_listeners := [];
  pending := [];
  signals := [];
  alerts := [];
  DOMTriggerOnClick_calls := 0
|}.

Definition _d2r : float := (JS.Math_PI / 180)%float.

(** [_spec], for the functions that read its fields.  They run only from
    [init] on, when [_spec] is set; before that the defaults stand in. *)
Definition current_spec (w : World) : Spec :=
  match _spec w with
  | Some sp => sp
  | None => _defaultSpec
  end.

(** [device] is the value of [_deviceOrientation], which [update] has checked
    before the call. *)
Definition get_deviceEulerAngle (device : DeviceOrientationEvent) (l : label)
  : float :=
  if JS.is_undefined (get_field device l) then 0%float
  else (_d2r * JS.ToNumber (get_field device l))%float.

Definition add_eventListeners (w : World) : World :=
  let w := set_isEnabled true w in
  let w := set_on_orientationchange true w in
  set_on_deviceorientation true w.

Definition remove_eventListeners (w : World) : World :=
  let w := set_isEnabled false w in
  let w := set_on_orientationchange false w in
  set_on_deviceorientation false w.

Definition onDeviceOrientationChangeEvent (event : DeviceOrientationEvent)
  (w : World) : World :=
  if JS.is_null (alpha event) || JS.is_null (beta event)
     || JS.is_null (gamma event)
  then w
  else set_deviceOrientation (Some event) w.

Definition onScreenOrientationChangeEvent (w : World) : World :=
  let so := JS.or (window_orientation w) (JS.Num 0%float) in
  set_screenOrientation (JS.ToNumber so * _d2r)%float w.

(** The five objects are built before [Object.assign] runs: when [_THREE]
    is not the library the first [new] throws and [_threeInstances] is left
    as it was. *)
Definition init_threeInstances (w : World) : Exception + World :=
  match THREE (current_spec w) with
  | THREE_library =>
      inr (set_threeInstances
             (Some {| quat := Quaternion_new0;
                      q0 := Quaternion_new0;
                      q1 := Quaternion_new (- sqrt 0.5)%float 0%float 0%float
                              (sqrt 0.5)%float;
                      euler := Euler_new0;
                      zee := Vector3_new 0%float 0%float 1%float |}) w)
  | _ => inl TypeError
  end.

(** [set_quaternion(quaternion, alpha, beta, gamma, orient)], for the one
    quaternion it is called with, [_threeInstances.quat].  It writes the
    scratch objects [euler] and [q0] as well. *)
Definition set_quaternion (ti : ThreeInstances)
  (alpha beta gamma orient : float) : ThreeInstances :=
  let e := Euler_set (euler ti) beta alpha (- gamma)%float "YXZ" in
  let q := Quaternion_setFromEuler (quat ti) e in
  let q := Quaternion_multiply q (q1 ti) in
  let q0' := Quaternion_setFromAxisAngle (q0 ti) (zee ti) (- orient)%float in
  let q := Quaternion_multiply q q0' in
  {| quat := q; q0 := q0'; q1 := q1 ti; euler := e; zee := zee ti |}.

Definition display_alert (msg : string) (w : World) : World :=
  if debugAlerts (current_spec w) then set_alerts (alerts w ++ [msg]) w
  else w.

(** Settling a promise: only a pending one changes. *)
Fixpoint settle_in (l : list Signal) (k : nat) (s : Signal) : list Signal :=
  match l, k with
  | [], _ => []
  | Pending :: t, O => s :: t
  | x :: t, O => x :: t
  | x :: t, S k' => x :: settle_in t k' s
  end.

(** [accept()] and [reject()] of the ready signal [k] (reached directly, or
    through the [.then(accept).catch(reject)] that forwards an inner
    promise of [request_API]). *)
Definition accept (k : nat) (w : World) : World :=
  set_signals (settle_in (signals w) k Fulfilled) w.

Definition reject (k : nat) (w : World) : World :=
  set_signals (settle_in (signals w) k Rejected) w.

(** [typeof window.DeviceOrientationEvent.requestPermission === 'function'],
    guarded by [window.DeviceOrientationEvent !== undefined]. *)
Definition has_requestPermission (w : World) : bool :=
  match window_DeviceOrientationEvent w with
  | Some b => b
  | None => false
  end.

(** The synchronous part of [request_API(retriesCount)], for the ready signal
    [k]: either [requestPermission()] is called and its promise is left
    pending, or the outcome is decided on the spot. *)
Definition request_API (retriesCount k : nat) (w : World) : World :=
  if has_requestPermission w then
    set_pending (pending w ++ [(k, retriesCount)]) w
  else if isRejectIfMissing (current_spec w) then
    let w := display_alert "DeviceOrientationEvent missing" w in
    reject k w
  else
    let w := add_eventListeners w in
    let w :=
      display_alert
        "DeviceOrientationEvent available without requestPermission" w in
    accept k w.

(** [error.toString().split(':').shift().toUpperCase()] *)
Definition errorType (error : string) : string :=
  JS.toUpperCase (JS.split_colon_shift error).

Fixpoint remove_nth {A : Type} (i : nat) (l : list A) : list A :=
  match l, i with
  | [], _ => []
  | _ :: t, O => t
  | h :: t, S j => h :: remove_nth j t
  end.

(** The [.then] callback of [requestPermission()]. *)
Definition on_response (k : nat) (response : string) (w : World) : World :=
  let w :=
    display_alert ("DeviceOrientationEvent response = " ++ response) w in
  let w :=
    if String.eqb response "granted" then
      let w := add_eventListeners w in
      display_alert "DeviceOrientationEvent requestPermission granted" w
    else
      display_alert
        "DeviceOrientationEvent requestPermission refused. It will not work as well"
        w in
  accept k w.

(** The [.catch] callback of [requestPermission()] ([console.error] writes no
    state and is left out). *)
Definition on_error (retriesCount k : nat) (error : string) (w : World)
  : World :=
  let w := display_alert ("DeviceOrientationEvent error = " ++ error) w in
  if String.eqb (errorType error) "NOTALLOWEDERROR"
     && match DOMTrigger (current_spec w) with Some _ => false | None => true end
     && Nat.eqb retriesCount 0
  then
    let DOMRetryTrigger :=
      match DOMRetryTrigger (current_spec w) with
      | Some el => el
      | None => window
      end in
    set_click_listeners
      (click_listeners w ++ [(DOMRetryTrigger, RetryListener k retriesCount)])
      w
  else reject k w.

(** The [i]-th pending [requestPermission()] promise settles. *)
Definition permission_settles (i : nat) (o : Outcome) (w : World) : World :=
  match nth_error (pending w) i with
  | None => w
  | Some (k, retriesCount) =>
      let w := set_pending (remove_nth i (pending w)) w in
      match o with
      | Resolves response => on_response k response w
      | Fails error => on_error retriesCount k error w
      end
  end.

Definition listener_eqb (a b : element * ClickListener) : bool :=
  element_eqb (fst a) (fst b) && ClickListener_eqb (snd a) (snd b).

(** [el.removeEventListener('click', l)] *)
Fixpoint remove_listener (x : element * ClickListener)
  (l : list (element * ClickListener)) : list (element * ClickListener) :=
  match l with
  | [] => []
  | y :: t => if listener_eqb x y then t else y :: remove_listener x t
  end.

(** The body of a click closure registered on [el]. *)
Definition run_click_listener (el : element) (l : ClickListener) (w : World)
  : World :=
  match l with
  | TriggerListener k =>
      let w :=
        if DOMTriggerOnClick (current_spec w)
        then set_DOMTriggerOnClick_calls (S (DOMTriggerOnClick_calls w)) w
        else w in
      request_API 0 k w
  | RetryListener k retriesCount =>
      let w := display_alert "DeviceOrientationEvent retry..." w in
      let w :=
        set_click_listeners
          (remove_listener (el, RetryListener k retriesCount)
             (click_listeners w)) w in
      request_API (retriesCount + 1) k w
  end.

(** The click event reaches [el] (as its target, or on its way up to
    [window]): the closures registered on [el] run in registration order. *)
Definition click (el : element) (w : World) : World :=
  fold_left (fun w p => run_click_listener (fst p) (snd p) w)
    (filter (fun p => element_eqb (fst p) el) (click_listeners w)) w.

(** [init(spec)]: it returns the ready signal, a new promise, which is the
    last of [signals]; or it throws what [init_threeInstances] throws, and
    then nothing after that call has run. *)
Definition init (spec : Spec) (w : World) : (Exception + nat) * World :=
  let w := set_spec (Some spec) w in
  let w := set_isThree (THREE_is_not_null (THREE spec)) w in
  match (if _isThree w then init_threeInstances w else inr w) with
  | inl e => (inl e, w)
  | inr w =>
      let w := onScreenOrientationChangeEvent w in
      let k := length (signals w) in
      let w := set_signals (signals w ++ [Pending]) w in
      (inr k,
       match DOMTrigger spec with
       | Some el =>
           set_click_listeners
             (click_listeners w ++ [(el, TriggerListener k)]) w
       | None => request_API 0 k w
       end)
  end.

Definition Euler_component (a : axis) (e : Euler) : float :=
  match a with
  | AxisX => Euler_x e
  | AxisY => Euler_y e
  | AxisZ => Euler_z e
  end.

(** The common body of [compute_rotationX], [compute_rotationY] and
    [compute_rotationZ], which differ in the component they read. *)
Definition compute_rotation (a : axis) (q : Quaternion) (w : World)
  : (Exception + float) * World :=
  if negb (_isThree w) then (inl (Error "Please provide THREE"), w)
  else
    match _threeInstances w with
    | None => (inl TypeError, w)
    | Some ti =>
        let e := Euler_setFromQuaternion (euler ti) q "YXZ" in
        (inr (Euler_component a e),
         set_threeInstances
           (Some {| quat := quat ti; q0 := q0 ti; q1 := q1 ti;
                    euler := e; zee := zee ti |}) w)
    end.


(** What [update] returns: [null], or a reference to one of the two objects
    the module keeps, [_threeInstances.quat] and [_angles]. *)
Inductive UpdateResult : Type :=
| ReturnsNull
| ReturnsQuat
| ReturnsAngles
| Throws : Exception -> UpdateResult.

Definition update (w : World) : UpdateResult * World :=
  match _isEnabled w, _deviceOrientation w with
  | true, Some device =>
      let alpha := get_deviceEulerAngle device Lalpha in
      let beta := get_deviceEulerAngle device Lbeta in
      let gamma := get_deviceEulerAngle device Lgamma in
      if _isThree w then
        match _threeInstances w with
        | None => (Throws TypeError, w)
        | Some ti =>
            (ReturnsQuat,
             set_threeInstances
               (Some (set_quaternion ti alpha beta gamma
                        (_screenOrientation w))) w)
        end
      else
        let a := _angles w in
        let a := JS.array_set a 0 alpha in
        let a := JS.array_set a 1 beta in
        let a := JS.array_set a 2 gamma in
        let a := JS.array_set a 3 (_screenOrientation w) in
        (ReturnsAngles, set_angles a w)
  | _, _ => (ReturnsNull, w)
  end.

Definition destroy (w : World) : World := remove_eventListeners w.

(** ** What can happen

    The host page calls [init], [update], [compute_rotationX/Y/Z] and
    [destroy]; the browser dispatches clicks, sensor samples and screen
    rotations, and settles the permission promises, the [i]-th pending one
    in [PermissionSettles i o]. *)

Inductive Action : Type :=
| Init : Spec -> Action
| Click : element -> Action
| PermissionSettles : nat -> Outcome -> Action
| DeviceOrientation : DeviceOrientationEvent -> Action
| OrientationChange : JS.value -> Action
| Update : Action
| ComputeRotation : axis -> Quaternion -> Action
| Destroy : Action.

(** The browser delivers an event to a handler only while it is registered.
    A call that throws ends there: what it has written stays, and the next
    action finds the world it left. *)
Definition step (a : Action) (w : World) : World :=
  match a with
  | Init spec => snd (init spec w)
  | Click el => click el w
  | PermissionSettles i o => permission_settles i o w
  | DeviceOrientation event =>
      if on_deviceorientation w then onDeviceOrientationChangeEvent event w
      else w
  | OrientationChange v =>
      let w := set_window_orientation v w in
      if on_orientationchange w then onScreenOrientationChangeEvent w else w
  | Update => snd (update w)
  | ComputeRotation a q => snd (compute_rotation a q w)
  | Destroy => destroy w
  end.

Fixpoint run (t : list Action) (w : World) : World :=
  match t with
  | [] => w
  | a :: t' => run t' (step a w)
  end.

End Helper.

Arguments World {T}.
Arguments ThreeInstances {T}.
Arguments Action {T}.

(** ** A stand-in for the math capability

    The module never looks inside a quaternion: what it does with the
    capability is the sequence of calls it makes.  This instance builds the
    term of those calls, so that the module can be run on concrete inputs.
    The components of a decomposed rotation are not computed: they read as
    [NaN]. *)
Module Recorder.

Inductive RQuaternion : Type :=
| Q_new0 : RQuaternion
| Q_new : float -> float -> float -> float -> RQuaternion
| Q_setFromEuler : REuler -> RQuaternion
| Q_multiply : RQuaternion -> RQuaternion -> RQuaternion
| Q_setFromAxisAngle : float * float * float -> float -> RQuaternion
with REuler : Type :=
| E_new0 : REuler
| E_set : float -> float -> float -> string -> REuler
| E_setFromQuaternion : RQuaternion -> string -> REuler.

Definition component (pick : float * float * float -> float) (e : REuler)
  : float :=
  match e with
  | E_new0 => pick (0, 0, 0)%float
  | E_set x y z _ => pick (x, y, z)
  | E_setFromQuaternion _ _ => nan
  end.

#[export] Instance api : THREE_API := {|
  Quaternion := RQuaternion;
  Euler := REuler;
  Vector3 := float * float * float;
  Quaternion_new0 := Q_new0;
  Quaternion_new := Q_new;
  Euler_new0 := E_new0;
  Vector3_new := fun x y z => (x, y, z);
  Euler_set := fun _ x y z order => E_set x y z order;
  Euler_setFromQuaternion := fun _ q order => E_setFromQuaternion q order;
  Euler_x := component (fun v => fst (fst v));
  Euler_y := component (fun v => snd (fst v));
  Euler_z := component (fun v => snd v);
  Quaternion_setFromEuler := fun _ e => Q_setFromEuler e;
  Quaternion_multiply := Q_multiply;
  Quaternion_setFromAxisAngle := fun _ v angle => Q_setFromAxisAngle v angle
|}.

End Recorder.

(** ** Notions the statements use *)

Section Notions.

Context {T : THREE_API}.

(** The sample passes the test of [onDeviceOrientationChangeEvent]: none of
    its three fields is [null]. *)
Definition accepted (event : DeviceOrientationEvent) : bool :=
  negb (JS.is_null (alpha event) || JS.is_null (beta event)
        || JS.is_null (gamma event)).

Definition present (v : JS.value) : bool :=
  match v with JS.Num _ => true | _ => false end.

(** A valid sample in the words of the specification: all three fields are
    present and non-null. *)
Definition valid_sample (event : DeviceOrientationEvent) : bool :=
  present (alpha event) && present (beta event) && present (gamma event).

(** The samples the handler [onDeviceOrientationChangeEvent] was called with
    while the trace [t] ran from [w]. *)
Fixpoint samples_received (t : list Action) (w : World)
  : list DeviceOrientationEvent :=
  match t with
  | [] => []
  | a :: t' =>
      match a with
      | DeviceOrientation event =>
          if on_deviceorientation w then [event] else []
      | _ => []
      end ++ samples_received t' (step a w)
  end.

(** The options are those [init] runs to its end with: [THREE] is [null] or
    the library.  With any other value [init] throws before it reads the
    screen orientation and before it makes the ready signal. *)
Definition init_completes (spec : Spec) : bool :=
  match THREE spec with
  | THREE_other => false
  | _ => true
  end.

(** The value of [window.orientation] at the latest run of
    [onScreenOrientationChangeEvent] (an [init] that runs to its end runs it
    once, the browser runs it on each rotation while it is registered); [r0]
    when it never ran. *)
Fixpoint last_report (t : list Action) (w : World) (r0 : JS.value)
  : JS.value :=
  match t with
  | [] => r0
  | a :: t' =>
      last_report t' (step a w)
        match a with
        | Init spec =>
            if init_completes spec then window_orientation w else r0
        | OrientationChange v => if on_orientationchange w then v else r0
        | _ => r0
        end
  end.

(** What [onScreenOrientationChangeEvent] stores when [window.orientation]
    is [r]. *)
Definition offset_of_report (r : JS.value) : float :=
  (JS.ToNumber (JS.or r (JS.Num 0)) * _d2r)%float.

(** A field of the stored sample in radians as the specification words it:
    degrees times pi/180, and 0 for a field that is not there. *)
Definition radians (v : JS.value) : float :=
  match v with
  | JS.Num x => (_d2r * x)%float
  | _ => 0%float
  end.

(** The math capability is configured: the latest [init] was given the
    THREE library. *)
Definition math_configured (w : World) : bool :=
  match THREE (current_spec w) with
  | THREE_library => true
  | _ => false
  end.

(** No math capability is asked for: [init] has not been called, or the
    latest [init] was given no [THREE] or [null]. *)
Definition math_left_out (w : World) : bool :=
  match THREE (current_spec w) with
  | THREE_null => true
  | _ => false
  end.

(** The ready signal returned by the [k]-th call of [init]. *)
Definition ready_signal (w : World) (k : nat) : option Signal :=
  nth_error (signals w) k.

(** The element [retry] is registered on: [_spec.DOMRetryTrigger || window]. *)
Definition retry_element (spec : Spec) : element :=
  match DOMRetryTrigger spec with
  | Some el => el
  | None => window
  end.

(** The test of the [.catch] callback: a not-allowed error, no [DOMTrigger],
    first attempt. *)
Definition retries (spec : Spec) (retriesCount : nat) (error : string)
  : bool :=
  String.eqb (errorType error) "NOTALLOWEDERROR"
  && match DOMTrigger spec with Some _ => false | None => true end
  && Nat.eqb retriesCount 0.

(** The click closures registered on [el]. *)
Definition listeners_on (el : element) (w : World)
  : list (element * ClickListener) :=
  filter (fun p => element_eqb (fst p) el) (click_listeners w).

(** The ready signal a click closure reports to. *)
Definition signal_of (l : ClickListener) : nat :=
  match l with
  | TriggerListener k => k
  | RetryListener k _ => k
  end.

(** The outcome of the permission request on a platform without
    [requestPermission], for the ready signal [k]: rejected when
    [isRejectIfMissing] is set; otherwise fulfilled, with the subscription
    enabled, so that a sample without a [null] field delivered next is
    stored. *)
Definition unsupported_outcome (spec : Spec) (k : nat) (w : World) : Prop :=
  if isRejectIfMissing spec then ready_signal w k = Some Rejected
  else
    ready_signal w k = Some Fulfilled
    /\ _isEnabled w = true
    /\ on_orientationchange w = true
    /\ on_deviceorientation w = true
    /\ forall event,
         accepted event = true ->
         _deviceOrientation (step (DeviceOrientation event) w) = Some event.

(** The fields [display_alert] does not write, apart from those of
    [same_core]. *)
Record same_flow (w w' : World) : Prop := {
  sf_enabled : _isEnabled w' = _isEnabled w;
  sf_orientationchange : on_orientationchange w' = on_orientationchange w;
  sf_deviceorientation : on_deviceorientation w' = on_deviceorientation w;
  sf_click : click_listeners w' = click_listeners w;
  sf_pending : pending w' = pending w;
  sf_signals : signals w' = signals w;
  sf_calls : DOMTriggerOnClick_calls w' = DOMTriggerOnClick_calls w
}.

(** The fields the permission machinery does not write. *)
Record same_core (w w' : World) : Prop := {
  sc_spec : _spec w' = _spec w;
  sc_angles : _angles w' = _angles w;
  sc_device : _deviceOrientation w' = _deviceOrientation w;
  sc_screen : _screenOrientation w' = _screenOrientation w;
  sc_isThree : _isThree w' = _isThree w;
  sc_instances : _threeInstances w' = _threeInstances w;
  sc_orientation : window_orientation w' = window_orientation w;
  sc_doe : window_DeviceOrientationEvent w' = window_DeviceOrientationEvent w
}.

(** While [_spec] is still [null] no closure of the module is registered
    and no request is pending: the functions that read [_spec] do not run. *)
Definition spec_is_set (w : World) : Prop :=
  _spec w = None -> click_listeners w = [] /\ pending w = [].

(** What holds of the module in every world it can reach. *)
Record invariant (w : World) : Prop := {
  inv_angles : length (_angles w) = 4;
  inv_isThree : _isThree w = negb (math_left_out w);
  inv_instances :
    math_configured w = true ->
    exists ti, _threeInstances w = Some ti
      /\ q1 ti = Quaternion_new (- sqrt 0.5)%float 0%float 0%float
                   (sqrt 0.5)%float
      /\ zee ti = Vector3_new 0%float 0%float 1%float;
  inv_orientationchange : on_orientationchange w = _isEnabled w;
  inv_deviceorientation : on_deviceorientation w = _isEnabled w;
  inv_pending : Forall (fun p => snd p <= 1) (pending w);
  inv_retry :
    Forall (fun p => match snd p with
                     | RetryListener _ n => n = 0
                     | TriggerListener _ => True
                     end) (click_listeners w)
}.

End Notions.

(** ** Further notions

    What the statements of the last part of the file use. *)

Section MoreNotions.

Context {T : THREE_API}.

(** What the handler leaves stored after it was called with the samples [l]
    in turn, [stored] being there before: the last one it accepts. *)
Definition last_accepted (l : list DeviceOrientationEvent)
  (stored : option DeviceOrientationEvent) : option DeviceOrientationEvent :=
  fold_left (fun kept event => if accepted event then Some event else kept)
    l stored.

Definition is_retry (l : ClickListener) : bool :=
  match l with
  | RetryListener _ _ => true
  | TriggerListener _ => false
  end.

Definition is_trigger (l : ClickListener) : bool := negb (is_retry l).

(** The call of [request_API] a click closure makes: the ready signal it
    reports to and the [retriesCount] it passes. *)
Definition request_of (p : element * ClickListener) : nat * nat :=
  match snd p with
  | TriggerListener k => (k, 0)
  | RetryListener k retriesCount => (k, retriesCount + 1)
  end.

(** The options with [debugAlerts] switched off. *)
Definition without_debugAlerts (spec : Spec) : Spec := {|
  THREE := THREE spec;
  DOMTrigger := DOMTrigger spec;
  DOMTriggerOnClick := DOMTriggerOnClick spec;
  DOMRetryTrigger := DOMRetryTrigger spec;
  isRejectIfMissing := isRejectIfMissing spec;
  debug := debug spec;
  debugAlerts := false
|}.

(** The options with [debug] and [debugAlerts] switched off. *)
Definition without_alert_options (spec : Spec) : Spec := {|
  THREE := THREE spec;
  DOMTrigger := DOMTrigger spec;
  DOMTriggerOnClick := DOMTriggerOnClick spec;
  DOMRetryTrigger := DOMRetryTrigger spec;
  isRejectIfMissing := isRejectIfMissing spec;
  debug := false;
  debugAlerts := false
|}.

(** [g] changes the alert options only, and switches [debugAlerts] off. *)
Definition switches_alerts_off (g : Spec -> Spec) : Prop :=
  forall spec,
    THREE (g spec) = THREE spec
    /\ DOMTrigger (g spec) = DOMTrigger spec
    /\ DOMTriggerOnClick (g spec) = DOMTriggerOnClick spec
    /\ DOMRetryTrigger (g spec) = DOMRetryTrigger spec
    /\ isRejectIfMissing (g spec) = isRejectIfMissing spec
    /\ debugAlerts (g spec) = false.

(** The world with the alert log emptied and the options in [_spec] passed
    through [g]. *)
Definition quiet_with (g : Spec -> Spec) (w : World) : World := {|
  _spec := option_map g (_spec w);
  _angles := _angles w;
  _isEnabled := _isEnabled w;
  _deviceOrientation := _deviceOrientation w;
  _screenOrientation := _screenOrientation w;
  _isThree := _isThree w;
  _threeInstances := _threeInstances w;
  window_orientation := window_orientation w;
  window_DeviceOrientationEvent := window_DeviceOrientationEvent w;
  on_orientationchange := on_orientationchange w;
  on_deviceorientation := on_deviceorientation w;
  click_listeners := click_listeners w;
  pending := pending w;
  signals := signals w;
  alerts := [];
  DOMTriggerOnClick_calls := DOMTriggerOnClick_calls w
|}.

(** The same action, [init] being given the options passed through [g]. *)
Definition quiet_action_with (g : Spec -> Spec) (a : Action) : Action :=
  match a with
  | Init spec => Init (g spec)
  | _ => a
  end.

(** The world and the action without alerts: log emptied, [debug] and
    [debugAlerts] switched off. *)
Definition quiet : World -> World := quiet_with without_alert_options.

Definition quiet_action : Action -> Action :=
  quiet_action_with without_alert_options.

(** The world without the contents of the two scratch objects, the buffer
    [_angles] and [_threeInstances]. *)
Definition without_scratch (w : World) : World :=
  set_threeInstances None (set_angles [] w).

(** [update()] and [compute_rotationX/Y/Z]: the calls of the render loop. *)
Definition reads_rotation (a : Action) : bool :=
  match a with
  | Update => true
  | ComputeRotation _ _ => true
  | _ => false
  end.

(** A permission request is answered ['granted']. *)
Definition grants (a : Action) : bool :=
  match a with
  | PermissionSettles _ (Resolves response) => String.eqb response "granted"
  | _ => false
  end.

(** [init] is given [debugAlerts]. *)
Definition asks_for_alerts (a : Action) : bool :=
  match a with
  | Init spec => debugAlerts spec
  | _ => false
  end.

End MoreNotions.

(** ** Reading a double as a real number

    To say which rotation the fixed quaternion [q1] stands for, its
    components are read as real numbers and set against the quaternion of an
    axis and an angle, (axis * sin (angle / 2), cos (angle / 2)). *)
Module FixedCorrection.

Import Reals.

(** 2 to the power [e], [e] of either sign. *)
Definition pow2 (e : Z) : R :=
  if (0 <=? e)%Z then IZR (2 ^ e) else (/ IZR (2 ^ (- e)))%R.

(** The real number a finite double is (0 for what is not finite). *)
Definition float_value (f : float) : R :=
  match Prim2SF f with
  | S754_finite s m e => ((if s then -1 else 1) * IZR (Zpos m) * pow2 e)%R
  | _ => 0%R
  end.

(** The unit quaternion (x, y, z, w) of the rotation by [angle] about the
    unit axis (ax, ay, az). *)
Definition axis_angle (ax ay az angle : R) : R * R * R * R :=
  (ax * sin (angle / 2), ay * sin (angle / 2), az * sin (angle / 2),
   cos (angle / 2))%R.

End FixedCorrection.

(** ** Sample inputs

    Options, samples and browsers for the runs at the end of the file. *)
Module Inputs.

Import Recorder.

Definition sample (a b c : float) : DeviceOrientationEvent :=
  {| alpha := JS.Num a; beta := JS.Num b; gamma := JS.Num c |}.

(** A plain [Event] named [deviceorientation] would read like this one for
    alpha. *)
Definition sample_without_alpha (b c : float) : DeviceOrientationEvent :=
  {| alpha := JS.undefined; beta := JS.Num b; gamma := JS.Num c |}.

Definition with_THREE : Spec := {|
  THREE := THREE_library;
  DOMTrigger := None;
  DOMTriggerOnClick := false;
  DOMRetryTrigger := None;
  isRejectIfMissing := false;
  debug := false;
  debugAlerts := false
|}.


Definition with_DOMTrigger (el : element) (reject : bool) : Spec := {|
  THREE := THREE_null;
  DOMTrigger := Some el;
  DOMTriggerOnClick := false;
  DOMRetryTrigger := None;
  isRejectIfMissing := reject;
  debug := false;
  debugAlerts := false
|}.

(** A browser without [requestPermission], held upright. *)
Definition ungated : @World api := loaded (JS.Num 0) None.

(** A browser with [requestPermission] (iOS 13+), held upright. *)
Definition gated : @World api := loaded (JS.Num 0) (Some true).

End Inputs.

(** Further inputs: options with [debug] set, options with a [DOMTrigger]
    and its callback, the error Safari raises when the request is not made
    from a user gesture, and a world with two click closures on [window]. *)
Module MoreInputs.

Import Recorder Inputs.

Definition with_debug : Spec := {|
  THREE := THREE_null;
  DOMTrigger := None;
  DOMTriggerOnClick := false;
  DOMRetryTrigger := None;
  isRejectIfMissing := false;
  debug := true;
  debugAlerts := false
|}.

Definition with_callback (el : element) : Spec := {|
  THREE := THREE_null;
  DOMTrigger := Some el;
  DOMTriggerOnClick := true;
  DOMRetryTrigger := None;
  isRejectIfMissing := false;
  debug := false;
  debugAlerts := false
|}.

Definition not_allowed : string :=
  "NotAllowedError: Requesting device orientation access requires a user gesture to prompt".

(** A [retry] closure of a first [init] and the [DOMTrigger] closure of a
    second one, both on [window]. *)
Definition two_closures : @World api :=
  run [Init _defaultSpec; PermissionSettles 0 (Fails not_allowed);
       Init (with_DOMTrigger window false)] gated.

End MoreInputs.

(** ** Frame and invariant lemmas *)

Section Lemmas.

Context {T : THREE_API}.

Ltac break_if :=
  match goal with
  | |- context [if ?b then _ else _] => destruct b eqn:?
  | |- context [match ?x with Some _ => _ | None => _ end] => destruct x eqn:?
  end.

Ltac unfold_basic :=
  unfold request_API, on_response, on_error, accept, reject, display_alert,
    add_eventListeners, remove_eventListeners, destroy,
    onDeviceOrientationChangeEvent, onScreenOrientationChangeEvent,
    init_threeInstances.

Lemma same_core_refl (w : World) : same_core w w.
Proof. constructor; reflexivity. Qed.

Lemma same_core_trans (w1 w2 w3 : World) :
  same_core w1 w2 -> same_core w2 w3 -> same_core w1 w3.
Proof.
  intros [] []; constructor; etransitivity; eassumption.
Qed.

Lemma display_alert_core msg (w : World) : same_core w (display_alert msg w).
Proof. unfold display_alert; break_if; constructor; reflexivity. Qed.

Lemma request_API_core n k (w : World) : same_core w (request_API n k w).
Proof.
  unfold_basic; cbn; repeat (break_if; cbn); constructor; reflexivity.
Qed.

Lemma on_response_core k r (w : World) : same_core w (on_response k r w).
Proof.
  unfold_basic; cbn; repeat (break_if; cbn); constructor; reflexivity.
Qed.

Lemma on_error_core n k e (w : World) : same_core w (on_error n k e w).
Proof.
  unfold_basic; cbn; repeat (break_if; cbn); constructor; reflexivity.
Qed.

Lemma permission_settles_core i o (w : World) :
  same_core w (permission_settles i o w).
Proof.
  unfold permission_settles.
  destruct (nth_error (pending w) i) as [[k n]|]; [|apply same_core_refl].
  destruct o.
  - eapply same_core_trans; [|apply on_response_core].
    constructor; reflexivity.
  - eapply same_core_trans; [|apply on_error_core].
    constructor; reflexivity.
Qed.

Lemma run_click_listener_core el l (w : World) :
  same_core w (run_click_listener el l w).
Proof.
  destruct l as [k|k n]; unfold run_click_listener.
  - eapply same_core_trans; [|apply request_API_core].
    break_if; constructor; reflexivity.
  - eapply same_core_trans; [|apply request_API_core].
    apply same_core_trans
      with (w2 := display_alert "DeviceOrientationEvent retry..." w).
    + apply display_alert_core.
    + constructor; reflexivity.
Qed.

(** A property that every click closure preserves is preserved by a click;
    the closures that run are among those registered before the click. *)
Lemma click_preserves (P : World -> Prop)
  (Q : element * ClickListener -> Prop) el (w : World) :
  (forall p w', Q p -> P w' -> P (run_click_listener (fst p) (snd p) w')) ->
  Forall Q (click_listeners w) -> P w -> P (click el w).
Proof.
  intros Hstep HQ HP. unfold click.
  assert (HF : Forall Q
            (filter (fun p => element_eqb (fst p) el) (click_listeners w))).
  { apply Forall_forall. intros p Hp. apply filter_In in Hp.
    destruct Hp as [Hp _]. rewrite Forall_forall in HQ. now apply HQ. }
  clear HQ. revert HP HF.
  generalize (filter (fun p => element_eqb (fst p) el) (click_listeners w)).
  intros l. revert w.
  induction l as [|p l IH]; intros w HP HF; cbn; [exact HP|].
  inversion HF; subst. apply IH; [|assumption]. now apply Hstep.
Qed.

Lemma click_core el (w : World) : same_core w (click el w).
Proof.
  apply (click_preserves (same_core w) (fun _ => True)).
  - intros p w' _ H. eapply same_core_trans; [exact H|].
    apply run_click_listener_core.
  - apply Forall_forall; trivial.
  - apply same_core_refl.
Qed.

Lemma invariant_loaded o d : invariant (loaded o d).
Proof.
  constructor; cbn; try reflexivity; try constructor.
  intros H; discriminate H.
Qed.

(** The invariant reads the module variables, the two registrations, the
    pending requests and the click closures only. *)
Lemma invariant_ext (w w' : World) :
  _spec w' = _spec w -> _angles w' = _angles w ->
  _isThree w' = _isThree w -> _threeInstances w' = _threeInstances w ->
  _isEnabled w' = _isEnabled w ->
  on_orientationchange w' = on_orientationchange w ->
  on_deviceorientation w' = on_deviceorientation w ->
  pending w' = pending w -> click_listeners w' = click_listeners w ->
  invariant w -> invariant w'.
Proof.
  intros E1 E2 E3 E4 E5 E6 E7 E8 E9 [].
  constructor; unfold math_configured, math_left_out, current_spec in *;
    rewrite ?E1, ?E2, ?E3, ?E4, ?E5, ?E6, ?E7, ?E8, ?E9; assumption.
Qed.

Lemma invariant_display_alert msg (w : World) :
  invariant w -> invariant (display_alert msg w).
Proof.
  unfold display_alert; break_if; [|trivial].
  apply invariant_ext; reflexivity.
Qed.

Lemma invariant_accept k (w : World) : invariant w -> invariant (accept k w).
Proof. apply invariant_ext; reflexivity. Qed.

Lemma invariant_reject k (w : World) : invariant w -> invariant (reject k w).
Proof. apply invariant_ext; reflexivity. Qed.

Lemma invariant_add_eventListeners (w : World) :
  invariant w -> invariant (add_eventListeners w).
Proof. intros []; constructor; cbn; auto. Qed.

Lemma invariant_remove_eventListeners (w : World) :
  invariant w -> invariant (remove_eventListeners w).
Proof. intros []; constructor; cbn; auto. Qed.

Lemma invariant_set_pending l (w : World) :
  Forall (fun p => snd p <= 1) l ->
  invariant w -> invariant (set_pending l w).
Proof. intros Hl []; constructor; cbn; auto. Qed.

Lemma invariant_set_click_listeners l (w : World) :
  Forall (fun p => match snd p with
                   | RetryListener _ n => n = 0
                   | TriggerListener _ => True
                   end) l ->
  invariant w -> invariant (set_click_listeners l w).
Proof. intros Hl []; constructor; cbn; auto. Qed.

Lemma invariant_request_API n k (w : World) :
  n <= 1 -> invariant w -> invariant (request_API n k w).
Proof.
  intros Hn Hw. unfold request_API.
  destruct (has_requestPermission w).
  - apply invariant_set_pending; [|assumption].
    apply Forall_app; split; [apply Hw|]. constructor; [exact Hn|constructor].
  - destruct (isRejectIfMissing (current_spec w)).
    + now apply invariant_reject, invariant_display_alert.
    + now apply invariant_accept, invariant_display_alert,
        invariant_add_eventListeners.
Qed.

Lemma invariant_on_response k r (w : World) :
  invariant w -> invariant (on_response k r w).
Proof.
  intros Hw. unfold on_response. apply invariant_accept.
  destruct (String.eqb r "granted").
  - now apply invariant_display_alert, invariant_add_eventListeners,
      invariant_display_alert.
  - now apply invariant_display_alert, invariant_display_alert.
Qed.

Lemma invariant_on_error n k e (w : World) :
  invariant w -> invariant (on_error n k e w).
Proof.
  intros Hw. unfold on_error.
  set (w1 := display_alert _ w).
  assert (H1 : invariant w1) by now apply invariant_display_alert.
  destruct (_ && _ && Nat.eqb n 0) eqn:E.
  - apply invariant_set_click_listeners; [|assumption].
    apply Forall_app; split; [apply H1|].
    constructor; [|constructor]. cbn.
    apply andb_true_iff in E. destruct E as [_ E]. now apply Nat.eqb_eq.
  - now apply invariant_reject.
Qed.

Lemma Forall_remove_nth {A} (P : A -> Prop) i l :
  Forall P l -> Forall P (remove_nth i l).
Proof.
  revert i; induction l as [|h t IH]; intros i H; [destruct i; exact H|].
  inversion H; subst. destruct i; cbn; [assumption|].
  constructor; [assumption|]. now apply IH.
Qed.

Lemma Forall_remove_listener (P : element * ClickListener -> Prop) x l :
  Forall P l -> Forall P (remove_listener x l).
Proof.
  induction l as [|h t IH]; intros H; [exact H|].
  inversion H; subst. cbn. destruct (listener_eqb x h); [assumption|].
  constructor; [assumption|]. now apply IH.
Qed.

Lemma invariant_permission_settles i o (w : World) :
  invariant w -> invariant (permission_settles i o w).
Proof.
  intros Hw. unfold permission_settles.
  destruct (nth_error (pending w) i) as [[k n]|] eqn:E; [|assumption].
  assert (H1 : invariant (set_pending (remove_nth i (pending w)) w)).
  { apply invariant_set_pending; [|assumption].
    apply Forall_remove_nth, Hw. }
  destruct o; [now apply invariant_on_response|now apply invariant_on_error].
Qed.

Lemma invariant_run_click_listener el l (w : World) :
  match l with RetryListener _ n => n = 0 | TriggerListener _ => True end ->
  invariant w -> invariant (run_click_listener el l w).
Proof.
  intros Hl Hw. destruct l as [k|k n]; unfold run_click_listener.
  - apply invariant_request_API; [lia|].
    break_if; [|assumption]. revert Hw. apply invariant_ext; reflexivity.
  - subst n. apply invariant_request_API; [cbn; lia|].
    apply invariant_set_click_listeners.
    + apply Forall_remove_listener.
      apply (invariant_display_alert "DeviceOrientationEvent retry..." w Hw).
    + now apply invariant_display_alert.
Qed.

Lemma invariant_click el (w : World) : invariant w -> invariant (click el w).
Proof.
  intros Hw.
  apply (click_preserves invariant
           (fun p => match snd p with
                     | RetryListener _ n => n = 0
                     | TriggerListener _ => True
                     end)).
  - intros p w' Hp Hw'. now apply invariant_run_click_listener.
  - apply Hw.
  - exact Hw.
Qed.

Lemma init_throws spec (w : World) :
  init_completes spec = false ->
  init spec w = (inl TypeError, set_isThree true (set_spec (Some spec) w)).
Proof.
  unfold init_completes, init, init_threeInstances. cbn.
  destruct (THREE spec); intros H; try discriminate H. reflexivity.
Qed.

Lemma init_returns spec (w : World) :
  init_completes spec = true ->
  fst (init spec w) = inr (length (signals w)).
Proof.
  unfold init_completes, init, init_threeInstances. cbn.
  destruct (THREE spec); intros H; try discriminate H; reflexivity.
Qed.

Lemma invariant_init spec (w : World) :
  invariant w -> invariant (snd (init spec w)).
Proof.
  intros Hw. unfold init, init_threeInstances. cbn.
  assert (tail : forall w4 : World,
            invariant w4 -> click_listeners w4 = click_listeners w ->
            invariant
              match DOMTrigger spec with
              | Some el =>
                  set_click_listeners
                    (click_listeners w ++
                     [(el, TriggerListener (length (signals w)))]) w4
              | None => request_API 0 (length (signals w)) w4
              end).
  { intros w4 H4 Hc. destruct (DOMTrigger spec) as [el|].
    - apply invariant_set_click_listeners; [|assumption].
      apply Forall_app; split; [rewrite <- Hc; apply H4|].
      constructor; [exact I|constructor].
    - apply invariant_request_API; [lia|assumption]. }
  destruct (THREE spec) eqn:E; cbn.
  - apply tail; [|reflexivity].
    destruct Hw. constructor; cbn;
      unfold math_left_out, math_configured; cbn; rewrite ?E; auto.
    intros H; discriminate H.
  - apply tail; [|reflexivity].
    destruct Hw. constructor; cbn;
      unfold math_left_out, math_configured; cbn; rewrite ?E; auto.
    intros _. eexists; repeat split.
  - destruct Hw. constructor; cbn;
      unfold math_left_out, math_configured; cbn; rewrite ?E; auto.
    intros H; discriminate H.
Qed.

Lemma length_array_set l i v : length (JS.array_set l i v) = length l.
Proof.
  revert i; induction l as [|h t IH]; intros [|i]; cbn; auto.
Qed.

Lemma invariant_update (w : World) : invariant w -> invariant (snd (update w)).
Proof.
  intros Hw. unfold update.
  destruct (_isEnabled w); [|assumption].
  destruct (_deviceOrientation w) as [device|]; [|assumption].
  destruct (_isThree w) eqn:E3.
  - destruct (_threeInstances w) as [ti|] eqn:Eti; [|assumption].
    destruct Hw as [? ? Hi ? ? ? ?]. constructor; cbn; auto.
    intros Hm. destruct (Hi Hm) as (ti' & Eti' & Eq1 & Ez).
    rewrite Eti in Eti'. injection Eti' as <-.
    eexists; repeat split; assumption.
  - destruct Hw. constructor; cbn; auto.
    now rewrite !length_array_set.
Qed.

Lemma invariant_compute_rotation a q (w : World) :
  invariant w -> invariant (snd (compute_rotation a q w)).
Proof.
  intros Hw. unfold compute_rotation.
  destruct (_isThree w) eqn:E3; [|assumption]. cbn.
  destruct (_threeInstances w) as [ti|] eqn:Eti; [|assumption].
  destruct Hw as [? ? Hi ? ? ? ?]. constructor; cbn; auto.
  intros Hm. destruct (Hi Hm) as (ti' & Eti' & Eq1 & Ez).
  rewrite Eti in Eti'. injection Eti' as <-.
  eexists; repeat split; assumption.
Qed.

Lemma invariant_step a (w : World) : invariant w -> invariant (step a w).
Proof.
  intros Hw. destruct a as [spec|el|i o|event|v| |a q| ]; cbn.
  - now apply invariant_init.
  - now apply invariant_click.
  - now apply invariant_permission_settles.
  - destruct (on_deviceorientation w); [|assumption].
    unfold onDeviceOrientationChangeEvent. break_if; [assumption|].
    revert Hw. apply invariant_ext; reflexivity.
  - assert (H1 : invariant (set_window_orientation v w))
      by (revert Hw; apply invariant_ext; reflexivity).
    destruct (on_orientationchange w); [|assumption].
    revert H1. apply invariant_ext; reflexivity.
  - now apply invariant_update.
  - now apply invariant_compute_rotation.
  - now apply invariant_remove_eventListeners.
Qed.

Lemma invariant_run t (w : World) : invariant w -> invariant (run t w).
Proof.
  revert w; induction t as [|a t IH]; intros w Hw; cbn; [assumption|].
  now apply IH, invariant_step.
Qed.

(** Every world the module reaches from its load satisfies the invariant. *)
Lemma invariant_reachable t o d : invariant (run t (loaded o d)).
Proof. apply invariant_run, invariant_loaded. Qed.

(** *** The stored sample *)

Lemma init_device spec (w : World) :
  _deviceOrientation (snd (init spec w)) = _deviceOrientation w.
Proof.
  unfold init, init_threeInstances. cbn.
  destruct (THREE spec); cbn; [| |reflexivity];
    (destruct (DOMTrigger spec);
     [reflexivity
     |now rewrite (sc_device _ _ (request_API_core _ _ _))]).
Qed.

Lemma update_device (w : World) :
  _deviceOrientation (snd (update w)) = _deviceOrientation w.
Proof.
  unfold update.
  destruct (_isEnabled w); [|reflexivity].
  destruct (_deviceOrientation w) eqn:E; [|exact E].
  destruct (_isThree w); [|exact E].
  destruct (_threeInstances w); exact E.
Qed.

Lemma compute_rotation_device a q (w : World) :
  _deviceOrientation (snd (compute_rotation a q w)) = _deviceOrientation w.
Proof.
  unfold compute_rotation.
  destruct (_isThree w); [|reflexivity].
  destruct (_threeInstances w); reflexivity.
Qed.

(** Only a delivered sample without a [null] field changes the stored one. *)
Lemma step_device a (w : World) :
  _deviceOrientation (step a w) =
  match a with
  | DeviceOrientation event =>
      if on_deviceorientation w && accepted event then Some event
      else _deviceOrientation w
  | _ => _deviceOrientation w
  end.
Proof.
  destruct a as [spec|el|i o|event|v| |a q| ]; cbn.
  - apply init_device.
  - apply (sc_device _ _ (click_core _ _)).
  - apply (sc_device _ _ (permission_settles_core _ _ _)).
  - destruct (on_deviceorientation w); [|reflexivity].
    unfold onDeviceOrientationChangeEvent, accepted.
    destruct (_ || _ || _); reflexivity.
  - destruct (on_orientationchange w); reflexivity.
  - apply update_device.
  - apply compute_rotation_device.
  - reflexivity.
Qed.

Lemma run_device_none t (w : World) :
  _deviceOrientation (run t w) = None <->
  _deviceOrientation w = None
  /\ forallb (fun e => negb (accepted e)) (samples_received t w) = true.
Proof.
  revert w; induction t as [|a t IH]; intros w; cbn [run samples_received].
  - cbn. tauto.
  - rewrite IH, step_device, forallb_app.
    destruct a as [spec|el|i o|event|v| |a q| ];
      try (cbn; tauto).
    cbn [step].
    destruct (on_deviceorientation w); [|cbn; tauto].
    destruct (accepted event) eqn:E; cbn; rewrite E; cbn; [|tauto].
    split; [intros [H _]; discriminate H|intros [_ H]; discriminate H].
Qed.

(** [update] returns [null] exactly under its guard. *)
Lemma update_null (w : World) :
  fst (update w) = ReturnsNull <->
  _isEnabled w = false \/ _deviceOrientation w = None.
Proof.
  unfold update.
  destruct (_isEnabled w); [|cbn; tauto].
  destruct (_deviceOrientation w) as [device|]; [|cbn; tauto].
  split.
  - repeat (break_if; cbn); intros H; discriminate H.
  - intros [H|H]; discriminate H.
Qed.

(** *** The screen offset *)

Lemma init_screen spec (w : World) :
  _screenOrientation (snd (init spec w))
  = if init_completes spec then offset_of_report (window_orientation w)
    else _screenOrientation w.
Proof.
  unfold init, init_threeInstances, init_completes. cbn.
  destruct (THREE spec); cbn; [| |reflexivity];
    (destruct (DOMTrigger spec);
     [reflexivity
     |now rewrite (sc_screen _ _ (request_API_core _ _ _))]).
Qed.

Lemma update_screen (w : World) :
  _screenOrientation (snd (update w)) = _screenOrientation w.
Proof.
  unfold update.
  destruct (_isEnabled w); [|reflexivity].
  destruct (_deviceOrientation w); [|reflexivity].
  destruct (_isThree w); [|reflexivity].
  destruct (_threeInstances w); reflexivity.
Qed.

Lemma compute_rotation_screen a q (w : World) :
  _screenOrientation (snd (compute_rotation a q w)) = _screenOrientation w.
Proof.
  unfold compute_rotation.
  destruct (_isThree w); [|reflexivity].
  destruct (_threeInstances w); reflexivity.
Qed.

Lemma onDeviceOrientationChangeEvent_screen event (w : World) :
  _screenOrientation (onDeviceOrientationChangeEvent event w)
  = _screenOrientation w.
Proof.
  unfold onDeviceOrientationChangeEvent. destruct (_ || _ || _); reflexivity.
Qed.

(** The offset is written by [onScreenOrientationChangeEvent] alone, which
    [init] calls and which the browser calls on a rotation while it is
    registered. *)
Lemma step_screen a (w : World) :
  _screenOrientation (step a w) =
  match a with
  | Init spec =>
      if init_completes spec then offset_of_report (window_orientation w)
      else _screenOrientation w
  | OrientationChange v =>
      if on_orientationchange w then offset_of_report v
      else _screenOrientation w
  | _ => _screenOrientation w
  end.
Proof.
  destruct a as [spec|el|i o|event|v| |a q| ]; cbn.
  - apply init_screen.
  - apply (sc_screen _ _ (click_core _ _)).
  - apply (sc_screen _ _ (permission_settles_core _ _ _)).
  - destruct (on_deviceorientation w); [|reflexivity].
    apply onDeviceOrientationChangeEvent_screen.
  - destruct (on_orientationchange w); reflexivity.
  - apply update_screen.
  - apply compute_rotation_screen.
  - reflexivity.
Qed.

Lemma run_screen t (w : World) r0 :
  _screenOrientation w = offset_of_report r0 ->
  _screenOrientation (run t w) = offset_of_report (last_report t w r0).
Proof.
  revert w r0; induction t as [|a t IH]; intros w r0 H; cbn; [exact H|].
  apply IH. rewrite step_screen.
  destruct a as [spec|el|i o|event|v| |a q| ]; try exact H; try reflexivity.
  - destruct (init_completes spec); [reflexivity|exact H].
  - destruct (on_orientationchange w); [reflexivity|exact H].
Qed.

(** *** Angles *)

Lemma get_deviceEulerAngle_radians device l :
  get_deviceEulerAngle device l = radians (get_field device l).
Proof.
  unfold get_deviceEulerAngle, radians.
  destruct (get_field device l); reflexivity.
Qed.

(** *** Promises *)

Lemma display_alert_flow msg (w : World) : same_flow w (display_alert msg w).
Proof. unfold display_alert; break_if; constructor; reflexivity. Qed.

Lemma display_alert_spec msg (w : World) :
  current_spec (display_alert msg w) = current_spec w.
Proof.
  unfold current_spec. now rewrite (sc_spec _ _ (display_alert_core msg w)).
Qed.

Lemma display_alert_has_requestPermission msg (w : World) :
  has_requestPermission (display_alert msg w) = has_requestPermission w.
Proof.
  unfold has_requestPermission.
  now rewrite (sc_doe _ _ (display_alert_core msg w)).
Qed.

Lemma length_settle_in l k s : length (settle_in l k s) = length l.
Proof.
  revert k; induction l as [|x l IH]; intros [|k]; try reflexivity;
    destruct x; cbn; now rewrite ?IH.
Qed.

Lemma settle_in_last l s : settle_in (l ++ [Pending]) (length l) s = l ++ [s].
Proof.
  induction l as [|x l IH]; cbn; [reflexivity|].
  rewrite IH. now destruct x.
Qed.

Lemma nth_error_settle_in_pending l k s :
  nth_error l k = Some Pending -> nth_error (settle_in l k s) k = Some s.
Proof.
  revert k; induction l as [|x l IH]; intros [|k] H; cbn in *;
    try discriminate H.
  - injection H as ->. reflexivity.
  - destruct x; cbn; now apply IH.
Qed.

Lemma nth_error_settle_in_settled l k s x :
  nth_error l k = Some x -> x <> Pending ->
  nth_error (settle_in l k s) k = Some x.
Proof.
  revert k; induction l as [|y l IH]; intros [|k] H Hx; cbn in *;
    try discriminate H.
  - injection H as ->. destruct x; [contradiction|reflexivity|reflexivity].
  - destruct y; cbn; now apply IH.
Qed.

Lemma nth_error_settle_in_other l k j s :
  k <> j -> nth_error (settle_in l k s) j = nth_error l j.
Proof.
  revert k j; induction l as [|x l IH]; intros [|k] [|j] H; cbn;
    try reflexivity; try contradiction.
  - destruct x; reflexivity.
  - destruct x; reflexivity.
  - destruct x; cbn; apply IH; lia.
Qed.

(** A pending signal that is settled as [s], and a signal that already is
    [s], are [s] afterwards. *)
Lemma settle_in_reaches l k j s :
  nth_error l j = Some Pending \/ nth_error l j = Some s ->
  nth_error (settle_in l k s) j = Some Pending
  \/ nth_error (settle_in l k s) j = Some s.
Proof.
  intros H. destruct (Nat.eq_dec k j) as [->|Hkj].
  - destruct H as [H|H].
    + right. now apply nth_error_settle_in_pending.
    + destruct s.
      * left. now apply nth_error_settle_in_pending.
      * right. apply nth_error_settle_in_settled; [assumption|discriminate].
      * right. apply nth_error_settle_in_settled; [assumption|discriminate].
  - now rewrite nth_error_settle_in_other.
Qed.

Lemma settle_in_keeps l k j s :
  s <> Pending ->
  nth_error l j = Some s -> nth_error (settle_in l k s) j = Some s.
Proof.
  intros Hs H. destruct (Nat.eq_dec k j) as [->|Hkj].
  - now apply nth_error_settle_in_settled.
  - now rewrite nth_error_settle_in_other.
Qed.

(** Without [requestPermission], [request_API] decides at once. *)
Lemma request_API_unsupported n k (w : World) :
  has_requestPermission w = false ->
  let w' := request_API n k w in
  signals w' =
    settle_in (signals w) k
      (if isRejectIfMissing (current_spec w) then Rejected else Fulfilled)
  /\ (if isRejectIfMissing (current_spec w) then
        _isEnabled w' = _isEnabled w
        /\ on_orientationchange w' = on_orientationchange w
        /\ on_deviceorientation w' = on_deviceorientation w
      else
        _isEnabled w' = true
        /\ on_orientationchange w' = true
        /\ on_deviceorientation w' = true)
  /\ click_listeners w' = click_listeners w
  /\ pending w' = pending w.
Proof.
  intros H. cbv zeta. unfold request_API. rewrite H.
  destruct (isRejectIfMissing (current_spec w)).
  - set (w1 := display_alert _ w).
    destruct (display_alert_flow "DeviceOrientationEvent missing" w)
      as [E1 E2 E3 E4 E5 E6 _].
    fold w1 in E1, E2, E3, E4, E5, E6. cbn.
    rewrite E1, E2, E3, E4, E5, E6. repeat split.
  - set (w1 := display_alert _ (add_eventListeners w)).
    destruct (display_alert_flow
                "DeviceOrientationEvent available without requestPermission"
                (add_eventListeners w))
      as [E1 E2 E3 E4 E5 E6 _].
    fold w1 in E1, E2, E3, E4, E5, E6. cbn.
    rewrite E1, E2, E3, E4, E5, E6. repeat split.
Qed.

(** With [requestPermission], [request_API] leaves one more promise pending. *)
Lemma request_API_supported n k (w : World) :
  has_requestPermission w = true ->
  request_API n k w = set_pending (pending w ++ [(k, n)]) w.
Proof. intros H. unfold request_API. now rewrite H. Qed.

Lemma same_flow_refl (w : World) : same_flow w w.
Proof. constructor; reflexivity. Qed.

Lemma same_flow_trans (w1 w2 w3 : World) :
  same_flow w1 w2 -> same_flow w2 w3 -> same_flow w1 w3.
Proof.
  intros [] []; constructor; etransitivity; eassumption.
Qed.

(** A response other than ['granted']: alerts apart, only the ready signal
    is touched. *)
Lemma on_response_refused k response (w : World) :
  String.eqb response "granted" = false ->
  let w' := on_response k response w in
  _isEnabled w' = _isEnabled w
  /\ on_orientationchange w' = on_orientationchange w
  /\ on_deviceorientation w' = on_deviceorientation w
  /\ click_listeners w' = click_listeners w
  /\ pending w' = pending w
  /\ signals w' = settle_in (signals w) k Fulfilled.
Proof.
  intros H. cbv zeta. unfold on_response. rewrite H.
  set (w1 := display_alert _ w). set (w2 := display_alert _ w1).
  assert (F : same_flow w w2).
  { apply same_flow_trans with (w2 := w1); apply display_alert_flow. }
  destruct F as [E1 E2 E3 E4 E5 E6 _]. cbn.
  rewrite E1, E2, E3, E4, E5, E6. repeat split.
Qed.

(** The response ['granted']: the subscription is enabled and the ready
    signal accepted. *)
Lemma on_response_granted k (w : World) :
  let w' := on_response k "granted" w in
  _isEnabled w' = true
  /\ on_orientationchange w' = true
  /\ on_deviceorientation w' = true
  /\ click_listeners w' = click_listeners w
  /\ pending w' = pending w
  /\ signals w' = settle_in (signals w) k Fulfilled.
Proof.
  cbv zeta. unfold on_response. cbn [String.eqb Ascii.eqb Bool.eqb].
  set (w1 := display_alert _ w).
  set (w2 := display_alert _ (add_eventListeners w1)).
  destruct (display_alert_flow
              ("DeviceOrientationEvent response = " ++ "granted") w)
    as [_ _ _ F4 F5 F6 _].
  destruct (display_alert_flow
              "DeviceOrientationEvent requestPermission granted"
              (add_eventListeners w1)) as [E1 E2 E3 E4 E5 E6 _].
  fold w1 in F4, F5, F6. fold w2 in E1, E2, E3, E4, E5, E6. cbn.
  rewrite E1, E2, E3, E4, E5, E6. cbn. rewrite F4, F5, F6. repeat split.
Qed.

Lemma on_error_retries n k error (w : World) :
  retries (current_spec w) n error = true ->
  let w' := on_error n k error w in
  click_listeners w'
  = click_listeners w ++ [(retry_element (current_spec w), RetryListener k n)]
  /\ signals w' = signals w
  /\ pending w' = pending w
  /\ _isEnabled w' = _isEnabled w
  /\ on_orientationchange w' = on_orientationchange w
  /\ on_deviceorientation w' = on_deviceorientation w.
Proof.
  intros H. cbv zeta. unfold on_error, retries in *.
  set (w1 := display_alert _ w).
  assert (Es : current_spec w1 = current_spec w) by apply display_alert_spec.
  rewrite Es, H.
  destruct (display_alert_flow ("DeviceOrientationEvent error = " ++ error) w)
    as [E1 E2 E3 E4 E5 E6 _].
  fold w1 in E1, E2, E3, E4, E5, E6. cbn.
  rewrite E1, E2, E3, E4, E5, E6. repeat split.
Qed.

Lemma on_error_rejects n k error (w : World) :
  retries (current_spec w) n error = false ->
  let w' := on_error n k error w in
  click_listeners w' = click_listeners w
  /\ signals w' = settle_in (signals w) k Rejected
  /\ pending w' = pending w
  /\ _isEnabled w' = _isEnabled w
  /\ on_orientationchange w' = on_orientationchange w
  /\ on_deviceorientation w' = on_deviceorientation w.
Proof.
  intros H. cbv zeta. unfold on_error, retries in *.
  set (w1 := display_alert _ w).
  assert (Es : current_spec w1 = current_spec w) by apply display_alert_spec.
  rewrite Es, H.
  destruct (display_alert_flow ("DeviceOrientationEvent error = " ++ error) w)
    as [E1 E2 E3 E4 E5 E6 _].
  fold w1 in E1, E2, E3, E4, E5, E6. cbn.
  rewrite E1, E2, E3, E4, E5, E6. repeat split.
Qed.

(** *** [init] *)

Lemma init_spec spec (w : World) : _spec (snd (init spec w)) = Some spec.
Proof.
  unfold init, init_threeInstances. cbn.
  destruct (THREE spec); cbn; [| |reflexivity];
    (destruct (DOMTrigger spec);
     [reflexivity
     |now rewrite (sc_spec _ _ (request_API_core _ _ _))]).
Qed.

Lemma init_doe spec (w : World) :
  window_DeviceOrientationEvent (snd (init spec w))
  = window_DeviceOrientationEvent w.
Proof.
  unfold init, init_threeInstances. cbn.
  destruct (THREE spec); cbn; [| |reflexivity];
    (destruct (DOMTrigger spec);
     [reflexivity
     |now rewrite (sc_doe _ _ (request_API_core _ _ _))]).
Qed.

(** With a [DOMTrigger], [init] registers its click closure and waits. *)
Lemma init_with_trigger spec el (w : World) :
  init_completes spec = true ->
  DOMTrigger spec = Some el ->
  let w' := snd (init spec w) in
  click_listeners w'
  = click_listeners w ++ [(el, TriggerListener (length (signals w)))]
  /\ signals w' = signals w ++ [Pending]
  /\ pending w' = pending w
  /\ _isEnabled w' = _isEnabled w
  /\ on_orientationchange w' = on_orientationchange w
  /\ on_deviceorientation w' = on_deviceorientation w.
Proof.
  intros Hc H. cbv zeta. unfold init, init_threeInstances, init_completes in *.
  rewrite H. cbn.
  destruct (THREE spec); try discriminate Hc; cbn; repeat split.
Qed.

(** Without a [DOMTrigger] and with [requestPermission], [init] issues the
    first request. *)
Lemma init_requests spec (w : World) :
  init_completes spec = true ->
  DOMTrigger spec = None ->
  has_requestPermission w = true ->
  let w' := snd (init spec w) in
  click_listeners w' = click_listeners w
  /\ signals w' = signals w ++ [Pending]
  /\ pending w' = pending w ++ [(length (signals w), 0)]
  /\ _isEnabled w' = _isEnabled w
  /\ on_orientationchange w' = on_orientationchange w
  /\ on_deviceorientation w' = on_deviceorientation w.
Proof.
  intros Hc H Hp. cbv zeta.
  unfold init, init_threeInstances, init_completes in *.
  rewrite H. cbn.
  destruct (THREE spec); try discriminate Hc; cbn;
    (rewrite request_API_supported; [cbn; repeat split|exact Hp]).
Qed.

(** Without a [DOMTrigger] and without [requestPermission], [init] decides at
    once. *)
Lemma init_unsupported spec (w : World) :
  init_completes spec = true ->
  DOMTrigger spec = None ->
  has_requestPermission w = false ->
  let w' := snd (init spec w) in
  signals w' =
    signals w ++ [if isRejectIfMissing spec then Rejected else Fulfilled]
  /\ (if isRejectIfMissing spec then
        _isEnabled w' = _isEnabled w
        /\ on_orientationchange w' = on_orientationchange w
        /\ on_deviceorientation w' = on_deviceorientation w
      else
        _isEnabled w' = true
        /\ on_orientationchange w' = true
        /\ on_deviceorientation w' = true)
  /\ click_listeners w' = click_listeners w
  /\ pending w' = pending w.
Proof.
  intros Hc H Hp. cbv zeta.
  unfold init, init_threeInstances, init_completes in *.
  rewrite H. cbn.
  destruct (THREE spec); try discriminate Hc; cbn;
    match goal with
    | |- context [request_API 0 ?k ?w4] =>
        assert (Hp4 : has_requestPermission w4 = false) by exact Hp;
        assert (Hs4 : current_spec w4 = spec) by reflexivity;
        destruct (request_API_unsupported 0 k w4 Hp4) as (E1 & E2 & E3 & E4);
        rewrite Hs4 in E1, E2
    end;
    rewrite E1, E3, E4;
    (split; [|split; [|split]]);
    [ cbn; apply settle_in_last
    | destruct (isRejectIfMissing spec);
        destruct E2 as (F1 & F2 & F3); rewrite F1, F2, F3;
        cbn; repeat split
    | reflexivity
    | reflexivity
    | cbn; apply settle_in_last
    | destruct (isRejectIfMissing spec);
        destruct E2 as (F1 & F2 & F3); rewrite F1, F2, F3;
        cbn; repeat split
    | reflexivity
    | reflexivity ].
Qed.

(** *** Clicks *)

Lemma element_eqb_refl el : element_eqb el el = true.
Proof. destruct el; cbn; [reflexivity|apply Nat.eqb_refl]. Qed.

Lemma listener_eqb_refl p : listener_eqb p p = true.
Proof.
  destruct p as [el [k|k n]]; unfold listener_eqb; cbn;
    now rewrite element_eqb_refl, ?Nat.eqb_refl.
Qed.

Lemma click_none el (w : World) : listeners_on el w = [] -> click el w = w.
Proof. unfold click, listeners_on. now intros ->. Qed.

Lemma click_single el l (w : World) :
  listeners_on el w = [(el, l)] -> click el w = run_click_listener el l w.
Proof. unfold click, listeners_on. now intros ->. Qed.

(** The closure [retry]: it unregisters itself and calls [request_API]
    with one more retry counted. *)
Lemma run_retry_listener el k n (w : World) :
  has_requestPermission w = true ->
  let w' := run_click_listener el (RetryListener k n) w in
  click_listeners w'
  = remove_listener (el, RetryListener k n) (click_listeners w)
  /\ pending w' = pending w ++ [(k, n + 1)]
  /\ signals w' = signals w
  /\ _isEnabled w' = _isEnabled w
  /\ on_orientationchange w' = on_orientationchange w
  /\ on_deviceorientation w' = on_deviceorientation w.
Proof.
  intros H. cbv zeta. unfold run_click_listener.
  set (w1 := display_alert _ w).
  destruct (display_alert_flow "DeviceOrientationEvent retry..." w)
    as [E1 E2 E3 E4 E5 E6 _].
  fold w1 in E1, E2, E3, E4, E5, E6.
  rewrite request_API_supported.
  - cbn. rewrite E1, E2, E3, E4, E5, E6. repeat split.
  - unfold has_requestPermission in *. cbn. subst w1.
    now rewrite (sc_doe _ _ (display_alert_core _ w)).
Qed.

(** Without [requestPermission], every click closure decides its ready
    signal at once, the way [_spec.isRejectIfMissing] says. *)
Lemma run_click_listener_unsupported el l spec (w : World) :
  _spec w = Some spec ->
  has_requestPermission w = false ->
  let w' := run_click_listener el l w in
  _spec w' = Some spec
  /\ has_requestPermission w' = false
  /\ signals w' =
       settle_in (signals w) (signal_of l)
         (if isRejectIfMissing spec then Rejected else Fulfilled)
  /\ (isRejectIfMissing spec = false ->
       _isEnabled w' = true
       /\ on_orientationchange w' = true
       /\ on_deviceorientation w' = true).
Proof.
  intros Hs Hp. cbv zeta.
  pose proof (run_click_listener_core el l w) as C.
  split; [now rewrite (sc_spec _ _ C)|].
  split; [unfold has_requestPermission in *; now rewrite (sc_doe _ _ C)|].
  clear C.
  assert (decide : forall n k (w1 : World),
             _spec w1 = Some spec -> has_requestPermission w1 = false ->
             signals (request_API n k w1) =
               settle_in (signals w1) k
                 (if isRejectIfMissing spec then Rejected else Fulfilled)
             /\ (isRejectIfMissing spec = false ->
                  _isEnabled (request_API n k w1) = true
                  /\ on_orientationchange (request_API n k w1) = true
                  /\ on_deviceorientation (request_API n k w1) = true)).
  { intros n k w1 Hs1 Hp1.
    destruct (request_API_unsupported n k w1 Hp1) as (E1 & E2 & _).
    unfold current_spec in E1, E2. rewrite Hs1 in E1, E2.
    split; [exact E1|]. intros Hr. now rewrite Hr in E2. }
  assert (Hc : current_spec w = spec)
    by (unfold current_spec; now rewrite Hs).
  unfold run_click_listener. destruct l as [k|k n].
  - rewrite Hc. destruct (DOMTriggerOnClick spec).
    + apply (decide 0 k
               (set_DOMTriggerOnClick_calls (S (DOMTriggerOnClick_calls w)) w));
        assumption.
    + apply decide; assumption.
  - set (w1 := display_alert _ w).
    assert (Hs1 : _spec w1 = Some spec)
      by (subst w1; now rewrite (sc_spec _ _ (display_alert_core _ w))).
    assert (Hp1 : has_requestPermission w1 = false)
      by (subst w1; now rewrite display_alert_has_requestPermission).
    assert (Hg1 : signals w1 = signals w)
      by (subst w1; apply (sf_signals _ _ (display_alert_flow _ w))).
    cbn [signal_of]. rewrite <- Hg1.
    apply (decide (n + 1) k
             (set_click_listeners
                (remove_listener (el, RetryListener k n) (click_listeners w1))
                w1)); assumption.
Qed.

(** If every step keeps [P] and keeps [Q], and the step of [a] leads from [P]
    to [Q], a fold over a list that holds [a] leads from [P] to [Q]. *)
Lemma fold_left_reaches {A W : Type} (f : W -> A -> W) (P Q : W -> Prop)
  (l : list A) (a : A) :
  In a l ->
  (forall x w, P w -> P (f w x)) ->
  (forall x w, Q w -> Q (f w x)) ->
  (forall w, P w -> Q (f w a)) ->
  forall w, P w -> Q (fold_left f l w).
Proof.
  intros Hin HP HQ HPQ.
  assert (keep : forall l' w, Q w -> Q (fold_left f l' w)).
  { induction l' as [|x l' IH]; intros w Hw; cbn; [exact Hw|].
    apply IH, HQ, Hw. }
  induction l as [|x l IH]; intros w Hw; [destruct Hin|].
  cbn. destruct Hin as [->|Hin].
  - apply keep, HPQ, Hw.
  - apply IH; [exact Hin|]. apply HP, Hw.
Qed.

(** Without [requestPermission], a click on the [DOMTrigger] settles the
    ready signal of the closure registered there. *)
Lemma click_unsupported el k spec (w : World) :
  _spec w = Some spec ->
  has_requestPermission w = false ->
  In (el, TriggerListener k) (click_listeners w) ->
  nth_error (signals w) k = Some Pending ->
  let w' := click el w in
  nth_error (signals w') k
  = Some (if isRejectIfMissing spec then Rejected else Fulfilled)
  /\ (isRejectIfMissing spec = false ->
       _isEnabled w' = true
       /\ on_orientationchange w' = true
       /\ on_deviceorientation w' = true).
Proof.
  intros Hs Hp Hin Hk. cbv zeta.
  set (X := if isRejectIfMissing spec then Rejected else Fulfilled).
  assert (HX : X <> Pending)
    by (subst X; destruct (isRejectIfMissing spec); discriminate).
  set (Before := fun w' : World =>
              _spec w' = Some spec /\ has_requestPermission w' = false
              /\ (nth_error (signals w') k = Some Pending
                  \/ nth_error (signals w') k = Some X)).
  set (After := fun w' : World =>
              _spec w' = Some spec /\ has_requestPermission w' = false
              /\ nth_error (signals w') k = Some X
              /\ (isRejectIfMissing spec = false ->
                   _isEnabled w' = true
                   /\ on_orientationchange w' = true
                   /\ on_deviceorientation w' = true)).
  assert (H : After (click el w)).
  { unfold click.
    apply (fold_left_reaches
             (fun w p => run_click_listener (fst p) (snd p) w) Before After
             _ (el, TriggerListener k)).
    - apply filter_In. split; [exact Hin|apply element_eqb_refl].
    - intros [el' l] w' (A1 & A2 & A3). cbn [fst snd].
      destruct (run_click_listener_unsupported el' l spec w' A1 A2)
        as (B1 & B2 & B3 & _).
      split; [exact B1|]. split; [exact B2|].
      rewrite B3. apply settle_in_reaches, A3.
    - intros [el' l] w' (A1 & A2 & A3 & A4). cbn [fst snd].
      destruct (run_click_listener_unsupported el' l spec w' A1 A2)
        as (B1 & B2 & B3 & B4).
      split; [exact B1|]. split; [exact B2|]. split; [|exact B4].
      rewrite B3. apply settle_in_keeps; assumption.
    - intros w' (A1 & A2 & A3). cbn [fst snd].
      destruct (run_click_listener_unsupported el (TriggerListener k)
                  spec w' A1 A2) as (B1 & B2 & B3 & B4).
      split; [exact B1|]. split; [exact B2|]. split; [|exact B4].
      rewrite B3. cbn [signal_of]. destruct A3 as [A3|A3].
      + now apply nth_error_settle_in_pending.
      + now apply nth_error_settle_in_settled.
    - split; [exact Hs|]. split; [exact Hp|]. now left. }
  destruct H as (_ & _ & H1 & H2). split; assumption.
Qed.

(** *** [_spec] is set before it is read *)

Lemma spec_is_set_step a (w : World) : spec_is_set w -> spec_is_set (step a w).
Proof.
  unfold spec_is_set. intros Hw.
  destruct a as [spec|el|i o|event|v| |a q| ]; cbn [step].
  - rewrite init_spec. intros H; discriminate H.
  - rewrite (sc_spec _ _ (click_core el w)). intros H.
    destruct (Hw H) as [Hc Hp].
    rewrite click_none by (unfold listeners_on; now rewrite Hc). now split.
  - rewrite (sc_spec _ _ (permission_settles_core i o w)). intros H.
    destruct (Hw H) as [Hc Hp].
    unfold permission_settles. rewrite Hp. destruct i; now split.
  - destruct (on_deviceorientation w); [|exact Hw].
    unfold onDeviceOrientationChangeEvent. destruct (_ || _ || _); exact Hw.
  - cbn. destruct (on_orientationchange w); exact Hw.
  - unfold update.
    destruct (_isEnabled w); [|exact Hw].
    destruct (_deviceOrientation w); [|exact Hw].
    destruct (_isThree w); [|exact Hw].
    destruct (_threeInstances w); exact Hw.
  - unfold compute_rotation.
    destruct (_isThree w); [|exact Hw].
    destruct (_threeInstances w); exact Hw.
  - exact Hw.
Qed.

Lemma spec_is_set_reachable t o d : spec_is_set (run t (loaded o d)).
Proof.
  assert (H : forall (w : World), spec_is_set w -> spec_is_set (run t w)).
  { induction t as [|a t IH]; intros w Hw; cbn; [exact Hw|].
    apply IH, spec_is_set_step, Hw. }
  apply H. intros _. split; reflexivity.
Qed.

(** *** [update] on the two paths *)

Lemma math_configured_not_left_out (w : World) :
  math_configured w = true -> math_left_out w = false.
Proof.
  unfold math_configured, math_left_out.
  destruct (THREE (current_spec w)); intros H; try discriminate H; reflexivity.
Qed.

Lemma math_configured_isThree (w : World) :
  invariant w -> math_configured w = true -> _isThree w = true.
Proof.
  intros Hw H. rewrite (inv_isThree _ Hw).
  now rewrite math_configured_not_left_out.
Qed.

Lemma update_raw (w : World) (device : DeviceOrientationEvent) :
  invariant w ->
  math_left_out w = true ->
  _isEnabled w = true ->
  _deviceOrientation w = Some device ->
  update w =
  (ReturnsAngles,
   set_angles [radians (alpha device); radians (beta device);
               radians (gamma device); _screenOrientation w] w).
Proof.
  intros [Hlen Hthree _ _ _ _ _] H3 He Hd.
  rewrite H3 in Hthree. unfold update. rewrite He, Hd, Hthree. cbn [negb].
  rewrite !get_deviceEulerAngle_radians. cbn [get_field].
  destruct (_angles w) as [|a0 [|a1 [|a2 [|a3 [|a4 l]]]]];
    try discriminate Hlen.
  reflexivity.
Qed.

(** The stored sample of a reachable world has no [null] field. *)
Lemma stored_sample_accepted t (w : World) :
  (forall e, _deviceOrientation w = Some e -> accepted e = true) ->
  forall e, _deviceOrientation (run t w) = Some e -> accepted e = true.
Proof.
  revert w; induction t as [|a t IH]; intros w Hw; cbn; [exact Hw|].
  apply IH. intros e. rewrite step_device.
  destruct a as [spec|el|i o|event|v| |a q| ]; try apply Hw.
  destruct (on_deviceorientation w); [|apply Hw].
  destruct (accepted event) eqn:E; [|apply Hw].
  cbn. intros H. injection H as <-. exact E.
Qed.

End Lemmas.

(** ** Properties of the module *)

Section Properties.

Context {T : THREE_API}.

#[local] Arguments on_response : simpl never.
#[local] Arguments on_error : simpl never.
#[local] Arguments request_API : simpl never.
#[local] Arguments display_alert : simpl never.
#[local] Arguments init : simpl never.
#[local] Arguments click : simpl never.
#[local] Arguments permission_settles : simpl never.
#[local] Arguments run_click_listener : simpl never.

(** C2, as amended.  In every world the module reaches from its load,
    [update()] returns [null] if and only if the subscription is disabled or
    the handler has never been given a sample without a [null] field (a
    sample with absent fields counts); and after [destroy()], [update()]
    returns [null] whatever the world was. *)
Theorem update_null_iff_disabled_or_no_sample (t : list Action) o d :
  let w := run t (loaded o d) in
  (fst (update w) = ReturnsNull <->
   _isEnabled w = false
   \/ forallb (fun e => negb (accepted e)) (samples_received t (loaded o d))
      = true)
  /\ (forall w0 : World, fst (update (destroy w0)) = ReturnsNull)
  /\ (forall w0 : World, fst (update (step Destroy w0)) = ReturnsNull).
Proof.
  cbv zeta. split; [|split; intros w0; reflexivity].
  rewrite update_null.
  pose proof (run_device_none t (loaded o d)) as H. cbn in H.
  split; (intros [E|E]; [now left|right]); apply H; tauto.
Qed.

(** C3, as amended.  A sensor event with a [null] field among alpha, beta and
    gamma is discarded: the handler and the delivery of the event leave the
    world as it is, the stored sample included, and [update()] gives what it
    gave before. *)
Theorem null_sample_is_discarded (w : World) (event : DeviceOrientationEvent) :
  JS.is_null (alpha event) || JS.is_null (beta event)
  || JS.is_null (gamma event) = true ->
  onDeviceOrientationChangeEvent event w = w
  /\ step (DeviceOrientation event) w = w
  /\ _deviceOrientation (step (DeviceOrientation event) w)
     = _deviceOrientation w
  /\ update (step (DeviceOrientation event) w) = update w.
Proof.
  intros H.
  assert (E : onDeviceOrientationChangeEvent event w = w)
    by (unfold onDeviceOrientationChangeEvent; now rewrite H).
  assert (E' : step (DeviceOrientation event) w = w)
    by (cbn; rewrite E; now destruct (on_deviceorientation w)).
  rewrite E'. repeat split; assumption.
Qed.


(** C9, as amended.  In every world the module reaches from its load the
    screen offset is what [onScreenOrientationChangeEvent] made of
    [window.orientation] when it last ran: the reported degrees times [_d2r],
    with an absent report read as 0, [_d2r] being the double nearest to
    pi/180.  The handler runs in [init] (unless [init] throws before,
    which it does for a [THREE] that is neither [null] nor the library) and
    on each rotation the browser delivers; a sensor event, [update()],
    [compute_rotationX/Y/Z], [destroy()], a click and the settling of a
    permission request leave the offset as it is. *)
Theorem screen_offset_is_last_report (t : list Action) o d :
  _screenOrientation (run t (loaded o d))
  = offset_of_report (last_report t (loaded o d) JS.undefined)
  /\ offset_of_report JS.undefined = (0 * _d2r)%float
  /\ offset_of_report (JS.Num 0) = (0 * _d2r)%float
  /\ offset_of_report (JS.Num 90) = (90 * _d2r)%float
  /\ offset_of_report (JS.Num 180) = (180 * _d2r)%float
  /\ offset_of_report (JS.Num 270) = (270 * _d2r)%float
  /\ _d2r = 0x1.1df46a2529d39p-6%float
  /\ (forall w : World,
        _screenOrientation (onScreenOrientationChangeEvent w)
        = offset_of_report (window_orientation w))
  /\ (forall (w : World) event,
        _screenOrientation (onDeviceOrientationChangeEvent event w)
        = _screenOrientation w)
  /\ (forall w : World,
        _screenOrientation (snd (update w)) = _screenOrientation w)
  /\ (forall w : World, _screenOrientation (destroy w) = _screenOrientation w)
  /\ (forall a (w : World),
        match a with
        | Init spec =>
            _screenOrientation (step a w)
            = if init_completes spec
              then offset_of_report (window_orientation w)
              else _screenOrientation w
        | OrientationChange v =>
            _screenOrientation (step a w)
            = if on_orientationchange w then offset_of_report v
              else _screenOrientation w
        | _ => _screenOrientation (step a w) = _screenOrientation w
        end).
Proof.
  split; [apply run_screen; reflexivity|].
  do 6 (split; [reflexivity|]).
  split; [reflexivity|].
  split; [intros; apply onDeviceOrientationChangeEvent_screen|].
  split; [apply update_screen|].
  split; [reflexivity|].
  intros a w. pose proof (step_screen a w) as H.
  destruct a; exact H.
Qed.

(** C1, as amended.  When a pending permission request resolves with a
    response other than ['granted'], the ready signal it reports to is
    accepted (it fulfills if it was pending), and the subscription is left as
    it was: the enabled flag and the two registrations on [window] do not
    change. *)
Theorem refusal_fulfills_without_subscribing (w : World) i k n response :
  nth_error (pending w) i = Some (k, n) ->
  String.eqb response "granted" = false ->
  let w' := step (PermissionSettles i (Resolves response)) w in
  _isEnabled w' = _isEnabled w
  /\ on_orientationchange w' = on_orientationchange w
  /\ on_deviceorientation w' = on_deviceorientation w
  /\ signals w' = settle_in (signals w) k Fulfilled
  /\ (ready_signal w k = Some Pending -> ready_signal w' k = Some Fulfilled).
Proof.
  intros Hi Hr. cbv zeta. cbn [step]. unfold permission_settles. rewrite Hi.
  destruct (on_response_refused k response
              (set_pending (remove_nth i (pending w)) w) Hr)
    as (E1 & E2 & E3 & _ & _ & E6).
  cbn in E1, E2, E3, E6.
  repeat split; try assumption.
  unfold ready_signal. rewrite E6. apply nth_error_settle_in_pending.
Qed.

(** C4.  From a fresh load on a platform with [requestPermission], with no
    [DOMTrigger] configured (and [THREE] left out or the library, so that
    [init] runs to its end): [init] issues one request; when it fails with a
    not-allowed error, [retry] is registered for [click] on
    [DOMRetryTrigger] (on [window] when there is none) and the ready signal
    stays pending; one click unregisters [retry] and issues exactly one more
    request, with [retriesCount] 1; a further click does nothing; when the
    second request fails, whatever the error, the ready signal is rejected
    and nothing is registered.  In any world: a not-allowed failure of a
    first attempt without [DOMTrigger] registers [retry] and settles
    nothing; [retry], when it runs, unregisters itself and issues one
    request with one more retry counted; any other failure (a [DOMTrigger]
    is configured, or the attempt is not the first, or the error is not a
    not-allowed one) calls [reject] and registers nothing.  And in every
    reachable world the registered [retry] closures have [retriesCount] 0
    and the pending requests have [retriesCount] at most 1, so a request
    issued by [retry] is never retried. *)
Theorem retry_happens_at_most_once (spec : Spec) o (e1 e2 : string) :
  init_completes spec = true ->
  DOMTrigger spec = None ->
  errorType e1 = "NOTALLOWEDERROR"%string ->
  let el := retry_element spec in
  let w0 := step (Init spec) (loaded o (Some true)) in
  let w1 := step (PermissionSettles 0 (Fails e1)) w0 in
  let w2 := step (Click el) w1 in
  let w3 := step (PermissionSettles 0 (Fails e2)) w2 in
  (pending w0 = [(0, 0)] /\ click_listeners w0 = []
   /\ signals w0 = [Pending])
  /\ (pending w1 = [] /\ click_listeners w1 = [(el, RetryListener 0 0)]
      /\ signals w1 = [Pending])
  /\ (pending w2 = [(0, 1)] /\ click_listeners w2 = []
      /\ signals w2 = [Pending])
  /\ step (Click el) w2 = w2
  /\ (pending w3 = [] /\ click_listeners w3 = []
      /\ signals w3 = [Rejected])
  /\ (forall (w : World) i k e,
        nth_error (pending w) i = Some (k, 0) ->
        DOMTrigger (current_spec w) = None ->
        errorType e = "NOTALLOWEDERROR"%string ->
        let w' := step (PermissionSettles i (Fails e)) w in
        click_listeners w'
        = click_listeners w
          ++ [(retry_element (current_spec w), RetryListener k 0)]
        /\ pending w' = remove_nth i (pending w)
        /\ signals w' = signals w)
  /\ (forall (w : World) target k n,
        has_requestPermission w = true ->
        let w' := run_click_listener target (RetryListener k n) w in
        click_listeners w'
        = remove_listener (target, RetryListener k n) (click_listeners w)
        /\ pending w' = pending w ++ [(k, n + 1)]
        /\ signals w' = signals w)
  /\ (forall (w : World) i k n e,
        nth_error (pending w) i = Some (k, n) ->
        (exists trigger, DOMTrigger (current_spec w) = Some trigger)
        \/ n <> 0 \/ errorType e <> "NOTALLOWEDERROR"%string ->
        let w' := step (PermissionSettles i (Fails e)) w in
        click_listeners w' = click_listeners w
        /\ pending w' = remove_nth i (pending w)
        /\ signals w' = settle_in (signals w) k Rejected
        /\ (ready_signal w k = Some Pending ->
            ready_signal w' k = Some Rejected))
  /\ (forall t o' d,
        Forall (fun p => snd p <= 1) (pending (run t (loaded o' d)))
        /\ Forall (fun p => match snd p with
                            | RetryListener _ n => n = 0
                            | TriggerListener _ => True
                            end) (click_listeners (run t (loaded o' d)))).
Proof.
  intros Hinit Htrig He1. cbv zeta. cbn [step].
  set (el := retry_element spec).
  set (w0 := snd (init spec (loaded o (Some true)))).
  set (w1 := permission_settles 0 (Fails e1) w0).
  set (w2 := click el w1).
  set (w3 := permission_settles 0 (Fails e2) w2).
  (* init *)
  destruct (init_requests spec (loaded o (Some true)) Hinit Htrig eq_refl)
    as (A1 & A2 & A3 & _).
  cbn in A1, A2, A3. fold w0 in A1, A2, A3.
  assert (S0 : current_spec w0 = spec)
    by (unfold current_spec, w0; now rewrite init_spec).
  assert (P0 : has_requestPermission w0 = true)
    by (unfold has_requestPermission, w0; now rewrite init_doe).
  (* the first failure *)
  assert (B : pending w1 = [] /\ click_listeners w1 = [(el, RetryListener 0 0)]
              /\ signals w1 = [Pending]
              /\ current_spec w1 = spec /\ has_requestPermission w1 = true).
  { pose proof (permission_settles_core 0 (Fails e1) w0) as C.
    unfold w1. unfold current_spec, has_requestPermission.
    rewrite (sc_spec _ _ C), (sc_doe _ _ C).
    fold (current_spec w0) (has_requestPermission w0).
    unfold permission_settles. rewrite A3. cbn [nth_error remove_nth].
    destruct (on_error_retries 0 0 e1 (set_pending [] w0))
      as (E1 & E2 & E3 & _).
    { unfold retries.
      replace (current_spec (set_pending [] w0)) with spec
        by (symmetry; exact S0).
      now rewrite He1, Htrig. }
    cbn in E1, E2, E3.
    replace (current_spec (set_pending [] w0)) with spec in E1
      by (symmetry; exact S0).
    rewrite E1, E2, E3, A1, A2. repeat split; assumption. }
  destruct B as (B1 & B2 & B3 & S1 & P1).
  (* the click *)
  assert (L1 : listeners_on el w1 = [(el, RetryListener 0 0)])
    by (unfold listeners_on; rewrite B2; cbn; now rewrite element_eqb_refl).
  assert (C : pending w2 = [(0, 1)] /\ click_listeners w2 = []
              /\ signals w2 = [Pending]
              /\ current_spec w2 = spec).
  { pose proof (click_core el w1) as C.
    unfold w2. unfold current_spec.
    rewrite (sc_spec _ _ C). fold (current_spec w1).
    rewrite (click_single el _ w1 L1).
    destruct (run_retry_listener el 0 0 w1 P1) as (E1 & E2 & E3 & _).
    rewrite E1, E2, E3, B1, B2, B3. cbn [remove_listener].
    rewrite listener_eqb_refl. repeat split; assumption. }
  destruct C as (C1 & C2 & C3 & S2).
  split; [repeat split; assumption|].
  split; [repeat split; assumption|].
  split; [repeat split; assumption|].
  split.
  { apply click_none. unfold listeners_on. now rewrite C2. }
  split.
  { unfold w3. unfold permission_settles. rewrite C1.
    cbn [nth_error remove_nth].
    destruct (on_error_rejects 1 0 e2 (set_pending [] w2))
      as (E1 & E2 & E3 & _).
    { unfold retries. cbn [Nat.eqb]. now rewrite andb_false_r. }
    cbn in E1, E2, E3. rewrite E1, E2, E3, C2, C3. repeat split. }
  split.
  { intros w i k e Hi Ht He. cbv zeta. cbn [step].
    unfold permission_settles. rewrite Hi.
    destruct (on_error_retries 0 k e (set_pending (remove_nth i (pending w)) w))
      as (E1 & E2 & E3 & _).
    { unfold retries.
      change (current_spec (set_pending (remove_nth i (pending w)) w))
        with (current_spec w).
      now rewrite He, Ht. }
    cbn in E1, E2, E3. repeat split; assumption. }
  split.
  { intros w target k n Hp. cbv zeta.
    destruct (run_retry_listener target k n w Hp) as (E1 & E2 & E3 & _).
    repeat split; assumption. }
  split.
  - intros w i k n e Hi Hno. cbv zeta. cbn [step].
    unfold permission_settles. rewrite Hi.
    destruct (on_error_rejects n k e (set_pending (remove_nth i (pending w)) w))
      as (E1 & E2 & E3 & _).
    { unfold retries.
      change (current_spec (set_pending (remove_nth i (pending w)) w))
        with (current_spec w).
      destruct Hno as [[trigger Ht]|[Hn|He]].
      - rewrite Ht. now rewrite andb_false_r.
      - apply Nat.eqb_neq in Hn. rewrite Hn. now rewrite andb_false_r.
      - apply String.eqb_neq in He. now rewrite He. }
    cbn in E1, E2, E3. repeat split; try assumption.
    unfold ready_signal. rewrite E2. apply nth_error_settle_in_pending.
  - intros t o' d. pose proof (invariant_reachable t o' d) as [].
    split; assumption.
Qed.

(** C5.  With a math capability configured, the subscription enabled and a
    sample stored, [update()] returns [_threeInstances.quat], which then is:
    the quaternion set from the Euler angles x = beta, y = alpha,
    z = -gamma (in radians) in order 'YXZ', multiplied on the right by the
    fixed quaternion (-sqrt 0.5, 0, 0, sqrt 0.5) (the rotation by -90 degrees
    about the X axis), then multiplied on the right by the quaternion set
    from the axis (0, 0, 1) and the angle [- _screenOrientation]. *)
Theorem update_returns_composed_quaternion (t : list Action) o d
  (device : DeviceOrientationEvent) :
  let w := run t (loaded o d) in
  math_configured w = true ->
  _isEnabled w = true ->
  _deviceOrientation w = Some device ->
  exists ti,
    _threeInstances w = Some ti
    /\ fst (update w) = ReturnsQuat
    /\ option_map quat (_threeInstances (snd (update w))) =
       Some
         (Quaternion_multiply
            (Quaternion_multiply
               (Quaternion_setFromEuler (quat ti)
                  (Euler_set (euler ti) (radians (beta device))
                     (radians (alpha device)) (- radians (gamma device))%float
                     "YXZ"))
               (Quaternion_new (- sqrt 0.5)%float 0%float 0%float
                  (sqrt 0.5)%float))
            (Quaternion_setFromAxisAngle (q0 ti)
               (Vector3_new 0%float 0%float 1%float)
               (- _screenOrientation w)%float)).
Proof.
  cbv zeta. intros H3 He Hd.
  pose proof (math_configured_isThree _ (invariant_reachable t o d) H3)
    as Hthree.
  pose proof (invariant_reachable t o d) as [_ _ Hinst _ _ _ _].
  destruct (Hinst H3) as (ti & Eti & Eq1 & Ez).
  exists ti. split; [exact Eti|].
  unfold update. rewrite He, Hd, Hthree, Eti.
  rewrite !get_deviceEulerAngle_radians. cbn [get_field].
  split; [reflexivity|]. cbn. unfold set_quaternion. cbn.
  now rewrite Eq1, Ez.
Qed.

(** C6, as amended.  On a platform without [requestPermission], the
    permission request is decided as soon as it is made: the ready signal is
    rejected when [isRejectIfMissing] is set; otherwise the subscription is
    enabled (flag and both registrations), the ready signal fulfills, and a
    sample without a [null] field delivered next is stored.  The request is
    made by [init] itself when no [DOMTrigger] is configured; with a
    [DOMTrigger], [init] leaves the ready signal pending and the request is
    made by the click on it.  ([THREE] is left out or the library: [init]
    runs to its end and returns the ready signal [k].  A platform is
    without [requestPermission] when [window.DeviceOrientationEvent] is
    undefined or has no such function.) *)
Theorem unsupported_platform_rejects_or_enables (w : World) (spec : Spec) :
  init_completes spec = true ->
  has_requestPermission w = false ->
  let k := length (signals w) in
  fst (init spec w) = inr k
  /\ (forall w0 : World,
        has_requestPermission w0 = false
        <-> window_DeviceOrientationEvent w0 = None
            \/ window_DeviceOrientationEvent w0 = Some false)
  /\ match DOMTrigger spec with
     | None => unsupported_outcome spec k (snd (init spec w))
     | Some el =>
         ready_signal (snd (init spec w)) k = Some Pending
         /\ _isEnabled (snd (init spec w)) = _isEnabled w
         /\ unsupported_outcome spec k (click el (snd (init spec w)))
     end.
Proof.
  intros Hinit Hp. cbv zeta.
  split; [now apply init_returns|].
  split.
  { intros w0. unfold has_requestPermission.
    destruct (window_DeviceOrientationEvent w0) as [[|]|].
    - split; [intros H; discriminate H|intros [H|H]; discriminate H].
    - split; [now right|reflexivity].
    - split; [now left|reflexivity]. }
  assert (stored : forall w' : World,
             on_deviceorientation w' = true ->
             forall event, accepted event = true ->
             _deviceOrientation (step (DeviceOrientation event) w')
             = Some event).
  { intros w' Hon event Hacc. now rewrite step_device, Hon, Hacc. }
  destruct (DOMTrigger spec) as [el|] eqn:Htrig.
  - destruct (init_with_trigger spec el w Hinit Htrig)
      as (A1 & A2 & _ & A4 & _).
    assert (Hk : nth_error (signals (snd (init spec w))) (length (signals w))
                 = Some Pending).
    { rewrite A2, nth_error_app2, Nat.sub_diag; [reflexivity|lia]. }
    split; [exact Hk|]. split; [exact A4|].
    destruct (click_unsupported el (length (signals w)) spec (snd (init spec w)))
      as (B1 & B2).
    + apply init_spec.
    + unfold has_requestPermission in *. now rewrite init_doe.
    + rewrite A1. apply in_or_app. right. now left.
    + exact Hk.
    + unfold unsupported_outcome, ready_signal.
      destruct (isRejectIfMissing spec); [exact B1|].
      destruct (B2 eq_refl) as (F1 & F2 & F3).
      repeat split; try assumption. now apply stored.
  - destruct (init_unsupported spec w Hinit Htrig Hp) as (A1 & A2 & _).
    unfold unsupported_outcome, ready_signal. rewrite A1.
    rewrite nth_error_app2, Nat.sub_diag by lia.
    destruct (isRejectIfMissing spec); [reflexivity|].
    destruct A2 as (F1 & F2 & F3).
    repeat split; try assumption. now apply stored.
Qed.


(** X1.  When a pending permission request resolves with ['granted'], the
    subscription is enabled (flag and both registrations), [accept] is
    called on the ready signal, which fulfills if it was pending, and a
    sample without a [null] field delivered next is stored. *)
Theorem granted_enables_and_fulfills (w : World) i k n :
  nth_error (pending w) i = Some (k, n) ->
  let w' := step (PermissionSettles i (Resolves "granted")) w in
  _isEnabled w' = true
  /\ on_orientationchange w' = true
  /\ on_deviceorientation w' = true
  /\ signals w' = settle_in (signals w) k Fulfilled
  /\ (ready_signal w k = Some Pending -> ready_signal w' k = Some Fulfilled)
  /\ (forall event,
        accepted event = true ->
        _deviceOrientation (step (DeviceOrientation event) w') = Some event).
Proof.
  intros Hi. cbv zeta.
  change (step (PermissionSettles i (Resolves "granted")) w)
    with (permission_settles i (Resolves "granted") w).
  unfold permission_settles. rewrite Hi.
  destruct (on_response_granted k (set_pending (remove_nth i (pending w)) w))
    as (E1 & E2 & E3 & _ & _ & E6).
  cbn in E6.
  split; [exact E1|]. split; [exact E2|]. split; [exact E3|].
  split; [exact E6|]. split.
  - unfold ready_signal. rewrite E6. apply nth_error_settle_in_pending.
  - intros event Hacc. now rewrite step_device, E3, Hacc.
Qed.

(** X2.  In every world the module reaches from its load, its two handlers
    are registered on [window] exactly when the enabled flag is set; while
    it is not set, a sensor event changes nothing and a screen rotation
    does not reach the offset. *)
Theorem registrations_follow_the_enabled_flag (t : list Action) o d :
  let w := run t (loaded o d) in
  on_orientationchange w = _isEnabled w
  /\ on_deviceorientation w = _isEnabled w
  /\ (_isEnabled w = false ->
      forall event v,
        step (DeviceOrientation event) w = w
        /\ _screenOrientation (step (OrientationChange v) w)
           = _screenOrientation w).
Proof.
  cbv zeta. pose proof (invariant_reachable t o d) as [_ _ _ H1 H2 _ _].
  split; [exact H1|]. split; [exact H2|].
  intros He event v. rewrite He in H1, H2. split.
  - cbn [step]. now rewrite H2.
  - now rewrite step_screen, H1.
Qed.

(** X3.  [destroy()] clears the enabled flag and both registrations and
    nothing else (the stored sample stays); it is idempotent, and on the
    module as loaded it changes nothing. *)
Theorem destroy_is_idempotent (w : World) :
  destroy (destroy w) = destroy w
  /\ _isEnabled (destroy w) = false
  /\ on_orientationchange (destroy w) = false
  /\ on_deviceorientation (destroy w) = false
  /\ _deviceOrientation (destroy w) = _deviceOrientation w
  /\ same_core w (destroy w)
  /\ signals (destroy w) = signals w
  /\ click_listeners (destroy w) = click_listeners w
  /\ pending (destroy w) = pending w
  /\ (forall o d, destroy (loaded o d) = loaded o d :> World).
Proof.
  repeat split.
Qed.

(** X4.  With no [THREE] asked for (left out or [null]), the subscription
    enabled and a sample stored, a screen rotation shows in what [update()]
    returns next: the fourth entry of the buffer is the offset of the
    rotation reported, and the offsets of 90 and of 0 degrees differ (they
    are the doubles nearest to pi/2 and 0). *)
Theorem screen_rotation_reaches_the_raw_tuple (t : list Action) o d
  (device : DeviceOrientationEvent) (v : JS.value) :
  let w := run t (loaded o d) in
  math_left_out w = true ->
  _isEnabled w = true ->
  _deviceOrientation w = Some device ->
  nth 3 (_angles (snd (update (step (OrientationChange v) w)))) 0%float
  = offset_of_report v
  /\ offset_of_report (JS.Num 90) = (90 * _d2r)%float
  /\ offset_of_report (JS.Num 0) = (0 * _d2r)%float
  /\ PrimFloat.eqb (offset_of_report (JS.Num 90)) (offset_of_report (JS.Num 0))
     = false
  /\ offset_of_report (JS.Num 90) = 0x1.921fb54442d18p+0%float
  /\ offset_of_report (JS.Num 0) = 0%float.
Proof.
  cbv zeta. intros H3 He Hd.
  split; [|repeat split].
  pose proof (invariant_reachable t o d) as Hinv.
  pose proof (invariant_step (OrientationChange v) _ Hinv) as Hinv'.
  pose proof (inv_orientationchange _ Hinv) as Hon. rewrite He in Hon.
  set (w := run t (loaded o d)) in *.
  assert (E : step (OrientationChange v) w
              = onScreenOrientationChangeEvent (set_window_orientation v w))
    by (cbn; now rewrite Hon).
  rewrite E in *.
  rewrite (update_raw _ device Hinv'); try assumption.
  reflexivity.
Qed.

(** X5.  In every world the module reaches from its load, the stored sample
    has no [null] field. *)
Theorem stored_sample_has_no_null_field (t : list Action) o d
  (device : DeviceOrientationEvent) :
  _deviceOrientation (run t (loaded o d)) = Some device ->
  JS.is_null (alpha device) = false
  /\ JS.is_null (beta device) = false
  /\ JS.is_null (gamma device) = false.
Proof.
  intros H.
  assert (A : accepted device = true).
  { apply (stored_sample_accepted t (loaded o d)); [|exact H].
    intros e He; discriminate He. }
  unfold accepted in A. apply negb_true_iff in A.
  apply orb_false_iff in A. destruct A as [A A3].
  apply orb_false_iff in A. destruct A as [A1 A2].
  repeat split; assumption.
Qed.

End Properties.

(** ** The fixed correction *)

Module CorrectionFacts.

Import Reals Lra FixedCorrection.
#[local] Open Scope R_scope.

Lemma quarter_turn_half_angle :
  sin (- (PI / 2) / 2) = - sqrt (1 / 2) /\ cos (- (PI / 2) / 2) = sqrt (1 / 2).
Proof.
  replace (- (PI / 2) / 2) with (- (PI / 4)) by lra.
  rewrite sin_neg, cos_neg, sin_PI4, cos_PI4.
  assert (E : 1 / sqrt 2 = sqrt (1 / 2)).
  { unfold Rdiv. rewrite !Rmult_1_l. symmetry. apply sqrt_inv. }
  rewrite E. split; reflexivity.
Qed.

(** [a / p < sqrt (1 / 2) < b / p] when [a ^ 2 < c < b ^ 2] and
    [p ^ 2 = 2 c]. *)
Lemma sqrt_half_between (a b c p : R) :
  0 <= a -> 0 <= b -> 0 < p -> a * a < c -> c < b * b -> p * p = 2 * c ->
  a / p < sqrt (1 / 2) < b / p.
Proof.
  intros Ha Hb Hp Hac Hcb Hpc.
  assert (Hc : 0 < c) by nra.
  assert (root : forall u, 0 <= u -> u / p = sqrt ((u / p) * (u / p))).
  { intros u Hu. symmetry. apply sqrt_square. apply Rmult_le_pos; [lra|].
    apply Rlt_le, Rinv_0_lt_compat, Hp. }
  assert (square : forall u, (u / p) * (u / p) = (u * u) / (2 * c))
    by (intros u; rewrite <- Hpc; field; lra).
  split.
  - rewrite (root a Ha). apply sqrt_lt_1_alt. rewrite square. split.
    + apply Rmult_le_pos; [nra|]. apply Rlt_le, Rinv_0_lt_compat. lra.
    + apply Rmult_lt_reg_r with (2 * c); [lra|]. field_simplify; lra.
  - rewrite (root b Hb). apply sqrt_lt_1_alt. split; [lra|]. rewrite square.
    apply Rmult_lt_reg_r with (2 * c); [lra|]. field_simplify; lra.
Qed.

Lemma value_of_sqrt_half :
  float_value (PrimFloat.sqrt 0.5) = IZR 6369051672525773 * / IZR (2 ^ 53).
Proof.
  unfold float_value.
  replace (Prim2SF (PrimFloat.sqrt 0.5))
    with (S754_finite false 6369051672525773 (-53))
    by (vm_compute; reflexivity).
  unfold pow2. cbn [Z.leb Z.compare Z.opp]. lra.
Qed.

Lemma value_of_minus_sqrt_half :
  float_value (- PrimFloat.sqrt 0.5)%float
  = - float_value (PrimFloat.sqrt 0.5).
Proof.
  rewrite value_of_sqrt_half. unfold float_value.
  replace (Prim2SF (- PrimFloat.sqrt 0.5)%float)
    with (S754_finite true 6369051672525773 (-53))
    by (vm_compute; reflexivity).
  unfold pow2. cbn [Z.leb Z.compare Z.opp]. lra.
Qed.

Lemma value_of_zero : float_value 0%float = 0.
Proof. reflexivity. Qed.

(** [Math.sqrt(0.5)] is within half a unit in the last place of the square
    root of 1/2. *)
Lemma sqrt_half_is_nearest :
  Rabs (float_value (PrimFloat.sqrt 0.5) - sqrt (1 / 2)) < pow2 (-54).
Proof.
  rewrite value_of_sqrt_half.
  destruct (sqrt_half_between
              (IZR (2 * 6369051672525773 - 1)) (IZR (2 * 6369051672525773 + 1))
              (IZR (2 ^ 107)) (IZR (2 ^ 54))) as [L U].
  - apply IZR_le. vm_compute. discriminate.
  - apply IZR_le. vm_compute. discriminate.
  - apply IZR_lt. reflexivity.
  - rewrite <- mult_IZR. apply IZR_lt. reflexivity.
  - rewrite <- mult_IZR. apply IZR_lt. reflexivity.
  - rewrite <- !mult_IZR. f_equal.
  - unfold pow2. cbn [Z.leb Z.compare Z.opp].
    assert (P : IZR (2 ^ 54) = 2 * IZR (2 ^ 53))
      by (rewrite <- mult_IZR; f_equal).
    rewrite minus_IZR, mult_IZR in L. rewrite plus_IZR, mult_IZR in U.
    set (p := IZR (2 ^ 54)) in *. set (h := IZR (2 ^ 53)) in *.
    set (m := IZR 6369051672525773) in *.
    assert (0 < h) by (apply IZR_lt; reflexivity).
    assert (Em : m * / h = (2 * m) / p) by (rewrite P; field; lra).
    assert (Ep : 0 < / p) by (apply Rinv_0_lt_compat; lra).
    rewrite Em. unfold Rdiv in *.
    apply Rabs_def1; nra.
Qed.

(** X6.  The quaternion [q1] that [init_threeInstances] creates, when
    [init] is given the library, is (-sqrt 0.5, 0, 0, sqrt 0.5) in doubles; read as real numbers, its
    components are those of the rotation by -90 degrees (-pi/2) about the X
    axis (1, 0, 0): y and z exactly, x and w to within half a unit in the
    last place. *)
Theorem fixed_correction_is_quarter_turn_about_x {T : THREE_API}
  (w : World) :
  (forall spec,
     THREE spec = THREE_library ->
     option_map q1 (_threeInstances (snd (init spec w)))
     = Some (Quaternion_new (- PrimFloat.sqrt 0.5)%float 0%float 0%float
               (PrimFloat.sqrt 0.5)))
  /\ (forall w',
        init_threeInstances w = inr w' ->
        option_map q1 (_threeInstances w')
        = Some (Quaternion_new (- PrimFloat.sqrt 0.5)%float 0%float 0%float
                  (PrimFloat.sqrt 0.5)))
  /\ exists x y z c,
       axis_angle 1 0 0 (- (PI / 2)) = (x, y, z, c)
       /\ Rabs (float_value (- PrimFloat.sqrt 0.5)%float - x) < pow2 (-54)
       /\ float_value 0%float = y
       /\ float_value 0%float = z
       /\ Rabs (float_value (PrimFloat.sqrt 0.5) - c) < pow2 (-54).
Proof.
  split; [|split].
  { intros spec H. unfold init, init_threeInstances. cbn. rewrite H. cbn.
    destruct (DOMTrigger spec); [reflexivity|].
    now rewrite (sc_instances _ _ (request_API_core _ _ _)). }
  { intros w'. unfold init_threeInstances.
    destruct (THREE (current_spec w)); intros H; try discriminate H.
    injection H as <-. reflexivity. }
  destruct quarter_turn_half_angle as [Hs Hc].
  eexists _, _, _, _. split; [reflexivity|].
  rewrite Hs, Hc, value_of_minus_sqrt_half, value_of_zero.
  pose proof sqrt_half_is_nearest as H.
  repeat split.
  - replace (- float_value (PrimFloat.sqrt 0.5) - 1 * - sqrt (1 / 2))
      with (- (float_value (PrimFloat.sqrt 0.5) - sqrt (1 / 2))) by lra.
    now rewrite Rabs_Ropp.
  - lra.
  - lra.
  - exact H.
Qed.

End CorrectionFacts.

(** ** The module at work

    Runs of the module with the recording capability: instances of the
    theorems above, and runs that show where a statement of the
    specification does not hold. *)

Module Runs.

Import Recorder Inputs.

(** C1, counterexample.  On a gated platform the user refuses: the ready
    signal fulfills, but the enabled flag is false and neither handler is
    registered; a sample sent afterwards is not stored and [update()] returns
    [null]. *)
Lemma refusal_leaves_subscription_disabled :
  let w := run [Init _defaultSpec;
                PermissionSettles 0 (Resolves "denied")] gated in
  ready_signal w 0 = Some Fulfilled
  /\ _isEnabled w = false
  /\ on_orientationchange w = false
  /\ on_deviceorientation w = false
  /\ _deviceOrientation (step (DeviceOrientation (sample 10 20 30)) w) = None
  /\ fst (update (step (DeviceOrientation (sample 10 20 30)) w)) = ReturnsNull.
Proof. cbv zeta. repeat split. Qed.

(** C1, witness: the first request of a fresh [init] on a gated platform is
    answered ['denied']. *)
Lemma refusal_fulfills_without_subscribing_witness :
  let w := step (Init _defaultSpec) gated in
  let w' := step (PermissionSettles 0 (Resolves "denied")) w in
  (nth_error (pending w) 0 = Some (0, 0)
   /\ String.eqb "denied" "granted" = false)
  /\ _isEnabled w' = _isEnabled w
  /\ on_orientationchange w' = on_orientationchange w
  /\ on_deviceorientation w' = on_deviceorientation w
  /\ signals w' = settle_in (signals w) 0 Fulfilled
  /\ (ready_signal w 0 = Some Pending -> ready_signal w' 0 = Some Fulfilled).
Proof.
  cbv zeta. split; [split; reflexivity|].
  apply (refusal_fulfills_without_subscribing
           (step (Init _defaultSpec) gated) 0 0 0 "denied");
    reflexivity.
Defined.

(** C2, counterexample.  A sample whose alpha is absent is not valid in the
    words of the specification, and it is the only one received; yet the
    subscription is enabled and [update()] returns the angle buffer, not
    [null]. *)
Lemma update_not_null_without_valid_sample :
  let t := [Init _defaultSpec;
            DeviceOrientation (sample_without_alpha 1 2)] in
  let w := run t ungated in
  _isEnabled w = true
  /\ samples_received t ungated = [sample_without_alpha 1 2]
  /\ forallb (fun e => negb (valid_sample e)) (samples_received t ungated)
     = true
  /\ fst (update w) = ReturnsAngles
  /\ fst (update w) <> ReturnsNull.
Proof. cbv zeta. repeat split. intros H; discriminate H. Qed.

(** C3, counterexample.  With the sample (10, 20, 30) stored, an event whose
    alpha is absent is not discarded: it replaces the stored sample, and the
    first angle [update()] writes goes from [_d2r * 10] to 0. *)
Lemma sample_with_absent_field_is_stored :
  let w := run [Init _defaultSpec;
                DeviceOrientation (sample 10 20 30)] ungated in
  let event := sample_without_alpha 40 50 in
  let w' := step (DeviceOrientation event) w in
  JS.is_undefined (alpha event) = true
  /\ _deviceOrientation w = Some (sample 10 20 30)
  /\ _deviceOrientation w' = Some event
  /\ _deviceOrientation w' <> _deviceOrientation w
  /\ nth 0 (_angles (snd (update w))) 0%float = (_d2r * 10)%float
  /\ nth 0 (_angles (snd (update w'))) 0%float = 0%float
  /\ PrimFloat.eqb (nth 0 (_angles (snd (update w'))) 0%float)
       (nth 0 (_angles (snd (update w))) 0%float) = false.
Proof.
  cbv zeta. repeat split. intros H; discriminate H.
Qed.

(** C3, witness: with the sample (10, 20, 30) stored, an event whose beta is
    [null] arrives. *)
Lemma null_sample_is_discarded_witness :
  let w := run [Init _defaultSpec;
                DeviceOrientation (sample 10 20 30)] ungated in
  let event := {| alpha := JS.Num 40; beta := JS.null; gamma := JS.Num 50 |} in
  JS.is_null (alpha event) || JS.is_null (beta event)
  || JS.is_null (gamma event) = true
  /\ onDeviceOrientationChangeEvent event w = w
  /\ step (DeviceOrientation event) w = w
  /\ _deviceOrientation (step (DeviceOrientation event) w)
     = _deviceOrientation w
  /\ update (step (DeviceOrientation event) w) = update w.
Proof.
  cbv zeta. split; [reflexivity|].
  apply (null_sample_is_discarded
           (run [Init _defaultSpec; DeviceOrientation (sample 10 20 30)]
              ungated)
           {| alpha := JS.Num 40; beta := JS.null; gamma := JS.Num 50 |}).
  reflexivity.
Defined.

(** C4, witness: the default options on a gated platform, and the error Safari
    raises when the request is not made from a user gesture. *)
Lemma retry_happens_at_most_once_witness :
  let e := "NotAllowedError: Requesting device orientation access requires a user gesture to prompt"%string in
  let w0 := step (Init _defaultSpec) gated in
  let w1 := step (PermissionSettles 0 (Fails e)) w0 in
  let w2 := step (Click window) w1 in
  let w3 := step (PermissionSettles 0 (Fails e)) w2 in
  (init_completes _defaultSpec = true /\ DOMTrigger _defaultSpec = None
   /\ errorType e = "NOTALLOWEDERROR"%string)
  /\ (pending w0 = [(0, 0)] /\ click_listeners w0 = []
      /\ signals w0 = [Pending])
  /\ (pending w1 = [] /\ click_listeners w1 = [(window, RetryListener 0 0)]
      /\ signals w1 = [Pending])
  /\ (pending w2 = [(0, 1)] /\ click_listeners w2 = []
      /\ signals w2 = [Pending])
  /\ step (Click window) w2 = w2
  /\ (pending w3 = [] /\ click_listeners w3 = []
      /\ signals w3 = [Rejected]).
Proof.
  cbv zeta. split; [repeat split|].
  pose proof
    (@retry_happens_at_most_once api _defaultSpec (JS.Num 0)
       "NotAllowedError: Requesting device orientation access requires a user gesture to prompt"
       "NotAllowedError: Requesting device orientation access requires a user gesture to prompt"
       eq_refl eq_refl eq_refl) as H.
  cbv zeta in H. destruct H as (H0 & H1 & H2 & H3 & H4 & _).
  repeat split; first [apply H0 | apply H1 | apply H2 | apply H3 | apply H4].
Defined.

(** C5, witness: with [THREE], the screen turned to 90 degrees and the sample
    (10, 20, 30). *)
Lemma update_returns_composed_quaternion_witness :
  let t := [Init with_THREE; OrientationChange (JS.Num 90);
            DeviceOrientation (sample 10 20 30)] in
  let w := run t ungated in
  (math_configured w = true /\ _isEnabled w = true
   /\ _deviceOrientation w = Some (sample 10 20 30))
  /\ exists ti,
       _threeInstances w = Some ti
       /\ fst (update w) = ReturnsQuat
       /\ option_map quat (_threeInstances (snd (update w))) =
          Some
            (Quaternion_multiply
               (Quaternion_multiply
                  (Quaternion_setFromEuler (quat ti)
                     (Euler_set (euler ti) (radians (JS.Num 20))
                        (radians (JS.Num 10)) (- radians (JS.Num 30))%float
                        "YXZ"))
                  (Quaternion_new (- sqrt 0.5)%float 0%float 0%float
                     (sqrt 0.5)%float))
               (Quaternion_setFromAxisAngle (q0 ti)
                  (Vector3_new 0%float 0%float 1%float)
                  (- _screenOrientation w)%float)).
Proof.
  cbv zeta. split; [repeat split|].
  apply (@update_returns_composed_quaternion api
           [Init with_THREE; OrientationChange (JS.Num 90);
            DeviceOrientation (sample 10 20 30)]
           (JS.Num 0) None (sample 10 20 30)); reflexivity.
Defined.

(** C6, counterexample.  On a platform without [requestPermission], with a
    [DOMTrigger] configured, [init] decides nothing: whether
    [isRejectIfMissing] is set or not, the ready signal is pending, the
    subscription is disabled and a sample sent then is not stored.  The
    outcome comes with the click. *)
Lemma unsupported_platform_waits_for_the_trigger :
  let enabling := step (Init (with_DOMTrigger (Element 1) false)) ungated in
  let rejecting := step (Init (with_DOMTrigger (Element 1) true)) ungated in
  has_requestPermission ungated = false
  /\ ready_signal rejecting 0 = Some Pending
  /\ ready_signal enabling 0 = Some Pending
  /\ _isEnabled enabling = false
  /\ on_deviceorientation enabling = false
  /\ _deviceOrientation
       (step (DeviceOrientation (sample 10 20 30)) enabling) = None
  /\ ready_signal (step (Click (Element 1)) rejecting) 0 = Some Rejected
  /\ ready_signal (step (Click (Element 1)) enabling) 0 = Some Fulfilled
  /\ _isEnabled (step (Click (Element 1)) enabling) = true.
Proof. cbv zeta. repeat split. Qed.

(** C6, witness: the default options on a platform without
    [requestPermission]. *)
Lemma unsupported_platform_rejects_or_enables_witness :
  (init_completes _defaultSpec = true
   /\ has_requestPermission ungated = false)
  /\ fst (init _defaultSpec ungated) = inr 0
  /\ unsupported_outcome _defaultSpec 0 (snd (init _defaultSpec ungated)).
Proof.
  split; [split; reflexivity|].
  pose proof (@unsupported_platform_rejects_or_enables api ungated
                _defaultSpec eq_refl eq_refl) as H.
  cbv zeta in H. destruct H as (H1 & _ & H2).
  split; [exact H1|exact H2].
Defined.





(** C9, counterexample.  While [init] waits for the click on [DOMTrigger] the
    handler is not registered: the screen turns to 90 degrees and the offset
    stays 0, which is not 90 degrees in radians.  And [init], which is no
    rotation event, writes the offset: loaded in a browser held at 90
    degrees, the module has offset 0 before [init] and pi/2 after. *)
Lemma screen_offset_misses_undelivered_rotation :
  let w := run [Init (with_DOMTrigger (Element 1) false);
                OrientationChange (JS.Num 90)] gated in
  let sideways : @World api := loaded (JS.Num 90) None in
  window_orientation w = JS.Num 90
  /\ on_orientationchange w = false
  /\ _screenOrientation w = 0%float
  /\ offset_of_report (window_orientation w) = (90 * _d2r)%float
  /\ PrimFloat.eqb (_screenOrientation w)
       (offset_of_report (window_orientation w)) = false
  /\ _screenOrientation sideways = 0%float
  /\ _screenOrientation (step (Init _defaultSpec) sideways)
     = (90 * _d2r)%float
  /\ PrimFloat.eqb (_screenOrientation (step (Init _defaultSpec) sideways))
       (_screenOrientation sideways) = false.
Proof. cbv zeta. repeat split. Qed.

(** X1, witness: the first request of a fresh [init] on a gated platform is
    answered ['granted']. *)
Lemma granted_enables_and_fulfills_witness :
  let w := step (Init _defaultSpec) gated in
  let w' := step (PermissionSettles 0 (Resolves "granted")) w in
  nth_error (pending w) 0 = Some (0, 0)
  /\ _isEnabled w' = true
  /\ on_orientationchange w' = true
  /\ on_deviceorientation w' = true
  /\ signals w' = settle_in (signals w) 0 Fulfilled
  /\ (ready_signal w 0 = Some Pending -> ready_signal w' 0 = Some Fulfilled)
  /\ (forall event,
        accepted event = true ->
        _deviceOrientation (step (DeviceOrientation event) w') = Some event).
Proof.
  cbv zeta. split; [reflexivity|].
  apply (granted_enables_and_fulfills (step (Init _defaultSpec) gated) 0 0 0).
  reflexivity.
Defined.

(** X4, witness: the sample (10, 20, 30) stored, then the screen turns to 90
    degrees. *)
Lemma screen_rotation_reaches_the_raw_tuple_witness :
  let t := [Init _defaultSpec; DeviceOrientation (sample 10 20 30)] in
  let w := run t ungated in
  (math_left_out w = true /\ _isEnabled w = true
   /\ _deviceOrientation w = Some (sample 10 20 30))
  /\ nth 3 (_angles (snd (update (step (OrientationChange (JS.Num 90)) w))))
       0%float
     = offset_of_report (JS.Num 90)
  /\ offset_of_report (JS.Num 90) = (90 * _d2r)%float
  /\ offset_of_report (JS.Num 0) = (0 * _d2r)%float
  /\ PrimFloat.eqb (offset_of_report (JS.Num 90)) (offset_of_report (JS.Num 0))
     = false
  /\ offset_of_report (JS.Num 90) = 0x1.921fb54442d18p+0%float
  /\ offset_of_report (JS.Num 0) = 0%float.
Proof.
  cbv zeta. split; [repeat split|].
  apply (@screen_rotation_reaches_the_raw_tuple api
           [Init _defaultSpec; DeviceOrientation (sample 10 20 30)]
           (JS.Num 0) None (sample 10 20 30) (JS.Num 90)); reflexivity.
Defined.

(** X5, witness: a sample without alpha is stored. *)
Lemma stored_sample_has_no_null_field_witness :
  let t := [Init _defaultSpec;
            DeviceOrientation (sample_without_alpha 20 30)] in
  _deviceOrientation (run t ungated) = Some (sample_without_alpha 20 30)
  /\ JS.is_null (alpha (sample_without_alpha 20 30)) = false
  /\ JS.is_null (beta (sample_without_alpha 20 30)) = false
  /\ JS.is_null (gamma (sample_without_alpha 20 30)) = false.
Proof.
  cbv zeta. split; [reflexivity|].
  apply (@stored_sample_has_no_null_field api
           [Init _defaultSpec; DeviceOrientation (sample_without_alpha 20 30)]
           (JS.Num 0) None (sample_without_alpha 20 30)).
  reflexivity.
Defined.

End Runs.


(** ** Further properties

    Properties of the module beyond those the specification states. *)

Section Further.

Context {T : THREE_API}.

(** *** Last value wins *)

Lemma run_device_last t (w : World) :
  _deviceOrientation (run t w)
  = last_accepted (samples_received t w) (_deviceOrientation w).
Proof.
  unfold last_accepted.
  revert w; induction t as [|a t IH]; intros w; cbn [run samples_received];
    [reflexivity|].
  rewrite IH, step_device, fold_left_app. f_equal.
  destruct a as [spec|el|i o|event|v| |a q| ]; try reflexivity.
  destruct (on_deviceorientation w); reflexivity.
Qed.

(** X7.  In every world the module reaches from its load, the stored sample
    is the last of the samples given to the handler that has no [null]
    field, and there is none stored when no such sample was given: samples
    are not queued, and a sample with a [null] field does not displace the
    one stored. *)
Theorem stored_sample_is_last_accepted (t : list Action) o d :
  _deviceOrientation (run t (loaded o d))
  = last_accepted (samples_received t (loaded o d)) None
  /\ (forall l kept event,
        accepted event = true ->
        last_accepted (l ++ [event]) kept = Some event)
  /\ (forall l kept event,
        accepted event = false ->
        last_accepted (l ++ [event]) kept = last_accepted l kept).
Proof.
  split; [apply run_device_last|].
  unfold last_accepted.
  split; intros l kept event H; rewrite fold_left_app; cbn; now rewrite H.
Qed.

(** *** The classification of errors *)

Lemma upper_ascii_colon c :
  Ascii.eqb (JS.upper_ascii c) ":" = Ascii.eqb c ":".
Proof.
  destruct c as [[] [] [] [] [] [] [] []]; reflexivity.
Qed.

Lemma split_colon_shift_toUpperCase s :
  JS.split_colon_shift (JS.toUpperCase s)
  = JS.toUpperCase (JS.split_colon_shift s).
Proof.
  induction s as [|c s IH]; [reflexivity|].
  cbn [JS.toUpperCase JS.split_colon_shift]. rewrite upper_ascii_colon.
  destruct (Ascii.eqb c ":"); [reflexivity|].
  cbn [JS.toUpperCase]. now rewrite IH.
Qed.

Lemma split_colon_shift_append name msg :
  JS.split_colon_shift (name ++ String ":" msg)%string
  = JS.split_colon_shift name.
Proof.
  induction name as [|c name IH]; cbn; [reflexivity|].
  destruct (Ascii.eqb c ":"); [reflexivity|]. now rewrite IH.
Qed.

Lemma split_colon_shift_rest s :
  exists rest,
    s = (JS.split_colon_shift s ++ rest)%string
    /\ (rest = EmptyString \/ exists r, rest = String ":" r).
Proof.
  induction s as [|c s (rest & E & H)].
  - exists EmptyString. split; [reflexivity|now left].
  - cbn [JS.split_colon_shift]. destruct (Ascii.eqb c ":") eqn:Ec.
    + apply Ascii.eqb_eq in Ec. subst c.
      exists (String ":" s). split; [reflexivity|]. right. now exists s.
    + exists rest. split; [|exact H]. cbn. now rewrite <- E.
Qed.

Lemma length_toUpperCase s :
  String.length (JS.toUpperCase s) = String.length s.
Proof. induction s as [|c s IH]; cbn; [reflexivity|now rewrite IH]. Qed.

Lemma split_colon_shift_whole s :
  String.length (JS.split_colon_shift s) = String.length s ->
  JS.split_colon_shift s = s.
Proof.
  induction s as [|c s IH]; [reflexivity|].
  cbn [JS.split_colon_shift]. destruct (Ascii.eqb c ":").
  - intros H; discriminate H.
  - cbn. intros H. injection H as H. now rewrite IH.
Qed.

Lemma append_empty_r s : (s ++ EmptyString)%string = s.
Proof. induction s as [|c s IH]; cbn; [reflexivity|now rewrite IH]. Qed.

(** X8.  The class of an error is the text of [error.toString()] before its
    first colon, in upper case: what follows the colon plays no part, nor
    does the letter case; and an error is classed as not-allowed exactly
    when it reads as a name that is 'NotAllowedError' in some letter case,
    alone or followed by a colon and any text. *)
Theorem error_class_is_name_before_colon :
  (forall name msg,
     errorType (name ++ String ":" msg)%string = errorType name)
  /\ (forall e1 e2,
        JS.toUpperCase e1 = JS.toUpperCase e2 -> errorType e1 = errorType e2)
  /\ (forall e,
        errorType e = "NOTALLOWEDERROR"%string <->
        exists name rest,
          e = (name ++ rest)%string
          /\ JS.toUpperCase name = "NOTALLOWEDERROR"%string
          /\ (rest = EmptyString \/ exists r, rest = String ":" r)).
Proof.
  unfold errorType. split; [|split].
  - intros name msg. now rewrite split_colon_shift_append.
  - intros e1 e2 H. now rewrite <- !split_colon_shift_toUpperCase, H.
  - intros e. split.
    + intros H. destruct (split_colon_shift_rest e) as (rest & E & Hr).
      exists (JS.split_colon_shift e), rest. repeat split; assumption.
    + intros (name & rest & -> & Hn & Hr).
      assert (W : JS.split_colon_shift name = name).
      { apply split_colon_shift_whole.
        rewrite <- (length_toUpperCase (JS.split_colon_shift name)).
        rewrite <- split_colon_shift_toUpperCase, Hn.
        now rewrite <- (length_toUpperCase name), Hn. }
      destruct Hr as [->|[r ->]].
      * now rewrite append_empty_r, W.
      * now rewrite split_colon_shift_append, W.
Qed.

(** *** What a click does *)

Lemma request_API_click_listeners n k (w : World) :
  click_listeners (request_API n k w) = click_listeners w.
Proof.
  destruct (has_requestPermission w) eqn:H.
  - now rewrite request_API_supported.
  - now destruct (request_API_unsupported n k w H) as (_ & _ & E & _).
Qed.

Lemma run_click_listener_click_listeners el l (w : World) :
  click_listeners (run_click_listener el l w)
  = if is_retry l then remove_listener (el, l) (click_listeners w)
    else click_listeners w.
Proof.
  destruct l as [k|k n]; unfold run_click_listener;
    rewrite request_API_click_listeners; cbn.
  - now destruct (DOMTriggerOnClick (current_spec w)).
  - now rewrite (sf_click _ _ (display_alert_flow _ w)).
Qed.

Lemma element_eqb_eq a b : element_eqb a b = true -> a = b.
Proof.
  destruct a, b; cbn; intros H; try discriminate H; [reflexivity|].
  apply Nat.eqb_eq in H. now subst.
Qed.

Lemma listener_eqb_eq a b : listener_eqb a b = true -> a = b.
Proof.
  destruct a as [ea [i|i n]], b as [eb [j|j m]]; unfold listener_eqb; cbn;
    intros H; apply andb_true_iff in H; destruct H as [He Hl];
    try discriminate Hl; apply element_eqb_eq in He; subst.
  - apply Nat.eqb_eq in Hl. now subst.
  - apply andb_true_iff in Hl. destruct Hl as [H1 H2].
    apply Nat.eqb_eq in H1, H2. now subst.
Qed.

(** A closure to unregister that is not among [pre] is looked for past
    [pre]. *)
Lemma remove_listener_skips x pre l :
  Forall (fun p => listener_eqb x p = false) pre ->
  remove_listener x (pre ++ l) = pre ++ remove_listener x l.
Proof.
  induction pre as [|y pre IH]; intros H; [reflexivity|].
  inversion H; subst. cbn. rewrite H2. now rewrite IH.
Qed.

Lemma remove_listener_head x l : remove_listener x (x :: l) = l.
Proof. cbn. now rewrite listener_eqb_refl. Qed.

(** Unregistering, in turn, the [retry] closures found on [el] leaves what
    is not a [retry] closure on [el]. *)
Lemma retry_closures_removed el l pre :
  Forall (fun p => element_eqb (fst p) el && is_retry (snd p) = false) pre ->
  fold_left
    (fun c p => if is_retry (snd p) then remove_listener p c else c)
    (filter (fun p => element_eqb (fst p) el) l) (pre ++ l)
  = pre ++ filter
             (fun p => negb (element_eqb (fst p) el && is_retry (snd p))) l.
Proof.
  revert pre; induction l as [|y l IH]; intros pre Hpre; [reflexivity|].
  assert (step :
             element_eqb (fst y) el && is_retry (snd y) = false ->
             fold_left
               (fun c p => if is_retry (snd p) then remove_listener p c else c)
               (filter (fun p => element_eqb (fst p) el) l) (pre ++ y :: l)
             = pre ++ y :: filter
                  (fun p => negb (element_eqb (fst p) el && is_retry (snd p)))
                  l).
  { intros Hy.
    replace (pre ++ y :: l) with ((pre ++ [y]) ++ l)
      by (now rewrite <- app_assoc).
    rewrite IH; [now rewrite <- app_assoc|].
    apply Forall_app. split; [exact Hpre|]. now constructor. }
  cbn [filter]. destruct (element_eqb (fst y) el) eqn:Ey.
  - cbn [fold_left andb negb]. destruct (is_retry (snd y)) eqn:Ry.
    + cbn [negb]. rewrite remove_listener_skips, remove_listener_head.
      * now apply IH.
      * apply Forall_forall. intros p Hp.
        destruct (listener_eqb y p) eqn:E; [|reflexivity].
        apply listener_eqb_eq in E. subst p.
        rewrite Forall_forall in Hpre. specialize (Hpre y Hp).
        rewrite ?Ey, ?Ry in Hpre. discriminate Hpre.
    + cbn [negb]. apply step. rewrite ?Ey, ?Ry. reflexivity.
  - cbn [andb negb]. apply step. rewrite ?Ey. reflexivity.
Qed.

Lemma click_listeners_fold l (w : World) :
  click_listeners
    (fold_left (fun w p => run_click_listener (fst p) (snd p) w) l w)
  = fold_left
      (fun c p => if is_retry (snd p) then remove_listener p c else c)
      l (click_listeners w).
Proof.
  revert w; induction l as [|[el c] l IH]; intros w; [reflexivity|].
  cbn [fold_left fst snd]. rewrite IH.
  now rewrite run_click_listener_click_listeners.
Qed.

(** X9.  A click on [el] unregisters exactly the [retry] closures that were
    registered on [el], whatever the platform answers: none of them is left
    on [el] (each runs once), while the closures [init] registered on a
    [DOMTrigger] and the [retry] closures on other elements all stay. *)
Theorem click_consumes_retry_closures (el : element) (w : World) :
  click_listeners (click el w)
  = filter (fun p => negb (element_eqb (fst p) el && is_retry (snd p)))
      (click_listeners w)
  /\ (forall k n, ~ In (el, RetryListener k n) (click_listeners (click el w)))
  /\ (forall target k,
        In (target, TriggerListener k) (click_listeners w) ->
        In (target, TriggerListener k) (click_listeners (click el w)))
  /\ (forall target k n,
        target <> el ->
        In (target, RetryListener k n) (click_listeners w) ->
        In (target, RetryListener k n) (click_listeners (click el w))).
Proof.
  assert (E : click_listeners (click el w)
              = filter
                  (fun p => negb (element_eqb (fst p) el && is_retry (snd p)))
                  (click_listeners w)).
  { unfold click. rewrite click_listeners_fold.
    apply (retry_closures_removed el (click_listeners w) []). constructor. }
  split; [exact E|]. rewrite E. split; [|split].
  - intros k n H. apply filter_In in H. destruct H as [_ H].
    cbn in H. now rewrite element_eqb_refl in H.
  - intros target k H. apply filter_In. split; [exact H|].
    cbn. now rewrite andb_false_r.
  - intros target k n Hne H. apply filter_In. split; [exact H|].
    cbn. destruct (element_eqb target el) eqn:Et; [|reflexivity].
    apply element_eqb_eq in Et. contradiction.
Qed.

(** With [requestPermission], a click closure calls it and settles
    nothing. *)
Lemma run_click_listener_gated el l (w : World) :
  has_requestPermission w = true ->
  let w' := run_click_listener el l w in
  pending w' = pending w ++ [request_of (el, l)]
  /\ signals w' = signals w
  /\ _isEnabled w' = _isEnabled w
  /\ on_orientationchange w' = on_orientationchange w
  /\ on_deviceorientation w' = on_deviceorientation w
  /\ DOMTriggerOnClick_calls w'
     = DOMTriggerOnClick_calls w
       + (if DOMTriggerOnClick (current_spec w) && is_trigger l then 1 else 0)
  /\ has_requestPermission w' = true
  /\ current_spec w' = current_spec w.
Proof.
  intros Hp. cbv zeta.
  pose proof (run_click_listener_core el l w) as C.
  assert (Hp' : has_requestPermission (run_click_listener el l w) = true)
    by (unfold has_requestPermission in *; now rewrite (sc_doe _ _ C)).
  assert (Hs' : current_spec (run_click_listener el l w) = current_spec w)
    by (unfold current_spec; now rewrite (sc_spec _ _ C)).
  destruct l as [k|k n]; unfold run_click_listener in *.
  - rewrite request_API_supported
      by (now destruct (DOMTriggerOnClick (current_spec w))).
    cbn. destruct (DOMTriggerOnClick (current_spec w)); cbn;
      rewrite ?Nat.add_0_r, ?Nat.add_1_r; repeat split; assumption.
  - destruct (run_retry_listener el k n w Hp) as (_ & E2 & E3 & E4 & E5 & E6).
    unfold run_click_listener in *.
    rewrite E2, E3, E4, E5, E6. rewrite andb_false_r, Nat.add_0_r.
    repeat split; try assumption.
    rewrite request_API_supported.
    + cbn. apply (sf_calls _ _ (display_alert_flow _ w)).
    + unfold has_requestPermission in *. cbn.
      now rewrite (sc_doe _ _ (display_alert_core _ w)).
Qed.

Lemma click_fold_gated l (w : World) :
  has_requestPermission w = true ->
  let w' :=
    fold_left (fun w p => run_click_listener (fst p) (snd p) w) l w in
  pending w' = pending w ++ map request_of l
  /\ signals w' = signals w
  /\ _isEnabled w' = _isEnabled w
  /\ on_orientationchange w' = on_orientationchange w
  /\ on_deviceorientation w' = on_deviceorientation w
  /\ DOMTriggerOnClick_calls w'
     = DOMTriggerOnClick_calls w
       + (if DOMTriggerOnClick (current_spec w)
          then length (filter (fun p => is_trigger (snd p)) l) else 0)
  /\ has_requestPermission w' = true
  /\ current_spec w' = current_spec w.
Proof.
  cbv zeta. revert w; induction l as [|[el c] l IH]; intros w Hp.
  - cbn. rewrite app_nil_r.
    destruct (DOMTriggerOnClick (current_spec w)); rewrite Nat.add_0_r;
      repeat split; assumption.
  - cbn [fold_left fst snd map filter].
    destruct (run_click_listener_gated el c w Hp)
      as (A1 & A2 & A3 & A4 & A5 & A6 & A7 & A8). cbv zeta in *.
    destruct (IH _ A7) as (B1 & B2 & B3 & B4 & B5 & B6 & B7 & B8).
    rewrite B1, B2, B3, B4, B5, B6, B7, B8, A1, A2, A3, A4, A5, A6, A8.
    rewrite <- app_assoc. cbn [app].
    destruct (DOMTriggerOnClick (current_spec w)), (is_trigger c); cbn;
      repeat split; lia.
Qed.

(** X10.  On a platform with [requestPermission], a click on [el] makes one
    permission request for each closure registered on [el], in registration
    order ([retriesCount] 0 for a [DOMTrigger] closure, one more than its own
    for [retry]), and decides nothing: no ready signal settles and the
    subscription stays as it is.  The [DOMTriggerOnClick] callback, when
    given, is called once for each [DOMTrigger] closure and never for
    [retry]. *)
Theorem click_requests_once_per_closure (el : element) (w : World) :
  has_requestPermission w = true ->
  let w' := step (Click el) w in
  pending w' = pending w ++ map request_of (listeners_on el w)
  /\ signals w' = signals w
  /\ _isEnabled w' = _isEnabled w
  /\ on_orientationchange w' = on_orientationchange w
  /\ on_deviceorientation w' = on_deviceorientation w
  /\ DOMTriggerOnClick_calls w'
     = DOMTriggerOnClick_calls w
       + (if DOMTriggerOnClick (current_spec w)
          then length (filter (fun p => is_trigger (snd p))
                         (listeners_on el w))
          else 0).
Proof.
  intros Hp. cbv zeta. cbn [step]. unfold click. fold (listeners_on el w).
  destruct (click_fold_gated (listeners_on el w) w Hp)
    as (B1 & B2 & B3 & B4 & B5 & B6 & _).
  repeat split; assumption.
Qed.

(** Clicks on the [DOMTrigger] of a fresh [init], on a platform with
    [requestPermission]: [m] requests made so far, [n] clicks to come. *)
Lemma trigger_clicks spec el n m (w : World) :
  click_listeners w = [(el, TriggerListener 0)] ->
  has_requestPermission w = true ->
  current_spec w = spec ->
  pending w = repeat (0, 0) m ->
  signals w = [Pending] ->
  _isEnabled w = false ->
  DOMTriggerOnClick_calls w = (if DOMTriggerOnClick spec then m else 0) ->
  let w' := run (repeat (Click el) n) w in
  click_listeners w' = [(el, TriggerListener 0)]
  /\ pending w' = repeat (0, 0) (m + n)
  /\ signals w' = [Pending]
  /\ _isEnabled w' = false
  /\ DOMTriggerOnClick_calls w'
     = (if DOMTriggerOnClick spec then m + n else 0).
Proof.
  cbv zeta. revert m w; induction n as [|n IH]; intros m w Hl Hp Hs Hq Hg He Hc.
  - cbn. rewrite Nat.add_0_r. repeat split; assumption.
  - cbn [repeat run]. rewrite Nat.add_succ_r, <- Nat.add_succ_l.
    assert (L : listeners_on el w = [(el, TriggerListener 0)])
      by (unfold listeners_on; rewrite Hl; cbn; now rewrite element_eqb_refl).
    cbn [step]. unfold click. fold (listeners_on el w).
    destruct (click_fold_gated (listeners_on el w) w Hp)
      as (B1 & B2 & B3 & _ & _ & B6 & B7 & B8). cbv zeta in *.
    apply IH.
    + rewrite click_listeners_fold, L. cbn. exact Hl.
    + exact B7.
    + now rewrite B8.
    + rewrite B1, L, Hq. cbn [map request_of snd].
      symmetry. apply (repeat_cons m (0, 0)).
    + now rewrite B2.
    + now rewrite B3.
    + rewrite B6, L, Hc, Hs. cbn.
      destruct (DOMTriggerOnClick spec); lia.
Qed.

(** X11.  The closure [init] registers on the [DOMTrigger] is not removed
    when it runs: on a platform with [requestPermission], [n] clicks on the
    [DOMTrigger] after a fresh [init] leave [n] permission requests pending
    (each a first attempt) and the ready signal pending, and call the
    [DOMTriggerOnClick] callback [n] times when one is given.  ([THREE] is
    left out or the library, so that [init] runs to its end.) *)
Theorem every_trigger_click_requests_again (spec : Spec) (el : element)
  (n : nat) o :
  init_completes spec = true ->
  DOMTrigger spec = Some el ->
  let w := run (Init spec :: repeat (Click el) n) (loaded o (Some true)) in
  pending w = repeat (0, 0) n
  /\ signals w = [Pending]
  /\ _isEnabled w = false
  /\ click_listeners w = [(el, TriggerListener 0)]
  /\ DOMTriggerOnClick_calls w = (if DOMTriggerOnClick spec then n else 0).
Proof.
  intros Hinit Ht. cbv zeta. cbn [run step].
  destruct (init_with_trigger spec el (loaded o (Some true)) Hinit Ht)
    as (A1 & A2 & A3 & A4 & _). cbv zeta in *. cbn in A1, A2, A3, A4.
  destruct (trigger_clicks spec el n 0 (snd (init spec (loaded o (Some true)))))
    as (B1 & B2 & B3 & B4 & B5); try assumption.
  - unfold has_requestPermission. now rewrite init_doe.
  - unfold current_spec. now rewrite init_spec.
  - unfold init, init_threeInstances, init_completes in *. rewrite Ht. cbn.
    destruct (THREE spec), (DOMTriggerOnClick spec);
      try discriminate Hinit; reflexivity.
  - cbv zeta in *. cbn [Nat.add] in B2, B5. repeat split; assumption.
Qed.

(** *** Teardown in the middle of things *)

#[local] Arguments on_response : simpl never.
#[local] Arguments on_error : simpl never.
#[local] Arguments request_API : simpl never.
#[local] Arguments display_alert : simpl never.
#[local] Arguments init : simpl never.
#[local] Arguments click : simpl never.
#[local] Arguments permission_settles : simpl never.
#[local] Arguments run_click_listener : simpl never.

(** X12.  [destroy()] does not cancel a handshake in progress: a permission
    request left pending still enables the subscription when it is answered
    ['granted'] after the teardown, and on a platform with
    [requestPermission] a click closure left registered ([retry] or the one
    on the [DOMTrigger]) still makes its request when clicked after the
    teardown. *)
Theorem destroy_does_not_cancel_the_handshake (w : World) :
  (forall i k n,
     nth_error (pending w) i = Some (k, n) ->
     let w' := run [Destroy; PermissionSettles i (Resolves "granted")] w in
     _isEnabled w' = true
     /\ on_orientationchange w' = true
     /\ on_deviceorientation w' = true
     /\ (ready_signal w k = Some Pending ->
         ready_signal w' k = Some Fulfilled))
  /\ (forall el l,
        has_requestPermission w = true ->
        In (el, l) (click_listeners w) ->
        In (request_of (el, l)) (pending (run [Destroy; Click el] w))).
Proof.
  split.
  - intros i k n Hi. cbv zeta. cbn [run step]. unfold permission_settles.
    change (pending (destroy w)) with (pending w). rewrite Hi.
    destruct (on_response_granted k
                (set_pending (remove_nth i (pending w)) (destroy w)))
      as (E1 & E2 & E3 & _ & _ & E6). cbv zeta in *. cbn in E6.
    repeat split; try assumption.
    unfold ready_signal. rewrite E6. apply nth_error_settle_in_pending.
  - intros el l Hp Hin. cbn [run step]. unfold click.
    destruct (click_fold_gated
                (filter (fun p => element_eqb (fst p) el)
                   (click_listeners (destroy w))) (destroy w) Hp)
      as (B1 & _). cbv zeta in B1. rewrite B1.
    apply in_or_app. right. apply in_map. apply filter_In.
    split; [exact Hin|apply element_eqb_refl].
Qed.

(** X13.  [destroy()] does not forget the stored sample: when the module is
    initialised again on a platform without [requestPermission] (no
    [DOMTrigger], no [isRejectIfMissing], [THREE] left out or the library),
    the sample stored before the teardown is still there and [update()]
    answers from it at once, before any new sensor event. *)
Theorem stored_sample_survives_teardown (w : World) (spec : Spec)
  (device : DeviceOrientationEvent) :
  init_completes spec = true ->
  has_requestPermission w = false ->
  DOMTrigger spec = None ->
  isRejectIfMissing spec = false ->
  _deviceOrientation w = Some device ->
  let w' := run [Destroy; Init spec] w in
  _deviceOrientation w' = Some device
  /\ _isEnabled w' = true
  /\ fst (update w') <> ReturnsNull.
Proof.
  intros Hinit Hp Ht Hr Hd. cbv zeta. cbn [run step].
  destruct (init_unsupported spec (destroy w) Hinit Ht Hp) as (_ & A2 & _).
  cbv zeta in A2. rewrite Hr in A2. destruct A2 as (E1 & _).
  assert (D : _deviceOrientation (snd (init spec (destroy w))) = Some device)
    by (now rewrite init_device).
  repeat split; try assumption.
  rewrite update_null, E1, D. intros [H|H]; discriminate H.
Qed.

(** *** The retry path to its end *)

(** The world after the retry click of a fresh [init] without [DOMTrigger]
    whose first request failed as not allowed. *)
Lemma after_retry_click spec o e :
  init_completes spec = true ->
  DOMTrigger spec = None ->
  errorType e = "NOTALLOWEDERROR"%string ->
  let w :=
    run [Init spec; PermissionSettles 0 (Fails e);
         Click (retry_element spec)] (loaded o (Some true)) in
  pending w = [(0, 1)]
  /\ click_listeners w = []
  /\ signals w = [Pending]
  /\ _isEnabled w = false
  /\ on_orientationchange w = false
  /\ on_deviceorientation w = false.
Proof.
  intros Hinit Ht He. cbv zeta. cbn [run step].
  set (w0 := snd (init spec (loaded o (Some true)))).
  destruct (init_requests spec (loaded o (Some true)) Hinit Ht eq_refl)
    as (A1 & A2 & A3 & A4 & A5 & A6).
  cbv zeta in *. cbn in A1, A2, A3, A4, A5, A6.
  fold w0 in A1, A2, A3, A4, A5, A6.
  assert (S0 : current_spec w0 = spec)
    by (unfold current_spec, w0; now rewrite init_spec).
  assert (P0 : has_requestPermission w0 = true)
    by (unfold has_requestPermission, w0; now rewrite init_doe).
  set (w1 := permission_settles 0 (Fails e) w0).
  assert (P1 : has_requestPermission w1 = true).
  { unfold has_requestPermission, w1.
    rewrite (sc_doe _ _ (permission_settles_core 0 (Fails e) w0)).
    exact P0. }
  assert (B : pending w1 = []
              /\ click_listeners w1
                 = [(retry_element spec, RetryListener 0 0)]
              /\ signals w1 = [Pending]
              /\ _isEnabled w1 = false
              /\ on_orientationchange w1 = false
              /\ on_deviceorientation w1 = false).
  { unfold w1, permission_settles. rewrite A3. cbn [nth_error remove_nth].
    destruct (on_error_retries 0 0 e (set_pending [] w0))
      as (E1 & E2 & E3 & E4 & E5 & E6).
    { unfold retries.
      change (current_spec (set_pending [] w0)) with (current_spec w0).
      now rewrite S0, He, Ht. }
    cbv zeta in *. cbn in E1, E2, E3, E4, E5, E6.
    change (current_spec (set_pending [] w0)) with (current_spec w0) in E1.
    rewrite S0 in E1.
    rewrite E1, E2, E3, E4, E5, E6, A1, A2, A4, A5, A6.
    repeat split. }
  destruct B as (B1 & B2 & B3 & B4 & B5 & B6).
  unfold click. rewrite click_listeners_fold.
  destruct (click_fold_gated
              (filter (fun p => element_eqb (fst p) (retry_element spec))
                 (click_listeners w1)) w1 P1)
    as (C1 & C2 & C3 & C4 & C5 & _). cbv zeta in *.
  rewrite C1, C2, C3, C4, C5, B1, B2, B3, B4, B5, B6.
  cbn. rewrite element_eqb_refl. cbn. rewrite listener_eqb_refl.
  repeat split.
Qed.

(** X14.  The retry path ends like a first request: after a fresh [init]
    without [DOMTrigger] (and with [THREE] left out or the library, so that
    it runs to its end) whose first request failed as not allowed, and the
    retry click, the answer to the second request fulfills the ready signal;
    the subscription is enabled exactly when the answer is ['granted'];
    nothing is left pending or registered for [click]. *)
Theorem retry_then_answer (spec : Spec) o (e response : string) :
  init_completes spec = true ->
  DOMTrigger spec = None ->
  errorType e = "NOTALLOWEDERROR"%string ->
  let w :=
    run [Init spec; PermissionSettles 0 (Fails e);
         Click (retry_element spec);
         PermissionSettles 0 (Resolves response)] (loaded o (Some true)) in
  signals w = [Fulfilled]
  /\ pending w = []
  /\ click_listeners w = []
  /\ _isEnabled w = String.eqb response "granted"
  /\ on_orientationchange w = String.eqb response "granted"
  /\ on_deviceorientation w = String.eqb response "granted".
Proof.
  intros Hinit Ht He. cbv zeta.
  destruct (after_retry_click spec o e Hinit Ht He)
    as (A1 & A2 & A3 & A4 & A5 & A6).
  cbv zeta in *.
  change (run [Init spec; PermissionSettles 0 (Fails e);
               Click (retry_element spec);
               PermissionSettles 0 (Resolves response)]
            (loaded o (Some true)))
    with (permission_settles 0 (Resolves response)
            (run [Init spec; PermissionSettles 0 (Fails e);
                  Click (retry_element spec)] (loaded o (Some true)))).
  remember (run [Init spec; PermissionSettles 0 (Fails e);
                 Click (retry_element spec)] (loaded o (Some true))) as w2.
  clear Heqw2.
  unfold permission_settles. rewrite A1. cbn [nth_error remove_nth].
  destruct (String.eqb response "granted") eqn:Er.
  - apply String.eqb_eq in Er. subst response.
    destruct (on_response_granted 0 (set_pending [] w2))
      as (E1 & E2 & E3 & E4 & E5 & E6).
    cbv zeta in *. cbn in E4, E5, E6.
    rewrite E1, E2, E3, E4, E5, E6, A2, A3. repeat split.
  - destruct (on_response_refused 0 response (set_pending [] w2) Er)
      as (E1 & E2 & E3 & E4 & E5 & E6).
    cbv zeta in *. cbn in E1, E2, E3, E4, E5, E6.
    rewrite E1, E2, E3, E4, E5, E6, A2, A3, A4, A5, A6. repeat split.
Qed.

(** *** Alerts are a side channel *)

Section Quiet.

Variable g : Spec -> Spec.
Hypothesis Hg : switches_alerts_off g.

Lemma quiet_debugAlerts (w : World) :
  debugAlerts (current_spec (quiet_with g w)) = false.
Proof.
  unfold current_spec. cbn. destruct (_spec w); [apply Hg|reflexivity].
Qed.

Lemma quiet_isRejectIfMissing (w : World) :
  isRejectIfMissing (current_spec (quiet_with g w))
  = isRejectIfMissing (current_spec w).
Proof.
  unfold current_spec. cbn. destruct (_spec w); [apply Hg|reflexivity].
Qed.

Lemma quiet_DOMTrigger (w : World) :
  DOMTrigger (current_spec (quiet_with g w)) = DOMTrigger (current_spec w).
Proof.
  unfold current_spec. cbn. destruct (_spec w); [apply Hg|reflexivity].
Qed.

Lemma quiet_DOMRetryTrigger (w : World) :
  DOMRetryTrigger (current_spec (quiet_with g w))
  = DOMRetryTrigger (current_spec w).
Proof.
  unfold current_spec. cbn. destruct (_spec w); [apply Hg|reflexivity].
Qed.

Lemma quiet_DOMTriggerOnClick (w : World) :
  DOMTriggerOnClick (current_spec (quiet_with g w))
  = DOMTriggerOnClick (current_spec w).
Proof.
  unfold current_spec. cbn. destruct (_spec w); [apply Hg|reflexivity].
Qed.

(** Nothing is shown in a quiet world, and what is shown is gone once the
    world is made quiet. *)
Lemma display_alert_quiet msg (w : World) :
  display_alert msg (quiet_with g w) = quiet_with g w.
Proof. unfold display_alert. now rewrite quiet_debugAlerts. Qed.

Lemma quiet_display_alert msg (w : World) :
  quiet_with g (display_alert msg w) = quiet_with g w.
Proof.
  unfold display_alert. now destruct (debugAlerts (current_spec w)).
Qed.

Lemma quiet_request_API n k (w : World) :
  quiet_with g (request_API n k w) = request_API n k (quiet_with g w).
Proof.
  unfold request_API.
  change (has_requestPermission (quiet_with g w))
    with (has_requestPermission w).
  rewrite quiet_isRejectIfMissing.
  destruct (has_requestPermission w); [reflexivity|].
  destruct (isRejectIfMissing (current_spec w)).
  - rewrite display_alert_quiet.
    change (quiet_with g (reject k (display_alert
                                      "DeviceOrientationEvent missing" w)))
      with (reject k (quiet_with g (display_alert
                                      "DeviceOrientationEvent missing" w))).
    now rewrite quiet_display_alert.
  - change (add_eventListeners (quiet_with g w))
      with (quiet_with g (add_eventListeners w)).
    rewrite display_alert_quiet.
    match goal with
    | |- quiet_with g (accept k (display_alert ?m ?x)) = _ =>
        change (quiet_with g (accept k (display_alert m x)))
          with (accept k (quiet_with g (display_alert m x)))
    end.
    now rewrite quiet_display_alert.
Qed.

Lemma quiet_on_response k response (w : World) :
  quiet_with g (on_response k response w)
  = on_response k response (quiet_with g w).
Proof.
  unfold on_response. rewrite display_alert_quiet.
  match goal with
  | |- quiet_with g (accept k ?x) = _ =>
      change (quiet_with g (accept k x)) with (accept k (quiet_with g x))
  end.
  f_equal. destruct (String.eqb response "granted").
  - change (add_eventListeners (quiet_with g w))
      with (quiet_with g (add_eventListeners w)).
    rewrite display_alert_quiet, quiet_display_alert.
    match goal with
    | |- quiet_with g (add_eventListeners ?x) = _ =>
        change (quiet_with g (add_eventListeners x))
          with (add_eventListeners (quiet_with g x))
    end.
    now rewrite quiet_display_alert.
  - now rewrite display_alert_quiet, !quiet_display_alert.
Qed.

Lemma quiet_on_error n k error (w : World) :
  quiet_with g (on_error n k error w) = on_error n k error (quiet_with g w).
Proof.
  unfold on_error. rewrite display_alert_quiet, display_alert_spec.
  rewrite quiet_DOMTrigger, quiet_DOMRetryTrigger.
  rewrite (sf_click _ _ (display_alert_flow _ w)).
  destruct (_ && _ && _).
  - match goal with
    | |- quiet_with g (set_click_listeners ?l ?x) = _ =>
        change (quiet_with g (set_click_listeners l x))
          with (set_click_listeners l (quiet_with g x))
    end.
    now rewrite quiet_display_alert.
  - match goal with
    | |- quiet_with g (reject k ?x) = _ =>
        change (quiet_with g (reject k x)) with (reject k (quiet_with g x))
    end.
    now rewrite quiet_display_alert.
Qed.

Lemma quiet_permission_settles i o (w : World) :
  quiet_with g (permission_settles i o w)
  = permission_settles i o (quiet_with g w).
Proof.
  unfold permission_settles.
  change (pending (quiet_with g w)) with (pending w).
  destruct (nth_error (pending w) i) as [[k n]|]; [|reflexivity].
  destruct o as [response|error].
  - apply (quiet_on_response k response
             (set_pending (remove_nth i (pending w)) w)).
  - apply (quiet_on_error n k error
             (set_pending (remove_nth i (pending w)) w)).
Qed.

Lemma quiet_run_click_listener el l (w : World) :
  quiet_with g (run_click_listener el l w)
  = run_click_listener el l (quiet_with g w).
Proof.
  destruct l as [k|k n]; unfold run_click_listener.
  - rewrite quiet_request_API, quiet_DOMTriggerOnClick.
    now destruct (DOMTriggerOnClick (current_spec w)).
  - rewrite quiet_request_API, display_alert_quiet. f_equal.
    rewrite (sf_click _ _ (display_alert_flow _ w)).
    match goal with
    | |- quiet_with g (set_click_listeners ?l ?x) = _ =>
        change (quiet_with g (set_click_listeners l x))
          with (set_click_listeners l (quiet_with g x))
    end.
    now rewrite quiet_display_alert.
Qed.

Lemma quiet_click el (w : World) :
  quiet_with g (click el w) = click el (quiet_with g w).
Proof.
  unfold click.
  change (click_listeners (quiet_with g w)) with (click_listeners w).
  generalize (filter (fun p => element_eqb (fst p) el) (click_listeners w)).
  intros l. revert w. induction l as [|p l IH]; intros w; [reflexivity|].
  cbn [fold_left]. now rewrite IH, quiet_run_click_listener.
Qed.

Lemma quiet_init spec (w : World) :
  quiet_with g (snd (init spec w)) = snd (init (g spec) (quiet_with g w)).
Proof.
  unfold init, init_threeInstances. cbn.
  destruct (Hg spec) as (H1 & H2 & _). rewrite H1, H2.
  destruct (THREE spec); cbn; [| |reflexivity];
    (destruct (DOMTrigger spec) as [el|];
     [reflexivity|now rewrite quiet_request_API]).
Qed.

Lemma quiet_step a (w : World) :
  quiet_with g (step a w)
  = step (quiet_action_with g a) (quiet_with g w).
Proof.
  destruct a as [spec|el|i o|event|v| |a q| ]; cbn [step quiet_action_with].
  - apply quiet_init.
  - apply quiet_click.
  - apply quiet_permission_settles.
  - change (on_deviceorientation (quiet_with g w))
      with (on_deviceorientation w).
    destruct (on_deviceorientation w); [|reflexivity].
    unfold onDeviceOrientationChangeEvent.
    now destruct (_ || _ || _).
  - cbn. now destruct (on_orientationchange w).
  - unfold update. cbn.
    destruct (_isEnabled w); [|reflexivity].
    destruct (_deviceOrientation w); [|reflexivity].
    destruct (_isThree w); [|reflexivity].
    now destruct (_threeInstances w).
  - unfold compute_rotation. cbn.
    destruct (_isThree w); [|reflexivity].
    now destruct (_threeInstances w).
  - reflexivity.
Qed.

Lemma quiet_run t (w : World) :
  quiet_with g (run t w)
  = run (map (quiet_action_with g) t) (quiet_with g w).
Proof.
  revert w; induction t as [|a t IH]; intros w; [reflexivity|].
  cbn [run map]. now rewrite IH, quiet_step.
Qed.

End Quiet.

Lemma without_alert_options_off : switches_alerts_off without_alert_options.
Proof. intros spec. repeat split. Qed.

Lemma without_debugAlerts_off : switches_alerts_off without_debugAlerts.
Proof. intros spec. repeat split. Qed.

(** X15.  Alerts are a side channel: a run with the alert log emptied
    afterwards is the run without alert options on the world with its log
    emptied.  So two runs whose options differ in [debug] and [debugAlerts]
    only agree on everything but the log: the subscription, the stored
    sample, the offset, the closures, the requests and the ready
    signals. *)
Theorem alerts_are_a_side_channel (t : list Action) (w : World) :
  quiet (run t w) = run (map quiet_action t) (quiet w)
  /\ (forall t' (w' : World),
        map quiet_action t' = map quiet_action t ->
        quiet w' = quiet w ->
        quiet (run t' w') = quiet (run t w)).
Proof.
  unfold quiet, quiet_action. split.
  - apply quiet_run, without_alert_options_off.
  - intros t' w' Ht Hw.
    rewrite !(quiet_run _ without_alert_options_off). now rewrite Ht, Hw.
Qed.

Lemma without_debugAlerts_same spec :
  debugAlerts spec = false -> without_debugAlerts spec = spec.
Proof. destruct spec; cbn; intros ->; reflexivity. Qed.

Lemma quiet_action_same (t : list Action) :
  existsb asks_for_alerts t = false ->
  map (quiet_action_with without_debugAlerts) t = t.
Proof.
  induction t as [|a t IH]; [reflexivity|].
  cbn [existsb map]. intros H. apply orb_false_iff in H. destruct H as [Ha Ht].
  rewrite (IH Ht). f_equal.
  destruct a; try reflexivity. cbn in *. now rewrite without_debugAlerts_same.
Qed.

(** X16.  No alert is shown unless [init] is given [debugAlerts]: in a run
    from the load in which no [init] has it, the alert log stays empty,
    whatever [debug] is (the option named in the defaults is not the one
    [display_alert] reads). *)
Theorem no_alert_without_debugAlerts (t : list Action) o d :
  existsb asks_for_alerts t = false ->
  alerts (run t (loaded o d)) = [].
Proof.
  intros H.
  pose proof (quiet_run _ without_debugAlerts_off t (loaded o d)) as E.
  rewrite (quiet_action_same t H) in E.
  change (quiet_with without_debugAlerts (loaded o d)) with (loaded o d) in E.
  now rewrite <- E.
Qed.

(** *** The render loop does not interfere *)

Lemma scratch_display_alert msg (w : World) :
  display_alert msg (without_scratch w)
  = without_scratch (display_alert msg w).
Proof.
  unfold display_alert.
  change (current_spec (without_scratch w)) with (current_spec w).
  now destruct (debugAlerts (current_spec w)).
Qed.

Lemma scratch_request_API n k (w : World) :
  request_API n k (without_scratch w) = without_scratch (request_API n k w).
Proof.
  unfold request_API.
  change (has_requestPermission (without_scratch w))
    with (has_requestPermission w).
  change (current_spec (without_scratch w)) with (current_spec w).
  destruct (has_requestPermission w); [reflexivity|].
  destruct (isRejectIfMissing (current_spec w)).
  - now rewrite scratch_display_alert.
  - change (add_eventListeners (without_scratch w))
      with (without_scratch (add_eventListeners w)).
    now rewrite scratch_display_alert.
Qed.

Lemma scratch_on_response k response (w : World) :
  on_response k response (without_scratch w)
  = without_scratch (on_response k response w).
Proof.
  unfold on_response. rewrite scratch_display_alert.
  destruct (String.eqb response "granted").
  - match goal with
    | |- context [add_eventListeners (without_scratch ?x)] =>
        change (add_eventListeners (without_scratch x))
          with (without_scratch (add_eventListeners x))
    end.
    now rewrite scratch_display_alert.
  - now rewrite scratch_display_alert.
Qed.

Lemma scratch_on_error n k error (w : World) :
  on_error n k error (without_scratch w)
  = without_scratch (on_error n k error w).
Proof.
  unfold on_error. rewrite scratch_display_alert.
  match goal with
  | |- context [current_spec (without_scratch ?x)] =>
      change (current_spec (without_scratch x)) with (current_spec x)
  end.
  now destruct (_ && _ && _).
Qed.

Lemma scratch_permission_settles i o (w : World) :
  permission_settles i o (without_scratch w)
  = without_scratch (permission_settles i o w).
Proof.
  unfold permission_settles.
  change (pending (without_scratch w)) with (pending w).
  destruct (nth_error (pending w) i) as [[k n]|]; [|reflexivity].
  destruct o as [response|error].
  - apply (scratch_on_response k response
             (set_pending (remove_nth i (pending w)) w)).
  - apply (scratch_on_error n k error
             (set_pending (remove_nth i (pending w)) w)).
Qed.

Lemma scratch_run_click_listener el l (w : World) :
  run_click_listener el l (without_scratch w)
  = without_scratch (run_click_listener el l w).
Proof.
  destruct l as [k|k n]; unfold run_click_listener.
  - change (current_spec (without_scratch w)) with (current_spec w).
    rewrite <- scratch_request_API.
    now destruct (DOMTriggerOnClick (current_spec w)).
  - rewrite <- scratch_request_API, scratch_display_alert. reflexivity.
Qed.

Lemma scratch_click el (w : World) :
  click el (without_scratch w) = without_scratch (click el w).
Proof.
  unfold click.
  change (click_listeners (without_scratch w)) with (click_listeners w).
  generalize (filter (fun p => element_eqb (fst p) el) (click_listeners w)).
  intros l. revert w. induction l as [|p l IH]; intros w; [reflexivity|].
  cbn [fold_left]. now rewrite <- IH, scratch_run_click_listener.
Qed.

Lemma scratch_init spec (w : World) :
  without_scratch (snd (init spec (without_scratch w)))
  = without_scratch (snd (init spec w)).
Proof.
  unfold init, init_threeInstances. cbn.
  destruct (THREE spec); cbn; [| |reflexivity];
    (destruct (DOMTrigger spec) as [el|];
     [reflexivity|now rewrite <- !scratch_request_API]).
Qed.

Lemma scratch_update (w : World) :
  without_scratch (snd (update w)) = without_scratch w.
Proof.
  unfold update.
  destruct (_isEnabled w); [|reflexivity].
  destruct (_deviceOrientation w); [|reflexivity].
  destruct (_isThree w); [|reflexivity].
  now destruct (_threeInstances w).
Qed.

Lemma scratch_compute_rotation a q (w : World) :
  without_scratch (snd (compute_rotation a q w)) = without_scratch w.
Proof.
  unfold compute_rotation.
  destruct (_isThree w); [|reflexivity].
  now destruct (_threeInstances w).
Qed.

(** What a step leaves outside the scratch objects does not depend on what
    was in them. *)
Lemma scratch_step a (w : World) :
  without_scratch (step a (without_scratch w)) = without_scratch (step a w).
Proof.
  destruct a as [spec|el|i o|event|v| |a q| ]; cbn [step].
  - apply scratch_init.
  - now rewrite scratch_click.
  - now rewrite scratch_permission_settles.
  - change (on_deviceorientation (without_scratch w))
      with (on_deviceorientation w).
    destruct (on_deviceorientation w); [|reflexivity].
    unfold onDeviceOrientationChangeEvent. now destruct (_ || _ || _).
  - cbn. now destruct (on_orientationchange w).
  - now rewrite !scratch_update.
  - now rewrite !scratch_compute_rotation.
  - reflexivity.
Qed.

Lemma scratch_run t (w w' : World) :
  without_scratch w = without_scratch w' ->
  without_scratch (run t w) = without_scratch (run t w').
Proof.
  revert w w'; induction t as [|a t IH]; intros w w' H; [exact H|].
  cbn [run]. apply IH.
  now rewrite <- (scratch_step a w), <- (scratch_step a w'), H.
Qed.

Lemma run_app t1 t2 (w : World) : run (t1 ++ t2) w = run t2 (run t1 w).
Proof.
  revert w; induction t1 as [|a t1 IH]; intros w; [reflexivity|].
  cbn. apply IH.
Qed.

(** X17.  The calls of the render loop do not interfere with anything else:
    a call of [update()] or of [compute_rotationX/Y/Z] anywhere in a run
    changes nothing in the world the run ends in, the contents of the two
    scratch objects ([_angles], [_threeInstances]) apart; and a call
    leaves everything but these two as it is. *)
Theorem render_loop_does_not_interfere (t1 t2 : list Action) (w : World) :
  without_scratch (run (t1 ++ Update :: t2) w)
  = without_scratch (run (t1 ++ t2) w)
  /\ (forall a q,
        without_scratch (run (t1 ++ ComputeRotation a q :: t2) w)
        = without_scratch (run (t1 ++ t2) w))
  /\ without_scratch (step Update w) = without_scratch w
  /\ (forall a q,
        without_scratch (step (ComputeRotation a q) w) = without_scratch w).
Proof.
  split; [|split; [|split]].
  - rewrite !run_app. cbn [run]. apply scratch_run, scratch_update.
  - intros a q. rewrite !run_app. cbn [run].
    apply scratch_run, scratch_compute_rotation.
  - apply scratch_update.
  - intros a q. apply scratch_compute_rotation.
Qed.

(** *** Nothing is read without a grant *)

(** On a platform with [requestPermission], a step that is not a grant keeps
    the module unsubscribed and without a sample. *)
Lemma ungranted_step a (w : World) :
  grants a = false ->
  has_requestPermission w = true
  /\ _isEnabled w = false
  /\ on_orientationchange w = false
  /\ on_deviceorientation w = false
  /\ _deviceOrientation w = None ->
  has_requestPermission (step a w) = true
  /\ _isEnabled (step a w) = false
  /\ on_orientationchange (step a w) = false
  /\ on_deviceorientation (step a w) = false
  /\ _deviceOrientation (step a w) = None.
Proof.
  intros Ha (Hp & He & Ho & Hd & Hs).
  destruct a as [spec|el|i o|event|v| |a q| ]; cbn [step].
  - split; [unfold has_requestPermission in *; now rewrite init_doe|].
    rewrite init_device.
    destruct (init_completes spec) eqn:Hinit;
      [|rewrite (init_throws spec w Hinit); now repeat split].
    destruct (DOMTrigger spec) as [el|] eqn:Ht.
    + destruct (init_with_trigger spec el w Hinit Ht)
        as (_ & _ & _ & E1 & E2 & E3).
      cbv zeta in *. now rewrite E1, E2, E3.
    + destruct (init_requests spec w Hinit Ht Hp)
        as (_ & _ & _ & E1 & E2 & E3).
      cbv zeta in *. now rewrite E1, E2, E3.
  - rewrite (sc_device _ _ (click_core el w)). unfold click.
    destruct (click_fold_gated
                (filter (fun p => element_eqb (fst p) el) (click_listeners w))
                w Hp) as (_ & _ & E1 & E2 & E3 & _ & E4 & _).
    cbv zeta in *. now rewrite E1, E2, E3, E4.
  - pose proof (permission_settles_core i o w) as C.
    rewrite (sc_device _ _ C). unfold has_requestPermission in *.
    rewrite (sc_doe _ _ C). split; [exact Hp|].
    unfold permission_settles.
    destruct (nth_error (pending w) i) as [[k n]|]; [|now repeat split].
    destruct o as [response|error].
    + cbn in Ha.
      destruct (on_response_refused k response
                  (set_pending (remove_nth i (pending w)) w) Ha)
        as (E1 & E2 & E3 & _). cbv zeta in *. cbn in E1, E2, E3.
      now rewrite E1, E2, E3.
    + destruct (retries
                  (current_spec (set_pending (remove_nth i (pending w)) w))
                  n error) eqn:R.
      * destruct (on_error_retries n k error _ R)
          as (_ & _ & _ & E1 & E2 & E3). cbv zeta in *. cbn in E1, E2, E3.
        now rewrite E1, E2, E3.
      * destruct (on_error_rejects n k error _ R)
          as (_ & _ & _ & E1 & E2 & E3). cbv zeta in *. cbn in E1, E2, E3.
        now rewrite E1, E2, E3.
  - rewrite Hd. now repeat split.
  - cbn. rewrite Ho. now repeat split.
  - unfold update. rewrite He. now repeat split.
  - unfold compute_rotation.
    destruct (_isThree w); [|now repeat split].
    destruct (_threeInstances w); now repeat split.
  - now repeat split.
Qed.

(** X18.  On a platform with [requestPermission] nothing is read from the
    sensor before a request is answered ['granted']: in a run from the load
    without such an answer the subscription is disabled, neither handler is
    registered, no sample is stored, and [update()] returns [null],
    whatever else happens (clicks, refusals, errors, retries, sensor
    events). *)
Theorem nothing_is_read_without_a_grant (t : list Action) o :
  existsb grants t = false ->
  let w := run t (loaded o (Some true)) in
  _isEnabled w = false
  /\ on_orientationchange w = false
  /\ on_deviceorientation w = false
  /\ _deviceOrientation w = None
  /\ fst (update w) = ReturnsNull.
Proof.
  intros H. cbv zeta.
  assert (K : forall w : World,
             has_requestPermission w = true
             /\ _isEnabled w = false
             /\ on_orientationchange w = false
             /\ on_deviceorientation w = false
             /\ _deviceOrientation w = None ->
             has_requestPermission (run t w) = true
             /\ _isEnabled (run t w) = false
             /\ on_orientationchange (run t w) = false
             /\ on_deviceorientation (run t w) = false
             /\ _deviceOrientation (run t w) = None).
  { induction t as [|a t IH]; intros w Hw; [exact Hw|].
    cbn [existsb] in H. apply orb_false_iff in H. destruct H as [Ha Ht].
    cbn [run]. apply (IH Ht). now apply ungranted_step. }
  destruct (K (loaded o (Some true))) as (_ & E1 & E2 & E3 & E4);
    [now repeat split|].
  repeat split; try assumption.
  apply update_null. now left.
Qed.

(** *** One [_spec] for all handshakes *)

(** X19.  The options are one module variable: how the answer to a pending
    request is handled depends on the options of the latest [init], not on
    those of the [init] that made the request.  After an [init] without
    [DOMTrigger] and, before its request is answered, a second [init] with a
    [DOMTrigger], a failure of the first request is not retried, not even a
    not-allowed one: the first ready signal is rejected, the second stays
    pending, and only the [DOMTrigger] closure is registered.  (Both calls
    of [init] run to their end: [THREE] is left out or the library.) *)
Theorem latest_options_rule_pending_requests (spec1 spec2 : Spec)
  (el : element) (e : string) o :
  init_completes spec1 = true ->
  init_completes spec2 = true ->
  DOMTrigger spec1 = None ->
  DOMTrigger spec2 = Some el ->
  let w :=
    run [Init spec1; Init spec2; PermissionSettles 0 (Fails e)]
      (loaded o (Some true)) in
  signals w = [Rejected; Pending]
  /\ click_listeners w = [(el, TriggerListener 1)]
  /\ pending w = []
  /\ _isEnabled w = false.
Proof.
  intros C1 C2 H1 H2. cbv zeta. cbn [run step].
  destruct (init_requests spec1 (loaded o (Some true)) C1 H1 eq_refl)
    as (A1 & A2 & A3 & A4 & _). cbv zeta in *. cbn in A1, A2, A3, A4.
  remember (snd (init spec1 (loaded o (Some true)))) as w0. clear Heqw0.
  destruct (init_with_trigger spec2 el w0 C2 H2) as (B1 & B2 & B3 & B4 & _).
  cbv zeta in *.
  assert (S1 : current_spec (snd (init spec2 w0)) = spec2)
    by (unfold current_spec; now rewrite init_spec).
  remember (snd (init spec2 w0)) as w1. clear Heqw1.
  rewrite A1, A2 in *. rewrite A3 in B3. rewrite A4 in B4. cbn in B1, B2.
  unfold permission_settles. rewrite B3. cbn [nth_error remove_nth].
  destruct (on_error_rejects 0 0 e (set_pending [] w1))
    as (E1 & E2 & E3 & E4 & _).
  { unfold retries.
    change (current_spec (set_pending [] w1)) with (current_spec w1).
    rewrite S1, H2. now rewrite andb_false_r. }
  cbv zeta in *. cbn in E1, E2, E3, E4.
  rewrite E1, E2, E3, E4, B1, B2, B4. repeat split.
Qed.

(** *** An [init] that fails *)

(** X20.  [init] throws exactly when it is given a [THREE] that is neither
    [null] nor the library, and what it throws is a [TypeError]; otherwise it
    returns a new ready signal.  A call that throws has replaced the options
    and set [_isThree], and has done nothing else: no ready signal is made,
    no permission request and no click closure, the subscription, the screen
    offset, the stored sample and [_threeInstances] are as before.  The
    requests of earlier calls are then answered under the new options. *)
Theorem failed_init_replaces_the_options_only (spec : Spec) (w : World) :
  (fst (init spec w) = inl TypeError <-> THREE spec = THREE_other)
  /\ (fst (init spec w) = inr (length (signals w))
      <-> init_completes spec = true)
  /\ (init_completes spec = true ->
      length (signals (snd (init spec w))) = S (length (signals w)))
  /\ (THREE spec = THREE_other ->
      let w' := snd (init spec w) in
      same_flow w w'
      /\ _spec w' = Some spec
      /\ _isThree w' = true
      /\ _threeInstances w' = _threeInstances w
      /\ _angles w' = _angles w
      /\ _deviceOrientation w' = _deviceOrientation w
      /\ _screenOrientation w' = _screenOrientation w
      /\ alerts w' = alerts w
      /\ forall i k n e,
           nth_error (pending w) i = Some (k, n) ->
           step (PermissionSettles i (Fails e)) w'
           = on_error n k e (set_pending (remove_nth i (pending w)) w')
           /\ current_spec (set_pending (remove_nth i (pending w)) w')
              = spec).
Proof.
  split; [|split; [|split]].
  - unfold init, init_threeInstances. cbn.
    destruct (THREE spec); cbn; split; intros H; try discriminate H;
      reflexivity.
  - unfold init, init_threeInstances, init_completes. cbn.
    destruct (THREE spec); cbn; split; intros H; try discriminate H;
      reflexivity.
  - intros H. destruct (DOMTrigger spec) as [el|] eqn:Ht.
    + destruct (init_with_trigger spec el w H Ht) as (_ & E & _).
      cbv zeta in E. rewrite E, length_app. cbn. lia.
    + destruct (has_requestPermission w) eqn:Hp.
      * destruct (init_requests spec w H Ht Hp) as (_ & E & _).
        cbv zeta in E. rewrite E, length_app. cbn. lia.
      * destruct (init_unsupported spec w H Ht Hp) as (E & _).
        cbv zeta in E. rewrite E, length_app. cbn. lia.
  - intros H. cbv zeta.
    assert (Hc : init_completes spec = false)
      by (unfold init_completes; now rewrite H).
    rewrite (init_throws spec w Hc). cbn [snd].
    split; [constructor; reflexivity|].
    do 7 (split; [reflexivity|]).
    intros i k n e Hi. cbn [step]. unfold permission_settles.
    change (pending (set_isThree true (set_spec (Some spec) w)))
      with (pending w).
    rewrite Hi. split; reflexivity.
Qed.

End Further.


(** ** Further runs *)

Module FurtherRuns.

Import Recorder Inputs MoreInputs.

(** X10, witness: a click on [window], where a [retry] closure and a
    [DOMTrigger] closure are registered. *)
Lemma click_requests_once_per_closure_witness :
  let w' := step (Click window) two_closures in
  has_requestPermission two_closures = true
  /\ listeners_on window two_closures
     = [(window, RetryListener 0 0); (window, TriggerListener 1)]
  /\ pending w'
     = pending two_closures ++ map request_of (listeners_on window two_closures)
  /\ signals w' = signals two_closures
  /\ _isEnabled w' = _isEnabled two_closures
  /\ on_orientationchange w' = on_orientationchange two_closures
  /\ on_deviceorientation w' = on_deviceorientation two_closures
  /\ DOMTriggerOnClick_calls w'
     = DOMTriggerOnClick_calls two_closures
       + (if DOMTriggerOnClick (current_spec two_closures)
          then length (filter (fun p => is_trigger (snd p))
                         (listeners_on window two_closures))
          else 0).
Proof.
  cbv zeta. split; [reflexivity|]. split; [reflexivity|].
  apply (@click_requests_once_per_closure api window two_closures).
  reflexivity.
Defined.

(** X11, witness: three clicks on a [DOMTrigger] with a callback. *)
Lemma every_trigger_click_requests_again_witness :
  let spec := with_callback (Element 1) in
  let w :=
    run (Init spec :: repeat (Click (Element 1)) 3)
      (loaded (JS.Num 0) (Some true)) in
  (init_completes spec = true /\ DOMTrigger spec = Some (Element 1))
  /\ pending w = repeat (0, 0) 3
  /\ signals w = [Pending]
  /\ _isEnabled w = false
  /\ click_listeners w = [(Element 1, TriggerListener 0)]
  /\ DOMTriggerOnClick_calls w = (if DOMTriggerOnClick spec then 3 else 0).
Proof.
  cbv zeta. split; [split; reflexivity|].
  apply (@every_trigger_click_requests_again api (with_callback (Element 1))
           (Element 1) 3 (JS.Num 0)); reflexivity.
Defined.

(** X13, witness: the sample (10, 20, 30) is stored, the module is torn down
    and initialised again. *)
Lemma stored_sample_survives_teardown_witness :
  let w := run [Init _defaultSpec; DeviceOrientation (sample 10 20 30)]
             ungated in
  let w' := run [Destroy; Init _defaultSpec] w in
  (init_completes _defaultSpec = true
   /\ has_requestPermission w = false
   /\ DOMTrigger _defaultSpec = None
   /\ isRejectIfMissing _defaultSpec = false
   /\ _deviceOrientation w = Some (sample 10 20 30))
  /\ _deviceOrientation w' = Some (sample 10 20 30)
  /\ _isEnabled w' = true
  /\ fst (update w') <> ReturnsNull.
Proof.
  cbv zeta. split; [repeat split|].
  apply (@stored_sample_survives_teardown api
           (run [Init _defaultSpec; DeviceOrientation (sample 10 20 30)]
              ungated) _defaultSpec (sample 10 20 30)); reflexivity.
Defined.

(** X14, witness: the second request is granted. *)
Lemma retry_then_answer_witness :
  let w :=
    run [Init _defaultSpec; PermissionSettles 0 (Fails not_allowed);
         Click (retry_element _defaultSpec);
         PermissionSettles 0 (Resolves "granted")] gated in
  (init_completes _defaultSpec = true
   /\ DOMTrigger _defaultSpec = None
   /\ errorType not_allowed = "NOTALLOWEDERROR"%string)
  /\ signals w = [Fulfilled]
  /\ pending w = []
  /\ click_listeners w = []
  /\ _isEnabled w = String.eqb "granted" "granted"
  /\ on_orientationchange w = String.eqb "granted" "granted"
  /\ on_deviceorientation w = String.eqb "granted" "granted".
Proof.
  cbv zeta. split; [repeat split|].
  apply (@retry_then_answer api _defaultSpec (JS.Num 0) not_allowed "granted");
    reflexivity.
Defined.

(** X16, witness: [init] is given [debug], not [debugAlerts]; [display_alert]
    is called and shows nothing. *)
Lemma no_alert_without_debugAlerts_witness :
  let t := [Init with_debug; DeviceOrientation (sample 10 20 30)] in
  debug with_debug = true
  /\ existsb asks_for_alerts t = false
  /\ alerts (run t ungated) = [].
Proof.
  cbv zeta. split; [reflexivity|]. split; [reflexivity|].
  apply (@no_alert_without_debugAlerts api
           [Init with_debug; DeviceOrientation (sample 10 20 30)]
           (JS.Num 0) None).
  reflexivity.
Defined.

(** X18, witness: the request is refused, then a sample is sent and the
    page is clicked. *)
Lemma nothing_is_read_without_a_grant_witness :
  let t := [Init _defaultSpec; PermissionSettles 0 (Resolves "denied");
            DeviceOrientation (sample 10 20 30); Click window] in
  let w := run t (loaded (JS.Num 0) (Some true)) in
  existsb grants t = false
  /\ _isEnabled w = false
  /\ on_orientationchange w = false
  /\ on_deviceorientation w = false
  /\ _deviceOrientation w = None
  /\ fst (update w) = ReturnsNull.
Proof.
  cbv zeta. split; [reflexivity|].
  apply (@nothing_is_read_without_a_grant api
           [Init _defaultSpec; PermissionSettles 0 (Resolves "denied");
            DeviceOrientation (sample 10 20 30); Click window] (JS.Num 0)).
  reflexivity.
Defined.

(** X19, witness: the default options, then options with a [DOMTrigger], then
    the first request fails as not allowed. *)
Lemma latest_options_rule_pending_requests_witness :
  let w :=
    run [Init _defaultSpec; Init (with_DOMTrigger (Element 1) false);
         PermissionSettles 0 (Fails not_allowed)] gated in
  (init_completes _defaultSpec = true
   /\ init_completes (with_DOMTrigger (Element 1) false) = true
   /\ DOMTrigger _defaultSpec = None
   /\ DOMTrigger (with_DOMTrigger (Element 1) false) = Some (Element 1))
  /\ signals w = [Rejected; Pending]
  /\ click_listeners w = [(Element 1, TriggerListener 1)]
  /\ pending w = []
  /\ _isEnabled w = false.
Proof.
  cbv zeta. split; [repeat split|].
  apply (@latest_options_rule_pending_requests api _defaultSpec
           (with_DOMTrigger (Element 1) false) (Element 1) not_allowed
           (JS.Num 0)); reflexivity.
Defined.

End FurtherRuns.
